(** * VisionIngest: the batch controller of the front end (App.tsx)

    A shallow embedding of the job orchestrator of the React component
    [App]: the job list [results], the handlers [handleStart],
    [handleStop], [handleRemoveResult], [handleUpdateResult] and the three
    scheduling loops [handleNormalProcessing], [handleBatchProcessing] and
    [handleLowVramProcessing].

    The component is single threaded: an asynchronous handler runs until it
    reaches an [await] and the user can act only while it is suspended
    there.  A run is therefore modelled as a total function of the
    application state and of an environment that tells, for every stage
    call the run may issue, how long it takes, whether the user presses
    Stop while it is in flight and what the server answers.  Everything the
    component does to the outside (fetch calls, object URLs, renders) is
    recorded in a log carried by the state.

    What the model takes from the platform and what it leaves out:
    - a [fetch] that carries an abort signal rejects with an [AbortError]
      as soon as the signal is aborted, also while the body is being read,
      and at once when the signal is aborted already; this is the only
      source of [AbortError];
    - a body that parses is a JSON object whose fields have the types the
      handlers store them at ([detail], [raw_output], [markdown] strings,
      [parsed_data] any JSON value), each of them possibly absent;
    - while a run is suspended the only user action is Stop: removing or
      editing a job and starting another run are described on their own,
      for an arbitrary state, and are not interleaved with a run. *)

From Stdlib Require Import ZArith.
From stdpp Require Import base list strings pretty.

Open Scope string_scope.
Open Scope nat_scope.
Open Scope list_scope.

(** ** Data model *)

(** [status: 'pending' | 'processing' | 'success' | 'error'] *)
Inductive Status : Type := Pending | Processing | Success | Error.

#[global] Instance Status_eq_dec : EqDecision Status.
Proof. solve_decision. Defined.

(** A parsed JSON document ([parsedJson?: object]). *)
#[local] Unset Elimination Schemes.
Inductive Json : Type :=
  | JNull
  | JBool (b : bool)
  | JNum (n : Z)
  | JStr (s : string)
  | JArr (items : list Json)
  | JObj (members : list (string * Json)).
#[local] Set Elimination Schemes.

(** [interface ResultItem]; an optional field that is absent is [None]. *)
Record ResultItem : Type := mkResultItem {
  filename : string;
  status : Status;
  rawMarkdown : option string;
  parsedJson : option Json;
  error : option string;
  processingTime : option Z;
  fileUrl : option string
}.

(** A browser [File]: the handlers read its name and hand the object
    itself to [FormData] and to [URL.createObjectURL]. *)
Record File : Type := mkFile {
  name : string;
  content : string
}.

Inductive ProcessingMode : Type := performance | batch | lowvram.
Inductive OCRQuality : Type := tiny | small | base | large.

Definition quality_param (q : OCRQuality) : string :=
  match q with
  | tiny => "tiny" | small => "small" | base => "base" | large => "large"
  end.

(** Object spread with one field replaced: [{ ...r, status: s }] etc. *)
Definition with_status (s : Status) (r : ResultItem) : ResultItem :=
  mkResultItem (filename r) s (rawMarkdown r) (parsedJson r) (error r)
               (processingTime r) (fileUrl r).

Definition with_rawMarkdown (m : option string) (r : ResultItem) : ResultItem :=
  mkResultItem (filename r) (status r) m (parsedJson r) (error r)
               (processingTime r) (fileUrl r).

Definition with_parsedJson (j : option Json) (r : ResultItem) : ResultItem :=
  mkResultItem (filename r) (status r) (rawMarkdown r) j (error r)
               (processingTime r) (fileUrl r).

Definition with_error (e : option string) (r : ResultItem) : ResultItem :=
  mkResultItem (filename r) (status r) (rawMarkdown r) (parsedJson r) e
               (processingTime r) (fileUrl r).

Definition with_processingTime (t : option Z) (r : ResultItem) : ResultItem :=
  mkResultItem (filename r) (status r) (rawMarkdown r) (parsedJson r) (error r)
               t (fileUrl r).

(** ** The outside world *)

(** The payload of a [fetch] call, one constructor per endpoint. *)
Inductive Request : Type :=
  | OcrProcess (file : File) (llm_model template : string)
               (context_window : Z) (quality : string)
  | OcrExtract (file : File) (quality : string)
  | OcrUnload
  | LlmParse (markdown : option string) (file_name llm_model template : string)
             (context_window : Z).

(** Which call of a run a [fetch] is: the stage and the index of the job it
    is issued for.  The unload of the Batch policy belongs to no job. *)
Inductive Call : Type :=
  | CallProcess (i : nat)
  | CallExtract (i : nat)
  | CallUnload (job : option nat)
  | CallParse (i : nat).

#[global] Instance Call_eq_dec : EqDecision Call.
Proof. solve_decision. Defined.

(** What the component does to the outside, newest first in the log. *)
Inductive Event : Type :=
  | EvFetch (c : Call) (req : Request)
  | EvCreateObjectURL (f : File) (url : string)
  | EvRevokeObjectURL (url : string)
  | EvWarn (msg : string)
  | EvStop
  | EvRender (rs : list ResultItem).

(** [abortControllerRef.current]: the controller and its signal's flag. *)
Record AbortController : Type := mkAbortController { aborted : bool }.

(** The state of the component and of the browser around it. *)
Record App : Type := mkApp {
  results : list ResultItem;
  isProcessing : bool;
  abortControllerRef : option AbortController;
  clock : Z;            (* what [Date.now()] returns *)
  blobs : nat;          (* object URLs handed out so far *)
  log : list Event
}.

Definition initialApp : App := mkApp [] false None 0 0 [].

(** A value that reaches a [catch]: an [Error] instance or anything else. *)
Inductive Thrown : Type :=
  | ErrorObject (ename message : string)
  | OtherValue.

(** The JSON object of a response body, as far as the handlers read it. *)
Record ResponseData : Type := mkResponseData {
  detail : option string;
  raw_output : option string;
  markdown : option string;
  parsed_data : option Json
}.

(** [await response.json()] yields the object or rejects (SyntaxError). *)
Inductive Body : Type :=
  | JsonBody (d : ResponseData)
  | NotJson (message : string).

(** How an undisturbed call ends: the request fails on the network
    (a TypeError) or a response arrives. *)
Inductive Outcome : Type :=
  | NetworkFailure (message : string)
  | Responded (ok : bool) (body : Body).

(** One suspension of the run at a stage call: the time that passes, whether
    the user presses Stop meanwhile, and the outcome if nothing aborts it. *)
Record Await : Type := mkAwait {
  stopped : bool;
  elapsed : Z;
  outcome : Outcome
}.

Definition Env : Type := Call → Await.

(** ** State primitives *)

Definition logEvent (e : Event) (st : App) : App :=
  mkApp (results st) (isProcessing st) (abortControllerRef st) (clock st)
        (blobs st) (e :: log st).

(** [setResults(prev => f(prev))], followed by the render it causes. *)
Definition setResults (f : list ResultItem → list ResultItem) (st : App) : App :=
  mkApp (f (results st)) (isProcessing st) (abortControllerRef st) (clock st)
        (blobs st) (EvRender (f (results st)) :: log st).

Definition setIsProcessing (b : bool) (st : App) : App :=
  mkApp (results st) b (abortControllerRef st) (clock st) (blobs st) (log st).

Definition setAbortControllerRef (c : option AbortController) (st : App) : App :=
  mkApp (results st) (isProcessing st) c (clock st) (blobs st) (log st).

Definition advanceClock (dt : Z) (st : App) : App :=
  mkApp (results st) (isProcessing st) (abortControllerRef st)
        (clock st + dt)%Z (blobs st) (log st).

(** [prev.map((r, idx) => idx === i ? g(r) : r)] *)
Definition mapAt (i : nat) (g : ResultItem → ResultItem)
    (prev : list ResultItem) : list ResultItem :=
  imap (λ idx r, if decide (idx = i) then g r else r) prev.

Definition setAt (i : nat) (g : ResultItem → ResultItem) (st : App) : App :=
  setResults (mapAt i g) st.

(** [abortControllerRef.current?.signal.aborted], as a condition. *)
Definition signalAborted (st : App) : bool :=
  match abortControllerRef st with
  | Some c => aborted c
  | None => false
  end.

(** [URL.createObjectURL(f)]: a fresh, non-empty [blob:] URL. *)
Definition createObjectURL (f : File) (st : App) : string * App :=
  let url := "blob:" +:+ pretty (blobs st) in
  (url, mkApp (results st) (isProcessing st) (abortControllerRef st) (clock st)
              (S (blobs st)) (EvCreateObjectURL f url :: log st)).

Definition revokeObjectURL (url : string) (st : App) : App :=
  logEvent (EvRevokeObjectURL url) st.

(** The truth value of [result.fileUrl] in a condition: the URL when the
    field is present and not the empty string. *)
Definition truthyUrl (u : option string) : option string :=
  match u with
  | Some "" => None
  | Some s => Some s
  | None => None
  end.

(** ** The synchronous handlers *)

(** [handleStop]; the log keeps a mark of the call. *)
Definition handleStop (st : App) : App :=
  let st := logEvent EvStop st in
  let st :=
    match abortControllerRef st with
    | Some _ => setAbortControllerRef (Some (mkAbortController true)) st
    | None => st
    end in
  let st := setResults (map (λ r,
              if decide (status r = Processing) then with_status Pending r else r))
              st in
  setIsProcessing false st.

(** [prev.filter((_, i) => i !== index)], scanning from position [i]. *)
Fixpoint filterOut (index i : nat) (prev : list ResultItem) : list ResultItem :=
  match prev with
  | [] => []
  | r :: rest =>
      if decide (i ≠ index) then r :: filterOut index (S i) rest
      else filterOut index (S i) rest
  end.

Definition undefinedRead (field : string) : Thrown :=
  ErrorObject "TypeError"
    ("Cannot read properties of undefined (reading '" +:+ field +:+ "')").

(** [handleRemoveResult]: the updater reads [prev[index].fileUrl] first,
    which throws when the slot is undefined. *)
Definition handleRemoveResult (index : nat) (st : App) : Thrown + App :=
  match results st !! index with
  | None => inl (undefinedRead "fileUrl")
  | Some result =>
      let st :=
        match truthyUrl (fileUrl result) with
        | Some url => revokeObjectURL url st
        | None => st
        end in
      inr (setResults (filterOut index 0) st)
  end.

(** [handleUpdateResult] *)
Definition handleUpdateResult (index : nat) (value : Json) (st : App) : App :=
  setAt index (with_parsedJson (Some value)) st.

(** ** Stage calls *)

(** The [DOMException] with which an aborted [fetch] rejects. *)
Definition abortError : Thrown :=
  ErrorObject "AbortError" "signal is aborted without reason".

(** [err instanceof Error && err.name === 'AbortError'] *)
Definition isAbortError (err : Thrown) : bool :=
  match err with
  | ErrorObject n _ => bool_decide (n = "AbortError")
  | OtherValue => false
  end.

(** [err instanceof Error ? err.message : fallback] *)
Definition errorMessage (fallback : string) (err : Thrown) : string :=
  match err with
  | ErrorObject _ m => m
  | OtherValue => fallback
  end.

(** [d || fallback] on an optional string. *)
Definition orElse (d : option string) (fallback : string) : string :=
  match d with
  | Some "" => fallback
  | Some s => s
  | None => fallback
  end.

(** The catch branch shared by the loops:
    [{ ...r, status: 'error', error: <message of err> }] *)
Definition failed (fallback : string) (err : Thrown) (r : ResultItem) : ResultItem :=
  with_error (Some (errorMessage fallback err)) (with_status Error r).

(** While a call is in flight the clock moves and the user may press Stop. *)
Definition suspend (a : Await) (st : App) : App :=
  let st := advanceClock (elapsed a) st in
  if stopped a then handleStop st else st.

Definition settle (o : Outcome) : Thrown + (bool * Body) :=
  match o with
  | NetworkFailure m => inl (ErrorObject "TypeError" m)
  | Responded ok body => inr (ok, body)
  end.

(** [await fetch(url, { ..., signal })] together with the read of the body
    that follows it.  With [withSignal] the call carries
    [abortControllerRef.current?.signal]: it rejects at once when that
    signal is already aborted, and it rejects with the abort error when the
    user stops the run while it is in flight, whatever the server would have
    answered.  Without a signal the call always runs to its outcome. *)
Definition fetch (env : Env) (c : Call) (req : Request) (withSignal : bool)
    (st : App) : App * (Thrown + (bool * Body)) :=
  let st := logEvent (EvFetch c req) st in
  match (if withSignal then abortControllerRef st else None) with
  | Some ctl =>
      if aborted ctl then (st, inl abortError)
      else if stopped (env c) then (suspend (env c) st, inl abortError)
      else (suspend (env c) st, settle (outcome (env c)))
  | None => (suspend (env c) st, settle (outcome (env c)))
  end.

Definition readJson (b : Body) : Thrown + ResponseData :=
  match b with
  | JsonBody d => inr d
  | NotJson m => inl (ErrorObject "SyntaxError" m)
  end.

(** The body of each [try] after the [fetch]:
    [if (!response.ok) { const errorData = await response.json();
                         throw new Error(errorData.detail || fallback) }
     const data = await response.json()] *)
Definition okJson (fallback : string) (r : Thrown + (bool * Body))
    : Thrown + ResponseData :=
  match r with
  | inl err => inl err
  | inr (ok, body) =>
      if ok then readJson body
      else match readJson body with
           | inl err => inl err
           | inr errorData =>
               inl (ErrorObject "Error" (orElse (detail errorData) fallback))
           end
  end.

(** The three updates of a job that record a completed stage:
    [{ ...r, status: 'success', rawMarkdown: data.raw_output,
       parsedJson: data.parsed_data, processingTime }] *)
Definition processed (data : ResponseData) (t : Z) (r : ResultItem) : ResultItem :=
  with_processingTime (Some t)
    (with_parsedJson (parsed_data data)
      (with_rawMarkdown (raw_output data) (with_status Success r))).

(** [{ ...r, rawMarkdown: data.markdown, status: 'pending' }] *)
Definition extracted (data : ResponseData) (r : ResultItem) : ResultItem :=
  with_status Pending (with_rawMarkdown (markdown data) r).

(** [{ ...r, status: 'success', parsedJson: data.parsed_data, processingTime }] *)
Definition parsed (data : ResponseData) (t : Z) (r : ResultItem) : ResultItem :=
  with_processingTime (Some t)
    (with_parsedJson (parsed_data data) (with_status Success r)).

(** [{ index, markdown, startTime }], an entry of [markdownResults]. *)
Record MarkdownResult : Type := mkMarkdownResult {
  mr_index : nat;
  mr_markdown : option string;
  mr_startTime : Z
}.

(** How an iteration of a loop ends: it falls through or [continue]s to the
    next one, or it [break]s out of the loop. *)
Inductive Flow : Type := Next | Break.

(** [for (let i = i0; i < i0 + items.length; i++) body], and [for ... of]:
    the body gets the index, the item at that index and the loop's state. *)
Fixpoint forEach {A St : Type} (body : nat → A → St → Flow * St)
    (i : nat) (items : list A) (s : St) : St :=
  match items with
  | [] => s
  | x :: items' =>
      match body i x s with
      | (Next, s') => forEach body (S i) items' s'
      | (Break, s') => s'
      end
  end.

Section Run.

Variable files : list File.
Variable model template : string.
Variable contextWindow : Z.
Variable quality : string.
Variable env : Env.

(** [try { await fetch('/api/ocr/unload', { method: 'POST' }) }
     catch (e) { console.warn(...) }] *)
Definition unloadModel (c : Call) (st : App) : App :=
  let '(st, r) := fetch env c OcrUnload false st in
  match r with
  | inl _ => logEvent (EvWarn "Failed to unload OCR model:") st
  | inr _ => st
  end.

(** The body of the loop of [handleNormalProcessing]. *)
Definition normalBody (i : nat) (file : File) (st : App) : Flow * App :=
  if signalAborted st then (Break, st)
  else
    let st := setAt i (with_status Processing) st in
    let startTime := clock st in
    let '(st, r) :=
      fetch env (CallProcess i)
            (OcrProcess file model template contextWindow quality) true st in
    match okJson "Processing failed" r with
    | inr data =>
        let processingTime := (clock st - startTime)%Z in
        (Next, setAt i (processed data processingTime) st)
    | inl err =>
        if isAbortError err then (Break, setAt i (with_status Pending) st)
        else (Next, setAt i (failed "Unknown error" err) st)
    end.

Definition handleNormalProcessing (st : App) : App :=
  forEach normalBody 0 files st.

(** The body of Phase 1 of [handleBatchProcessing]; the second component
    of the loop's state is [markdownResults]. *)
Definition extractBody (i : nat) (file : File)
    (s : App * list MarkdownResult) : Flow * (App * list MarkdownResult) :=
  let '(st, markdownResults) := s in
  if signalAborted st then (Break, (st, markdownResults))
  else
    let st := setAt i (with_status Processing) st in
    let startTime := clock st in
    let '(st, r) :=
      fetch env (CallExtract i) (OcrExtract file quality) true st in
    match okJson "OCR failed" r with
    | inr data =>
        let markdownResults :=
          markdownResults ++ [mkMarkdownResult i (markdown data) startTime] in
        (Next, (setAt i (extracted data) st, markdownResults))
    | inl err =>
        if isAbortError err then (Break, (st, markdownResults))
        else (Next, (setAt i (failed "OCR failed" err) st, markdownResults))
    end.

(** The [try] of Phase 3: [files[index].name] is read while the request
    is built, then the call is made. *)
Definition parseAttempt (m : MarkdownResult) (st : App)
    : App * (Thrown + ResponseData) :=
  match files !! mr_index m with
  | None => (st, inl (undefinedRead "name"))
  | Some f =>
      let '(st, r) :=
        fetch env (CallParse (mr_index m))
              (LlmParse (mr_markdown m) (name f) model template contextWindow)
              true st in
      (st, okJson "Parse failed" r)
  end.

(** The body of Phase 3 of [handleBatchProcessing]; the position in
    [markdownResults] is not used. *)
Definition parseBody (_ : nat) (m : MarkdownResult) (st : App) : Flow * App :=
  if signalAborted st then (Break, st)
  else
    let st := setAt (mr_index m) (with_status Processing) st in
    let '(st, r) := parseAttempt m st in
    match r with
    | inr data =>
        let processingTime := (clock st - mr_startTime m)%Z in
        (Next, setAt (mr_index m) (parsed data processingTime) st)
    | inl err =>
        if isAbortError err then (Break, st)
        else (Next, setAt (mr_index m) (failed "Parse failed" err) st)
    end.

Definition handleBatchProcessing (st : App) : App :=
  let '(st, markdownResults) := forEach extractBody 0 files (st, []) in
  if signalAborted st then st
  else
    let st := unloadModel (CallUnload None) st in
    forEach parseBody 0 markdownResults st.

(** The body of the loop of [handleLowVramProcessing]. *)
Definition lowVramBody (i : nat) (file : File) (st : App) : Flow * App :=
  if signalAborted st then (Break, st)
  else
    let startTime := clock st in
    let st := setAt i (with_status Processing) st in
    let '(st, r) :=
      fetch env (CallExtract i) (OcrExtract file quality) true st in
    match okJson "OCR failed" r with
    | inl err =>
        if isAbortError err then (Break, st)
        else (Next, setAt i (failed "OCR failed" err) st)
    | inr data =>
        let md := markdown data in
        let st := setAt i (with_rawMarkdown md) st in
        let st := unloadModel (CallUnload (Some i)) st in
        let '(st, r) :=
          fetch env (CallParse i)
                (LlmParse md (name file) model template contextWindow)
                true st in
        match okJson "Parse failed" r with
        | inr data =>
            let processingTime := (clock st - startTime)%Z in
            (Next, setAt i (parsed data processingTime) st)
        | inl err =>
            if isAbortError err then (Break, st)
            else (Next, setAt i (failed "Parse failed" err) st)
        end
    end.

Definition handleLowVramProcessing (st : App) : App :=
  forEach lowVramBody 0 files st.

End Run.

(** [files.map(f => ({ filename: f.name, status: 'pending',
                       fileUrl: URL.createObjectURL(f) }))] *)
Fixpoint initialResults (fs : list File) (st : App) : list ResultItem * App :=
  match fs with
  | [] => ([], st)
  | f :: fs' =>
      let '(url, st) := createObjectURL f st in
      let '(rs, st) := initialResults fs' st in
      (mkResultItem (name f) Pending None None None None (Some url) :: rs, st)
  end.

(** [handleStart] up to and including [setResults(initialResults)]. *)
Definition startSetup (files : list File) (st : App) : App :=
  let st := setIsProcessing true st in
  let st := setAbortControllerRef (Some (mkAbortController false)) st in
  let '(rs, st) := initialResults files st in
  setResults (λ _, rs) st.

(** [handleStart] *)
Definition handleStart (files : list File) (model template : string)
    (contextWindow : Z) (mode : ProcessingMode) (quality : OCRQuality)
    (env : Env) (st : App) : App :=
  let st := startSetup files st in
  let q := quality_param quality in
  let st :=
    match mode with
    | performance => handleNormalProcessing files model template contextWindow q env st
    | batch => handleBatchProcessing files model template contextWindow q env st
    | lowvram => handleLowVramProcessing files model template contextWindow q env st
    end in
  let st := setIsProcessing false st in
  setAbortControllerRef None st.

(** * Vocabulary of the properties *)

(** ** Reading the log *)

(** The stage calls issued so far, oldest first. *)
Definition issued (l : list Event) : list Call :=
  reverse (omap (λ e, match e with EvFetch c _ => Some c | _ => None end) l).

(** The object URLs released so far, newest first. *)
Definition revoked (l : list Event) : list string :=
  omap (λ e, match e with EvRevokeObjectURL u => Some u | _ => None end) l.

(** The object URLs acquired so far, newest first. *)
Definition acquired (l : list Event) : list string :=
  omap (λ e, match e with EvCreateObjectURL _ u => Some u | _ => None end) l.

Definition isUnload (c : Call) : bool :=
  match c with CallUnload _ => true | _ => false end.

Definition isExtract (c : Call) : bool :=
  match c with CallExtract _ => true | _ => false end.

(** The number of [unload] calls in a list of calls. *)
Definition unloads (cs : list Call) : nat :=
  length (filter (λ c, isUnload c = true) cs).

(** The job a call is made for. *)
Definition callJob (c : Call) : option nat :=
  match c with
  | CallProcess i | CallExtract i | CallParse i => Some i
  | CallUnload job => job
  end.

(** The job list of the latest render in a log. *)
Fixpoint lastRender (l : list Event) : list ResultItem :=
  match l with
  | [] => []
  | EvRender rs :: _ => rs
  | _ :: l' => lastRender l'
  end.

(** Events that neither render nor stop. *)
Definition silent (e : Event) : Prop :=
  match e with
  | EvFetch _ _ | EvWarn _ | EvCreateObjectURL _ _ => True
  | _ => False
  end.

(** ** The controller *)

(** The controller [handleStart] installs, and the same after [abort()]. *)
Definition fresh : option AbortController := Some (mkAbortController false).
Definition stoppedRef : option AbortController := Some (mkAbortController true).

(** What [handleStop] does to one job. *)
Definition unprocess (r : ResultItem) : ResultItem :=
  if decide (status r = Processing) then with_status Pending r else r.

(** ** Answers of the environment *)

(** What the [try] block of a stage call gets when nothing aborts the
    call: the data of an OK response or the error that is thrown. *)
Definition answer (fallback : string) (a : Await) : Thrown + ResponseData :=
  okJson fallback (settle (outcome a)).

(** The undisturbed call gets an OK response with a JSON body. *)
Definition succeeds (fallback : string) (a : Await) : bool :=
  match answer fallback a with inr _ => true | inl _ => false end.

(** The call reports a failure: a response that is not OK, whose JSON body
    carries the non-empty message [m] in [detail]. *)
Definition stageFailure (a : Await) (m : string) : Prop :=
  ∃ d, outcome a = Responded false (JsonBody d) ∧ detail d = Some m ∧ m ≠ "".

(** The call gets an OK response whose JSON body has none of the fields the
    handlers read. *)
Definition malformedOk (a : Await) : Prop :=
  outcome a = Responded true (JsonBody (mkResponseData None None None None)).

Definition warnIfFailed (o : Outcome) (st : App) : App :=
  match o with
  | NetworkFailure _ => logEvent (EvWarn "Failed to unload OCR model:") st
  | Responded _ _ => st
  end.

(** The update a loop applies to a job once its call has been answered. *)
Definition normalUpdate (a : Await) : ResultItem → ResultItem :=
  match answer "Processing failed" a with
  | inr data => processed data (elapsed a)
  | inl err => failed "Unknown error" err
  end.

Definition extractUpdate (a : Await) : ResultItem → ResultItem :=
  match answer "OCR failed" a with
  | inr data => extracted data
  | inl err => failed "OCR failed" err
  end.

Definition extractPush (a : Await) (i : nat) (t : Z) : list MarkdownResult :=
  match answer "OCR failed" a with
  | inr data => [mkMarkdownResult i (markdown data) t]
  | inl _ => []
  end.

Definition parseUpdate (a : Await) (t : Z) : ResultItem → ResultItem :=
  match answer "Parse failed" a with
  | inr data => parsed data t
  | inl err => failed "Parse failed" err
  end.

(** ** Jobs *)

(** A job that has left the pipeline for good. *)
Definition terminal (r : ResultItem) : Prop :=
  status r = Success ∨ status r = Error.

Definition erroredWith (m : string) (r : ResultItem) : Prop :=
  status r = Error ∧ error r = Some m.

(** How job [j] ends under each policy when its calls are answered. *)
Definition normalFinal (env : Env) (j : nat) (r : ResultItem) : ResultItem :=
  normalUpdate (env (CallProcess j)) (with_status Processing r).

Definition extractFinal (env : Env) (j : nat) (r : ResultItem) : ResultItem :=
  extractUpdate (env (CallExtract j)) (with_status Processing r).

Definition lowVramFinal (env : Env) (j : nat) (r : ResultItem) : ResultItem :=
  match answer "OCR failed" (env (CallExtract j)) with
  | inl err => failed "OCR failed" err (with_status Processing r)
  | inr data =>
      parseUpdate (env (CallParse j))
        (elapsed (env (CallExtract j)) + elapsed (env (CallUnload (Some j)))
         + elapsed (env (CallParse j)))
        (with_rawMarkdown (markdown data) (with_status Processing r))
  end.

(** ** Cancellation, as the environment decides it *)

(** Stop is pressed during some extract call of Phase 1. *)
Definition phase1Cancelled (env : Env) (n : nat) : bool :=
  existsb (λ i, stopped (env (CallExtract i))) (seq 0 n).

(** The extract call of job [j] is answered with an OK response. *)
Definition extractSucceeds (env : Env) (j : nat) : Prop :=
  succeeds "OCR failed" (env (CallExtract j)) = true.

#[global] Instance extractSucceeds_dec env j : Decision (extractSucceeds env j).
Proof. unfold extractSucceeds. apply _. Defined.

(** The extract call of job [i] completed successfully: nobody stopped the
    run while it was in flight and an OK response with a JSON body came. *)
Definition extractCompleted (env : Env) (i : nat) : bool :=
  negb (stopped (env (CallExtract i))) && succeeds "OCR failed" (env (CallExtract i)).

(** The calls the Low-VRAM policy makes for job [i]. *)
Definition jobCalls (env : Env) (i : nat) : list Call :=
  if extractCompleted env i
  then [CallExtract i; CallUnload (Some i); CallParse i]
  else [CallExtract i].

(** The iteration of the Low-VRAM loop for job [j] ends in a [break]: Stop
    is pressed during its extract call, or, the extract having succeeded,
    during its unload or parse call. *)
Definition lowVramBreaks (env : Env) (j : nat) : bool :=
  stopped (env (CallExtract j)) ||
  (succeeds "OCR failed" (env (CallExtract j)) &&
   (stopped (env (CallUnload (Some j))) || stopped (env (CallParse j)))).

Definition parseCalls (todo : list MarkdownResult) : list Call :=
  (λ m, CallParse (mr_index m)) <$> todo.

(** ** Stopped runs *)

(** Whenever the log [new] of a run has a stop in it, every later render and
    the final job list [final] show the jobs that were on screen when Stop
    was pressed, the one in Processing turned back to Pending. *)
Definition frozenAfterStop (new : list Event) (final : list ResultItem) : Prop :=
  ∀ later earlier, new = later ++ EvStop :: earlier →
    (∀ rs, EvRender rs ∈ later → rs = map unprocess (lastRender earlier)) ∧
    final = map unprocess (lastRender earlier).

(** A run that nobody has stopped so far; [base] is the log before it. *)
Definition Quiet (base : list Event) (st : App) : Prop :=
  abortControllerRef st = fresh ∧
  (∃ new, log st = new ++ base ∧ (EvStop ∉ new) ∧ lastRender new = results st).

(** A run that has been stopped. *)
Definition Halted (base : list Event) (st : App) : Prop :=
  abortControllerRef st = stoppedRef ∧
  (∃ new, log st = new ++ base ∧ frozenAfterStop new (results st)).

Definition Settled (base : list Event) (st : App) : Prop :=
  ∃ new, log st = new ++ base ∧ frozenAfterStop new (results st).

(** ** Sample inputs *)

Definition scanA : File := mkFile "a.pdf" "A".
Definition scanB : File := mkFile "b.pdf" "B".
Definition scanC : File := mkFile "c.png" "C".

(** A complete answer, an empty one and a failure. *)
Definition okAnswer : Await :=
  mkAwait false 5
    (Responded true
       (JsonBody (mkResponseData None (Some "# Invoice") (Some "# Invoice")
                    (Some (JObj [("total", JNum 42)]))))).

Definition emptyAnswer : Await :=
  mkAwait false 1 (Responded true (JsonBody (mkResponseData None None None None))).

Definition failAnswer : Await :=
  mkAwait false 5
    (Responded false
       (JsonBody (mkResponseData (Some "model crashed") None None None))).

Definition stopAnswer : Await :=
  mkAwait true 2 (NetworkFailure "Failed to fetch").

(** Environments: every call succeeds; every call gets an empty object; the
    first job fails its first stage; Stop during the first job; Stop during
    the parse call of the second job. *)
Definition allOk : Env := λ _, okAnswer.
Definition emptyOk : Env := λ _, emptyAnswer.

Definition failFirst : Env := λ c,
  match c with
  | CallProcess 0 | CallExtract 0 => failAnswer
  | _ => okAnswer
  end.

Definition failAll : Env := λ _, failAnswer.

Definition stopAtFirst : Env := λ c,
  match c with
  | CallProcess 0 | CallExtract 0 => stopAnswer
  | _ => okAnswer
  end.

Definition stopAtSecondParse : Env := λ c,
  match c with
  | CallParse 1 => stopAnswer
  | _ => okAnswer
  end.

(** A job list with one job in each status. *)
Definition oneOfEach : App :=
  mkApp [ mkResultItem "a.pdf" Success (Some "# Invoice") (Some (JObj [])) None
            (Some 5%Z) (Some "blob:0");
          mkResultItem "b.pdf" Processing None None None None (Some "blob:1");
          mkResultItem "c.png" Pending None None None None (Some "blob:2");
          mkResultItem "d.png" Error None None (Some "model crashed") None
            (Some "blob:3") ]
        true fresh 0 4 [].

(** Two runs one after the other. *)
Definition firstRun : App :=
  handleStart [scanA] "llm" "invoice" 4096 performance base allOk initialApp.

Definition secondRun : App :=
  handleStart [scanB] "llm" "invoice" 4096 performance base allOk firstRun.

(** ** Vocabulary for whole runs *)

(** What identifies a job on screen: its file name and its preview URL. *)
Definition identity (r : ResultItem) : string * option string :=
  (filename r, fileUrl r).

(** The job list of a run in the log [new] always shows the jobs [ids]. *)
Definition Keeps (base : list Event) (ids : list (string * option string))
    (st : App) : Prop :=
  identity <$> results st = ids ∧
  (∃ new, log st = new ++ base ∧
          ∀ rs, EvRender rs ∈ new → identity <$> rs = ids).

(** An update of a job that leaves its name and preview alone. *)
Definition cosmetic (g : ResultItem → ResultItem) : Prop :=
  ∀ r, identity (g r) = identity r.

(** A job at rest: it is not Processing, it has an error message exactly
    when it is in Error and a processing time exactly when it is in
    Success. *)
Definition wellFormed (r : ResultItem) : Prop :=
  status r ≠ Processing ∧
  (status r = Error ↔ is_Some (error r)) ∧
  (status r = Success ↔ is_Some (processingTime r)).

(** A job no stage has answered yet, waiting or in flight. *)
Definition untouched (r : ResultItem) : Prop :=
  status r = Pending ∧ error r = None ∧ processingTime r = None.

Definition inFlight (r : ResultItem) : Prop :=
  status r = Processing ∧ error r = None ∧ processingTime r = None.

(** At most one job of the list is Processing. *)
Definition solo (rs : list ResultItem) : Prop :=
  ∃ i, ∀ j r, rs !! j = Some r → status r = Processing → j = i.

(** Between two jobs: every job is at rest, the jobs in [waiting] have not
    been touched, and no render of the run shows two jobs in Processing. *)
Definition Tidy (base : list Event) (waiting : nat → Prop) (st : App) : Prop :=
  (∀ j r, results st !! j = Some r →
     wellFormed r ∧ (waiting j → untouched r)) ∧
  (∃ new, log st = new ++ base ∧ ∀ rs, EvRender rs ∈ new → solo rs).

(** While job [i] is in flight. *)
Definition Busy (base : list Event) (waiting : nat → Prop) (i : nat)
    (st : App) : Prop :=
  (∀ j r, results st !! j = Some r →
     (j = i → inFlight r) ∧
     (j ≠ i → wellFormed r ∧ (waiting j → untouched r))) ∧
  (∃ new, log st = new ++ base ∧ ∀ rs, EvRender rs ∈ new → solo rs).

(** The events of a run, since the log [base], all satisfy [P]. *)
Definition Logged (P : Event → Prop) (base : list Event) (st : App) : Prop :=
  ∃ new, log st = new ++ base ∧ Forall P new.

(** A request that carries what belongs to the job it is made for: the
    job's own file, the settings of the run and, for a parse call, the
    markdown that the extract call of the same job returned. *)
Definition wellAddressed (files : list File) (model template : string)
    (contextWindow : Z) (quality : string) (env : Env) (e : Event) : Prop :=
  match e with
  | EvFetch (CallProcess i) req =>
      ∃ f, files !! i = Some f ∧
           req = OcrProcess f model template contextWindow quality
  | EvFetch (CallExtract i) req =>
      ∃ f, files !! i = Some f ∧ req = OcrExtract f quality
  | EvFetch (CallUnload _) req => req = OcrUnload
  | EvFetch (CallParse i) req =>
      ∃ f data, files !! i = Some f ∧
        answer "OCR failed" (env (CallExtract i)) = inr data ∧
        req = LlmParse (markdown data) (name f) model template contextWindow
  | _ => True
  end.

(** The preview URL of the [i]-th file of a run started with [n] URLs
    handed out before. *)
Definition previewUrl (n i : nat) : string := "blob:" +:+ pretty (n + i).

(** How many iterations a loop over [n] items enters, from item [i] on,
    when the iteration for item [j] ends in a [break] exactly if
    [halts j]. *)
Fixpoint started (halts : nat → bool) (i n : nat) : nat :=
  match n with
  | 0 => 0
  | S n' => if halts i then 1 else S (started halts (S i) n')
  end.

(** The sum of [f] over a list of jobs. *)
Definition total (f : nat → Z) (l : list nat) : Z :=
  foldr (λ i acc, (f i + acc)%Z) 0%Z l.

Definition extractTime (env : Env) (i : nat) : Z := elapsed (env (CallExtract i)).
Definition parseTime (env : Env) (i : nat) : Z := elapsed (env (CallParse i)).

(** The time between the start of the extract call of job [k] and the end
    of its parse call in a Batch run over [n] files that nobody stops. *)
Definition batchTime (env : Env) (n k : nat) : Z :=
  (total (extractTime env) (seq k (n - k))
   + elapsed (env (CallUnload None))
   + total (parseTime env) (filter (extractSucceeds env) (seq 0 (S k))))%Z.

(** What the user sees of a removal: the error thrown, or the job list left
    and the object URLs released so far. *)
Definition jobsAndReleased (x : Thrown + App)
    : Thrown + (list ResultItem * list string) :=
  match x with
  | inl e => inl e
  | inr st => inr (results st, revoked (log st))
  end.

(** [then]: a later handler call, made only if the earlier one did not
    throw. *)
Definition andThen (x : Thrown + App) (h : App → Thrown + App) : Thrown + App :=
  match x with
  | inl e => inl e
  | inr st => h st
  end.

(** The user removes the first job of the list [n] times. *)
Fixpoint removeFirst (n : nat) (st : App) : Thrown + App :=
  match n with
  | 0 => inr st
  | S n' => andThen (handleRemoveResult 0 st) (removeFirst n')
  end.

(** * The upload panel ([FileUpload]) *)

(** ** JavaScript strings

    A character of a Rocq string stands for one code unit of the
    JavaScript string; the functions below tell only ASCII characters
    apart. *)

Definition units (s : string) : list Ascii.ascii := String.list_ascii_of_string s.

(** [s.toLowerCase()] on the letters A to Z; the checks below compare the
    result with ASCII text only, and no other code unit lower-cases to an
    ASCII letter that occurs in them. *)
Definition toLowerCaseUnit (c : Ascii.ascii) : Ascii.ascii :=
  let n := Ascii.nat_of_ascii c in
  if (65 <=? n) && (n <=? 90) then Ascii.ascii_of_nat (n + 32) else c.

Definition toLowerCase (s : string) : string :=
  String.string_of_list_ascii (toLowerCaseUnit <$> units s).

(** [s.endsWith(t)] and [s.startsWith(t)] *)
Definition endsWith (s t : string) : bool :=
  bool_decide (units t `suffix_of` units s).

Definition startsWith (s t : string) : bool :=
  bool_decide (units t `prefix_of` units s).

(** [s.slice(0, n)] *)
Definition slice0 (n : nat) (s : string) : string :=
  String.string_of_list_ascii (take n (units s)).

(** ** Files and settings *)

(** A browser [File] as the panel reads it: the object handed on to
    [onStart], its MIME type and its size. *)
Record Picked : Type := mkPicked {
  file : File;
  type : string;
  size : Z
}.

Record OllamaModel : Type := mkOllamaModel {
  model_name : string;
  model_size : Z;
  model_modified : string
}.

Record Template : Type := mkTemplate {
  template_id : string;
  template_name : string;
  template_category : string
}.

Inductive BackendStatus : Type := connecting | loading_model | ready.

(** The state of the component, one field per [useState]. *)
Record Panel : Type := mkPanel {
  isDragging : bool;
  files : list Picked;
  models : list OllamaModel;
  templates : list Template;
  categories : list (string * list (string * string));
  selectedModel : string;
  selectedTemplate : string;
  contextWindow : Z;
  processingMode : ProcessingMode;
  hoveredMode : option ProcessingMode;
  ocrQuality : OCRQuality;
  loadingModels : bool;
  loadingTemplates : bool;
  backendStatus : BackendStatus
}.

Definition initialPanel : Panel :=
  mkPanel false [] [] [] [] "gpt-oss:latest" "resume" 8192 performance None base
          true true connecting.

Definition setIsDragging (b : bool) (st : Panel) : Panel :=
  mkPanel b (files st) (models st) (templates st) (categories st)
          (selectedModel st) (selectedTemplate st) (contextWindow st)
          (processingMode st) (hoveredMode st) (ocrQuality st) (loadingModels st)
          (loadingTemplates st) (backendStatus st).

(** [setFiles(prev => f(prev))] *)
Definition setFiles (f : list Picked → list Picked) (st : Panel) : Panel :=
  mkPanel (isDragging st) (f (files st)) (models st) (templates st) (categories st)
          (selectedModel st) (selectedTemplate st) (contextWindow st)
          (processingMode st) (hoveredMode st) (ocrQuality st) (loadingModels st)
          (loadingTemplates st) (backendStatus st).

Definition setModels (ms : list OllamaModel) (st : Panel) : Panel :=
  mkPanel (isDragging st) (files st) ms (templates st) (categories st)
          (selectedModel st) (selectedTemplate st) (contextWindow st)
          (processingMode st) (hoveredMode st) (ocrQuality st) (loadingModels st)
          (loadingTemplates st) (backendStatus st).

Definition setSelectedModel (m : string) (st : Panel) : Panel :=
  mkPanel (isDragging st) (files st) (models st) (templates st) (categories st)
          m (selectedTemplate st) (contextWindow st)
          (processingMode st) (hoveredMode st) (ocrQuality st) (loadingModels st)
          (loadingTemplates st) (backendStatus st).

Definition setLoadingModels (b : bool) (st : Panel) : Panel :=
  mkPanel (isDragging st) (files st) (models st) (templates st) (categories st)
          (selectedModel st) (selectedTemplate st) (contextWindow st)
          (processingMode st) (hoveredMode st) (ocrQuality st) b
          (loadingTemplates st) (backendStatus st).

Definition setBackendStatus (b : BackendStatus) (st : Panel) : Panel :=
  mkPanel (isDragging st) (files st) (models st) (templates st) (categories st)
          (selectedModel st) (selectedTemplate st) (contextWindow st)
          (processingMode st) (hoveredMode st) (ocrQuality st) (loadingModels st)
          (loadingTemplates st) b.

(** ** Choosing files *)

Definition allowedTypes : list string :=
  ["application/pdf"; "image/png"; "image/jpeg"; "image/webp"].

(** [name.match(/\.(pdf|png|jpg|jpeg|webp)$/i)], as a condition: the name
    ends in a dot and one of the extensions, in any letter case. *)
Definition matchesExtension (name : string) : bool :=
  existsb (λ ext, endsWith (toLowerCase name) ("." +:+ ext))
          ["pdf"; "png"; "jpg"; "jpeg"; "webp"].

Definition isValidFile (f : Picked) : bool :=
  bool_decide (type f ∈ allowedTypes) || matchesExtension (name (file f)).

(** [existingFiles.some(f => f.name === file.name && f.size === file.size)] *)
Definition isDuplicate (f : Picked) (existingFiles : list Picked) : bool :=
  existsb (λ g, bool_decide (name (file g) = name (file f))
                && bool_decide (size g = size f))
          existingFiles.

(** [handleDrop], given [e.dataTransfer.files]. *)
Definition handleDrop (dropped : list Picked) (st : Panel) : Panel :=
  let st := setIsDragging false st in
  let droppedFiles := List.filter isValidFile dropped in
  if 0 <? length droppedFiles
  then setFiles (λ prev,
         let newFiles := List.filter (λ f, negb (isDuplicate f prev)) droppedFiles in
         prev ++ newFiles) st
  else st.

(** [handleFileInput], given [e.target.files], which may be null. *)
Definition handleFileInput (selectedFiles : option (list Picked)) (st : Panel)
    : Panel :=
  match selectedFiles with
  | Some selected =>
      let validFiles := List.filter isValidFile selected in
      setFiles (λ prev,
        let newFiles := List.filter (λ f, negb (isDuplicate f prev)) validFiles in
        prev ++ newFiles) st
  | None => st
  end.

(** [prev.filter((_, i) => i !== index)], scanning from position [i]. *)
Fixpoint withoutIndex (index i : nat) (prev : list Picked) : list Picked :=
  match prev with
  | [] => []
  | f :: rest =>
      if decide (i ≠ index) then f :: withoutIndex index (S i) rest
      else withoutIndex index (S i) rest
  end.

Definition removeFile (index : nat) (st : Panel) : Panel :=
  setFiles (withoutIndex index 0) st.

Definition getFileIcon (f : Picked) : string :=
  if bool_decide (type f = "application/pdf") then "PDF"
  else if startsWith (type f) "image/" then "IMG"
  else "DOC".

(** The label of a file card:
    [name.length > 15 ? name.slice(0, 12) + '...' : name]. *)
Definition fileLabel (name : string) : string :=
  if 15 <? String.length name then slice0 12 name +:+ "..." else name.

(** ** The button *)

(** What a click on the button calls. *)
Inductive Click : Type :=
  | OnStop
  | OnStart (files : list File) (model template : string) (contextWindow : Z)
            (mode : ProcessingMode) (quality : OCRQuality)
  | NoCall.

Definition handleStartStop (isProcessing : bool) (st : Panel) : Click :=
  if isProcessing then OnStop
  else if 0 <? length (files st)
  then OnStart (file <$> files st) (selectedModel st) (selectedTemplate st)
               (contextWindow st) (processingMode st) (ocrQuality st)
  else NoCall.

(** [disabled={files.length === 0 && !isProcessing}] *)
Definition buttonDisabled (isProcessing : bool) (st : Panel) : bool :=
  (length (files st) =? 0) && negb isProcessing.

(** The click handed to the application. *)
Definition dispatch (c : Click) (env : Env) (app : App) : App :=
  match c with
  | OnStop => handleStop app
  | OnStart fs model template contextWindow mode quality =>
      handleStart fs model template contextWindow mode quality env app
  | NoCall => app
  end.

(** ** Waiting for the backend *)

(** How a [fetch] of the panel ends: it rejects, or a response arrives
    whose body [res.json()] yields, unless it rejects too. *)
Inductive Reply (D : Type) : Type :=
  | Unreachable
  | Replied (ok : bool) (body : option D).

Arguments Unreachable {D}.
Arguments Replied {D} ok body.

(** What a polling loop does, oldest first. *)
Inductive Poll : Type :=
  | PollFetch (url : string)
  | PollWait (ms : Z)
  | PollFinally.

Section FetchWithRetry.

Context {D : Type}.
Variable respond : nat → Reply D.
Variable url : string.
Variable onSuccess : D → Panel → Thrown + Panel.
Variable onFinally : Panel → Panel.
Variable baseDelay : Z.

(** The [try] block of attempt [i]: the state with which the function
    returns from inside it, or nothing when the response is not OK or
    [fetch], [res.json()] or [onSuccess] throws. *)
Definition attempt (i : nat) (st : Panel) : option Panel :=
  match respond i with
  | Replied true (Some data) =>
      match onSuccess data st with
      | inr st' => Some st'
      | inl _ => None
      end
  | _ => None
  end.

(** The loop from attempt [i] on, with [remaining] attempts left. *)
Fixpoint retryFrom (remaining i : nat) (st : Panel) (trace : list Poll)
    : Panel * list Poll :=
  match remaining with
  | 0 => (onFinally st, trace ++ [PollFinally])
  | S remaining' =>
      let trace := trace ++ [PollFetch url] in
      match attempt i st with
      | Some st' => (onFinally st', trace ++ [PollFinally])
      | None => retryFrom remaining' (S i) st (trace ++ [PollWait baseDelay])
      end
  end.

Definition fetchWithRetry (maxRetries : nat) (st : Panel) : Panel * list Poll :=
  retryFrom maxRetries 0 st [].

End FetchWithRetry.

(** The body of [/api/ollama/models] and the callback that reads it;
    [data.models.length] throws when the field is missing. *)
Record ModelsData : Type := mkModelsData {
  models_status : option string;
  models_list : option (list OllamaModel)
}.

Definition onModels (data : ModelsData) (st : Panel) : Thrown + Panel :=
  if bool_decide (models_status data = Some "success") then
    match models_list data with
    | None => inl (undefinedRead "length")
    | Some [] => inr st
    | Some (m :: ms) => inr (setSelectedModel (model_name m) (setModels (m :: ms) st))
    end
  else inr st.

Definition loadModels (respond : nat → Reply ModelsData) (st : Panel)
    : Panel * list Poll :=
  fetchWithRetry respond "/api/ollama/models" onModels (setLoadingModels false)
                 1000 30 st.

(** [/api/health], as far as [checkHealth] reads it: the truth value of
    [data.model_loaded]. *)
Record HealthData : Type := mkHealthData { model_loaded : bool }.

Fixpoint healthFrom (respond : nat → Reply HealthData) (remaining i : nat)
    (st : Panel) (trace : list Poll) : Panel * list Poll :=
  match remaining with
  | 0 => (st, trace)
  | S remaining' =>
      let trace := trace ++ [PollFetch "/api/health"] in
      match respond i with
      | Replied true (Some data) =>
          if model_loaded data then (setBackendStatus ready st, trace)
          else healthFrom respond remaining' (S i)
                 (setBackendStatus loading_model st) (trace ++ [PollWait 1000])
      | Replied true None | Unreachable =>
          healthFrom respond remaining' (S i)
            (setBackendStatus connecting st) (trace ++ [PollWait 1000])
      | Replied false _ =>
          healthFrom respond remaining' (S i) st (trace ++ [PollWait 1000])
      end
  end.

Definition checkHealth (respond : nat → Reply HealthData) (st : Panel)
    : Panel * list Poll :=
  healthFrom respond 60 0 st [].

(** The model reported as loaded at poll [i]. *)
Definition loadedAt (respond : nat → Reply HealthData) (i : nat) : bool :=
  match respond i with
  | Replied true (Some data) => model_loaded data
  | _ => false
  end.

(** The polls of [k] unsuccessful attempts: a fetch and a wait each. *)
Fixpoint tries (url : string) (delay : Z) (k : nat) : list Poll :=
  match k with
  | 0 => []
  | S k' => PollFetch url :: PollWait delay :: tries url delay k'
  end.

(** * The result panel ([ResultDisplay]) *)

(** The label of a result card:
    [filename.length > 12 ? filename.slice(0, 9) + '...' : filename]. *)
Definition resultLabel (filename : string) : string :=
  if 12 <? String.length filename then slice0 9 filename +:+ "..." else filename.

(** How the modal shows the original file. *)
Inductive Preview : Type :=
  | PdfEmbed (src : string)
  | ImageTag (src : string)
  | NoPreview.

Definition preview (selectedResult : ResultItem) : Preview :=
  match truthyUrl (fileUrl selectedResult) with
  | Some url =>
      if endsWith (toLowerCase (filename selectedResult)) ".pdf"
      then PdfEmbed (url +:+ "#toolbar=1&navpanes=1&scrollbar=1&view=FitH")
      else ImageTag url
  | None => NoPreview
  end.

(** ** The editor *)

(** The text of the editor, as UTF-16 code units: [handleSaveJson] filters
    it unit by unit. *)
Definition JsText : Type := list N.

(** The component's state; zoom and pan of the preview are left out. *)
Record Viewer : Type := mkViewer {
  selectedResult : option ResultItem;
  selectedIndex : Z;
  showRaw : bool;
  editedJson : option JsText;
  jsonError : option string;
  hasChanges : bool
}.

Definition initialViewer : Viewer := mkViewer None (-1) false (Some []) None false.

(** The truth value of a string that may be null. *)
Definition truthy (s : option string) : bool :=
  match truthyUrl s with Some _ => true | None => false end.

(** The text that [undefined] is converted to. *)
Definition undefinedText : JsText :=
  [117; 110; 100; 101; 102; 105; 110; 101; 100]%N.

Section Editor.

(** [JSON.parse], which throws a [SyntaxError] with a message, and
    [JSON.stringify(_, null, 2)] on a value. *)
Variable parse : JsText → string + Json.
Variable stringify : Json → JsText.

(** [openResult]; [JSON.stringify(undefined)] is [undefined]. *)
Definition openResult (result : ResultItem) (index : Z) (v : Viewer) : Viewer :=
  if decide (status result = Success)
  then mkViewer (Some result) index false (stringify <$> parsedJson result)
                None false
  else v.

Definition handleJsonChange (value : JsText) (v : Viewer) : Viewer :=
  mkViewer (selectedResult v) (selectedIndex v) (showRaw v) (Some value)
           (match parse value with inl m => Some m | inr _ => None end)
           true.

(** [handleApplyChanges], called from the modal of the selected result
    [r]; the second component is the call of [onUpdate], if any. *)
Definition handleApplyChanges (r : ResultItem) (v : Viewer)
    : Viewer * option (nat * Json) :=
  if truthy (jsonError v) || (selectedIndex v <? 0)%Z then (v, None)
  else
    match parse (default undefinedText (editedJson v)) with
    | inr parsed =>
        (mkViewer (Some (with_parsedJson (Some parsed) r)) (selectedIndex v)
                  (showRaw v) (editedJson v) (jsonError v) false,
         Some (Z.to_nat (selectedIndex v), parsed))
    | inl m =>
        (mkViewer (selectedResult v) (selectedIndex v) (showRaw v) (editedJson v)
                  (Some m) (hasChanges v),
         None)
    end.

(** A click on Apply: the button is there while a result is selected and
    the text has changes, and it is disabled while there is an error. *)
Definition clickApply (v : Viewer) : Viewer * option (nat * Json) :=
  match selectedResult v with
  | Some r =>
      if hasChanges v && negb (truthy (jsonError v))
      then handleApplyChanges r v
      else (v, None)
  | None => (v, None)
  end.

End Editor.

(** The call of [onUpdate], handed to the application. *)
Definition onUpdate (call : option (nat * Json)) (app : App) : App :=
  match call with
  | Some (index, parsed) => handleUpdateResult index parsed app
  | None => app
  end.

(** ** Saving *)

(** The classes [[\u0000-\u001F\u007F-\u009F]] and [[\uFFFD\uFFFE\uFFFF]]. *)
Definition isControl (u : N) : bool :=
  ((u <=? 0x1F) || ((0x7F <=? u) && (u <=? 0x9F)))%N.

Definition isInvalid (u : N) : bool :=
  ((u =? 0xFFFD) || (u =? 0xFFFE) || (u =? 0xFFFF))%N.

(** The units of [' degrees '] *)
Definition degrees : JsText := [32; 100; 101; 103; 114; 101; 101; 115; 32]%N.

(** The three [replace] calls of [handleSaveJson], in their order. *)
Definition sanitize (editedJson : JsText) : JsText :=
  let noControl := List.filter (λ u, negb (isControl u)) editedJson in
  let noDegree := flat_map (λ u, if (u =? 0xB0)%N then degrees else [u]) noControl in
  List.filter (λ u, negb (isInvalid u)) noDegree.

Definition dot : Ascii.ascii := Ascii.ascii_of_nat 46.
Definition slash : Ascii.ascii := Ascii.ascii_of_nat 47.

(** [[^/.]+$] at the start of [l]: one unit or more up to the end, none of
    them a slash or a dot. *)
Definition extensionHere (l : list Ascii.ascii) : bool :=
  match l with
  | [] => false
  | _ => forallb (λ c, negb (bool_decide (c = slash ∨ c = dot))) l
  end.

(** [replace(/\.[^/.]+$/, '')]: the text from the first position at which
    the pattern matches is cut off. *)
Fixpoint cutExtension (l : list Ascii.ascii) : list Ascii.ascii :=
  match l with
  | [] => []
  | c :: rest =>
      if bool_decide (c = dot) && extensionHere rest then []
      else c :: cutExtension rest
  end.

(** The name under which [handleSaveJson] offers the download. *)
Definition downloadName (filename : string) : string :=
  String.string_of_list_ascii (cutExtension (units filename)) +:+ "_parsed.json".

(** [handleSaveJson], called from the modal of the selected result [r]:
    the name and the content of the download, if there is one. *)
Definition handleSaveJson (r : ResultItem) (v : Viewer) : option (string * JsText) :=
  match editedJson v with
  | None | Some [] => None
  | Some text =>
      if truthy (jsonError v) then None
      else Some (downloadName (filename r), sanitize text)
  end.

(** ** More sample inputs *)

(** Every call succeeds; the extract call of job [i] takes [10 + i], the
    unload 3 and every other call 100. *)
Definition timedOk : Env := λ c,
  match c with
  | CallExtract i => mkAwait false (10 + Z.of_nat i) (outcome okAnswer)
  | CallUnload _ => mkAwait false 3 (outcome okAnswer)
  | _ => mkAwait false 100 (outcome okAnswer)
  end.

(** A PDF, a PDF without extension, and a text file named like a PDF. *)
Definition pickedA : Picked := mkPicked scanA "application/pdf" 1200.
Definition pickedScan : Picked := mkPicked (mkFile "scan" "S") "application/pdf" 700.
Definition pickedNotes : Picked := mkPicked (mkFile "Notes.PDF" "N") "text/plain" 30.
Definition pickedExe : Picked := mkPicked (mkFile "setup.pdf.exe" "E") "" 900.

Definition panelWithA : Panel := handleFileInput (Some [pickedA]) initialPanel.

(** A backend that reports success without a list of models, and one
    that loads its model during the third poll. *)
Definition noModelList : nat → Reply ModelsData :=
  λ _, Replied true (Some (mkModelsData (Some "success") None)).

Definition loadsAtThird : nat → Reply HealthData := λ i,
  match i with
  | 0 => Unreachable
  | 1 => Replied true (Some (mkHealthData false))
  | _ => Replied true (Some (mkHealthData true))
  end.

(** A parser that knows the text [{}] only, and its printer. *)
Definition parseBraces : JsText → string + Json :=
  λ t, if decide (t = [123; 125]%N) then inr (JObj []) else inl "Unexpected token".

Definition stringifyBraces : Json → JsText := λ _, [123; 125]%N.

(** * Properties *)

(** ** Lists of jobs *)

Lemma mapAt_lookup (i j : nat) g (l : list ResultItem) :
  mapAt i g l !! j = (λ r, if decide (j = i) then g r else r) <$> l !! j.
Proof. unfold mapAt. by rewrite list_lookup_imap. Qed.

Lemma mapAt_length i g (l : list ResultItem) : length (mapAt i g l) = length l.
Proof. apply length_imap. Qed.

Lemma mapAt_insert i g (l : list ResultItem) r :
  l !! i = Some r → mapAt i g l = <[i := g r]> l.
Proof.
  intros Hi. apply list_eq. intros j. rewrite mapAt_lookup.
  destruct (decide (j = i)) as [->|Hne].
  - rewrite Hi. simpl. symmetry. apply list_lookup_insert_eq.
    by eapply lookup_lt_Some.
  - rewrite list_lookup_insert_ne by congruence. by destruct (l !! j).
Qed.

Lemma mapAt_out_of_range i g (l : list ResultItem) :
  length l ≤ i → mapAt i g l = l.
Proof.
  intros Hi. apply list_eq. intros j. rewrite mapAt_lookup.
  destruct (l !! j) eqn:Hj; [|done]. simpl.
  apply lookup_lt_Some in Hj. destruct (decide (j = i)); [lia|done].
Qed.

Lemma filterOut_past index i (l : list ResultItem) :
  index < i → filterOut index i l = l.
Proof.
  revert i. induction l as [|r l IH]; intros i Hi; [done|]. simpl.
  destruct (decide (i ≠ index)); [|lia]. f_equal. apply IH. lia.
Qed.

Lemma filterOut_delete index i (l : list ResultItem) :
  i ≤ index → filterOut index i l = delete (index - i) l.
Proof.
  revert i. induction l as [|r l IH]; intros i Hi; [done|]. simpl.
  destruct (decide (i ≠ index)) as [Hne|Heq].
  - replace (index - i) with (S (index - S i)) by lia. simpl.
    f_equal. apply IH. lia.
  - assert (i = index) as -> by (destruct (decide (i = index)); [done|tauto]).
    rewrite Nat.sub_diag. simpl. apply filterOut_past. lia.
Qed.

Lemma initialResults_fst fs st :
  (initialResults fs st).1 =
  imap (λ i f, mkResultItem (name f) Pending None None None None
                 (Some ("blob:" +:+ pretty (blobs st + i)))) fs.
Proof.
  revert st. induction fs as [|f fs IH]; intros st; [done|].
  simpl. destruct (initialResults fs _) as [rs st'] eqn:E. simpl.
  rewrite Nat.add_0_r. f_equal.
  change rs with ((rs, st').1). rewrite <- E, IH. simpl.
  apply imap_ext. intros i x _. simpl. by rewrite Nat.add_succ_r.
Qed.

Lemma blob_url_nonempty (n : nat) : "blob:" +:+ pretty n ≠ "".
Proof. discriminate. Qed.

(** ** Loops *)

Lemma forEach_rule {A St : Type} (body : nat → A → St → Flow * St)
    (items : list A) (Inv : nat → St → Prop) (Post : St → Prop) (s : St) :
  Inv 0 s →
  (∀ i x s s', items !! i = Some x → Inv i s →
     body i x s = (Next, s') → Inv (S i) s') →
  (∀ i x s s', items !! i = Some x → Inv i s →
     body i x s = (Break, s') → Post s') →
  (∀ s', Inv (length items) s' → Post s') →
  Post (forEach body 0 items s).
Proof.
  intros H0 Hnext Hbreak Hend.
  assert (G : ∀ rest done s, items = done ++ rest → Inv (length done) s →
              Post (forEach body (length done) rest s)).
  { induction rest as [|x rest IH]; intros done s0 Hsplit Hinv.
    - simpl. apply Hend. rewrite Hsplit, length_app. simpl.
      by rewrite Nat.add_0_r.
    - simpl.
      assert (Hx : items !! length done = Some x).
      { rewrite Hsplit. by rewrite list_lookup_middle. }
      destruct (body (length done) x s0) as [[] s1] eqn:Hb.
      + specialize (IH (done ++ [x]) s1).
        rewrite length_app in IH. simpl in IH.
        rewrite Nat.add_1_r in IH. apply IH.
        * by rewrite <- app_assoc.
        * by eapply Hnext.
      + by eapply Hbreak. }
  by apply (G items [] s).
Qed.

Lemma forEach_break_first {A St : Type} (body : nat → A → St → Flow * St) i items s :
  (∀ i x, body i x s = (Break, s)) → forEach body i items s = s.
Proof. intros H. destruct items as [|x items]; [done|]. simpl. by rewrite H. Qed.

(** ** The log *)

Lemma issued_cons e l :
  issued (e :: l) =
  issued l ++ match e with EvFetch c _ => [c] | _ => [] end.
Proof.
  unfold issued. simpl. destruct e; simpl; rewrite ?reverse_cons, ?app_nil_r; done.
Qed.

Lemma unloads_app a b : unloads (a ++ b) = unloads a + unloads b.
Proof. unfold unloads. by rewrite filter_app, length_app. Qed.

Lemma unloads_extracts l : unloads (CallExtract <$> l) = 0.
Proof. induction l; [done|]. unfold unloads in *. simpl. by rewrite filter_cons_False. Qed.

Lemma unloads_parses l : unloads (CallParse <$> l) = 0.
Proof. induction l; [done|]. unfold unloads in *. simpl. by rewrite filter_cons_False. Qed.

Lemma parseCalls_indices todo : parseCalls todo = CallParse <$> (mr_index <$> todo).
Proof. unfold parseCalls. by rewrite <- list_fmap_compose. Qed.

Lemma seq_snoc i : seq 0 (S i) = seq 0 i ++ [i].
Proof. by rewrite seq_S. Qed.

Lemma filter_seq_snoc (P : nat → Prop) `{∀ x, Decision (P x)} i :
  filter P (seq 0 (S i)) = filter P (seq 0 i) ++ (if decide (P i) then [i] else []).
Proof.
  rewrite seq_snoc, filter_app. by f_equal.
Qed.

Lemma filter_none {A : Type} (P : A → Prop) `{∀ x, Decision (P x)} (l : list A) :
  Forall (λ x, ¬ P x) l → filter P l = [].
Proof.
  induction 1 as [|x l Hx _ IH]; [done|]. by rewrite filter_cons_False.
Qed.

(** ** Answers *)

Lemma okJson_settle_inr fb o d :
  okJson fb (settle o) = inr d ↔ o = Responded true (JsonBody d).
Proof.
  destruct o as [m|[] [d'|m]]; simpl; split; intros H; try discriminate; congruence.
Qed.

Lemma okJson_settle_not_abort fb o err :
  okJson fb (settle o) = inl err → isAbortError err = false.
Proof.
  destruct o as [m|[] [d'|m]]; simpl; intros H; inversion H; done.
Qed.

Lemma succeeds_iff fb a :
  succeeds fb a = true ↔ ∃ d, outcome a = Responded true (JsonBody d).
Proof.
  unfold succeeds, answer. split.
  - destruct (okJson _ _) as [|d] eqn:E; [done|]. intros _.
    exists d. by apply okJson_settle_inr in E.
  - intros [d Hd]. apply (okJson_settle_inr fb) in Hd. by rewrite Hd.
Qed.

Lemma phase1Cancelled_false env n :
  phase1Cancelled env n = false ↔ ∀ j, j < n → stopped (env (CallExtract j)) = false.
Proof.
  unfold phase1Cancelled. rewrite <- not_true_iff_false, existsb_exists. split.
  - intros H j Hj. apply not_true_iff_false. intros Hs. apply H.
    exists j. split; [|done]. apply in_seq. lia.
  - intros H (j & Hj & Hs). apply in_seq in Hj. rewrite H in Hs by lia. done.
Qed.

Lemma phase1Cancelled_true env n j :
  j < n → stopped (env (CallExtract j)) = true → phase1Cancelled env n = true.
Proof.
  intros Hj Hs. apply existsb_exists. exists j. split; [|done]. apply in_seq. lia.
Qed.

(** ** Stage calls and Stop *)

Lemma fetch_signal_fresh env c req st :
  abortControllerRef st = fresh →
  fetch env c req true st =
    (suspend (env c) (logEvent (EvFetch c req) st),
     if stopped (env c) then inl abortError else settle (outcome (env c))).
Proof.
  intros Href. unfold fetch. simpl. rewrite Href. simpl.
  by destruct (stopped (env c)).
Qed.

Lemma fetch_signal_aborted env c req st :
  abortControllerRef st = Some (mkAbortController true) →
  fetch env c req true st = (logEvent (EvFetch c req) st, inl abortError).
Proof. intros Href. unfold fetch. simpl. by rewrite Href. Qed.

Lemma fetch_no_signal env c req st :
  fetch env c req false st =
    (suspend (env c) (logEvent (EvFetch c req) st), settle (outcome (env c))).
Proof. done. Qed.

Lemma handleStop_results st :
  results (handleStop st) = map unprocess (results st).
Proof.
  unfold handleStop. change (abortControllerRef (logEvent EvStop st)) with (abortControllerRef st).
  destruct (abortControllerRef st); reflexivity.
Qed.

Lemma handleStop_log st :
  log (handleStop st) = EvRender (map unprocess (results st)) :: EvStop :: log st.
Proof.
  unfold handleStop. change (abortControllerRef (logEvent EvStop st)) with (abortControllerRef st).
  destruct (abortControllerRef st); reflexivity.
Qed.

Lemma handleStop_ref st :
  abortControllerRef (handleStop st) =
  match abortControllerRef st with Some _ => stoppedRef | None => None end.
Proof.
  unfold handleStop. change (abortControllerRef (logEvent EvStop st)) with (abortControllerRef st).
  destruct (abortControllerRef st) eqn:E; [reflexivity|]. exact E.
Qed.

Ltac app_simpl :=
  repeat (progress (
    cbn [fst snd log results abortControllerRef clock isProcessing blobs
         setAt setResults logEvent advanceClock setIsProcessing
         setAbortControllerRef revokeObjectURL] in *;
    rewrite ?handleStop_results, ?handleStop_log, ?handleStop_ref in * )).

Lemma unprocess_id r : status r ≠ Processing → unprocess r = r.
Proof. intros H. unfold unprocess. by case_decide. Qed.

Lemma unprocess_not_processing r : status (unprocess r) ≠ Processing.
Proof. unfold unprocess. by case_decide. Qed.

Lemma unprocess_settled l :
  Forall (λ r, status r ≠ Processing) (map unprocess l).
Proof. apply Forall_fmap, Forall_forall. intros r _. apply unprocess_not_processing. Qed.

Lemma terminal_not_processing r : terminal r → status r ≠ Processing.
Proof. intros [H|H]; rewrite H; done. Qed.

Lemma setAt_lookup i j g st :
  results (setAt i g st) !! j
  = (λ r, if decide (j = i) then g r else r) <$> results st !! j.
Proof. apply mapAt_lookup. Qed.

Lemma setAt_lookup_eq i g st :
  results (setAt i g st) !! i = g <$> results st !! i.
Proof. rewrite setAt_lookup. destruct (results st !! i); [|done]. simpl. by case_decide. Qed.

Lemma setAt_lookup_ne i j g st :
  j ≠ i → results (setAt i g st) !! j = results st !! j.
Proof.
  intros Hne. rewrite setAt_lookup. destruct (results st !! j); [|done].
  simpl. by case_decide.
Qed.

Lemma handleStop_lookup j st :
  results (handleStop st) !! j = unprocess <$> results st !! j.
Proof. by rewrite handleStop_results, list_lookup_fmap. Qed.

Lemma mapAt_pending_stopped i l :
  mapAt i (with_status Pending) (map unprocess (mapAt i (with_status Processing) l))
  = map unprocess (mapAt i (with_status Processing) l).
Proof.
  apply list_eq. intros j. rewrite mapAt_lookup, !list_lookup_fmap, mapAt_lookup.
  destruct (l !! j) as [r|]; [|done]. simpl.
  destruct (decide (j = i)); [|done]. by unfold unprocess.
Qed.

Lemma normalFinal_terminal env j r : terminal (normalFinal env j r).
Proof.
  unfold normalFinal, normalUpdate. destruct (answer _ _); [right|left]; done.
Qed.

Lemma parseUpdate_terminal a t r : terminal (parseUpdate a t r).
Proof. unfold parseUpdate. destruct (answer _ _); [right|left]; done. Qed.

Lemma lowVramFinal_terminal env j r : terminal (lowVramFinal env j r).
Proof.
  unfold lowVramFinal. destruct (answer _ _); [by right|apply parseUpdate_terminal].
Qed.

Lemma extractFinal_not_processing env j r : status (extractFinal env j r) ≠ Processing.
Proof. unfold extractFinal, extractUpdate. by destruct (answer _ _). Qed.

(** ** Setting up a run *)

Lemma initialResults_snd fs st :
  abortControllerRef (initialResults fs st).2 = abortControllerRef st ∧
  issued (log (initialResults fs st).2) = issued (log st) ∧
  revoked (log (initialResults fs st).2) = revoked (log st).
Proof.
  revert st. induction fs as [|f fs IH]; intros st; [done|].
  simpl. destruct (initialResults fs _) as [rs st'] eqn:E. simpl.
  specialize (IH (createObjectURL f st).2). unfold createObjectURL in IH.
  simpl in IH. rewrite E in IH. simpl in IH. destruct IH as (-> & -> & ->).
  rewrite issued_cons, app_nil_r. done.
Qed.

Lemma startSetup_ref files st : abortControllerRef (startSetup files st) = fresh.
Proof.
  unfold startSetup. destruct (initialResults files _) as [rs st'] eqn:E.
  simpl. change st' with ((rs, st').2). rewrite <- E.
  by rewrite (proj1 (initialResults_snd _ _)).
Qed.

Lemma startSetup_issued files st :
  issued (log (startSetup files st)) = issued (log st).
Proof.
  unfold startSetup. destruct (initialResults files _) as [rs st'] eqn:E.
  simpl. rewrite issued_cons, app_nil_r. change st' with ((rs, st').2).
  rewrite <- E. by rewrite (proj1 (proj2 (initialResults_snd _ _))).
Qed.

Lemma initialResults_log fs st :
  ∃ cs, log (initialResults fs st).2 = cs ++ log st ∧ Forall silent cs.
Proof.
  revert st. induction fs as [|f fs IH]; intros st.
  - by exists [].
  - simpl. specialize (IH (createObjectURL f st).2).
    destruct IH as (cs & Hl & Hcs). unfold createObjectURL in Hl. cbn [snd] in Hl.
    destruct (initialResults fs _) as [rs st'] eqn:E. cbn [snd] in Hl |- *.
    exists (cs ++ [EvCreateObjectURL f ("blob:" +:+ pretty (blobs st))]).
    rewrite Hl. cbn [log]. rewrite <- app_assoc. split; [done|].
    apply Forall_app. split; [done|]. by repeat constructor.
Qed.

Lemma lastRender_silent cs l : Forall silent cs → lastRender (cs ++ l) = lastRender l.
Proof. induction 1 as [|e cs He _ IH]; [done|]. by destruct e. Qed.

(** * The loop bodies, case by case *)

Section Bodies.
Variable files : list File.
Variable model template : string.
Variable contextWindow : Z.
Variable quality : string.
Variable env : Env.

Lemma normalBody_aborted i file st :
  signalAborted st = true →
  normalBody model template contextWindow quality env i file st = (Break, st).
Proof. intros H. unfold normalBody. by rewrite H. Qed.

Lemma normalBody_fresh i file st :
  abortControllerRef st = fresh →
  normalBody model template contextWindow quality env i file st =
    let a := env (CallProcess i) in
    let st1 := logEvent (EvFetch (CallProcess i)
                 (OcrProcess file model template contextWindow quality))
                 (setAt i (with_status Processing) st) in
    if stopped a
    then (Break, setAt i (with_status Pending) (handleStop (advanceClock (elapsed a) st1)))
    else (Next, setAt i (normalUpdate a) (advanceClock (elapsed a) st1)).
Proof.
  intros Href. unfold normalBody, signalAborted. rewrite Href. simpl aborted. cbv iota.
  rewrite fetch_signal_fresh by done. unfold suspend, normalUpdate, answer.
  destruct (stopped (env (CallProcess i))); [done|].
  destruct (okJson _ _) as [err|data] eqn:E.
  - by rewrite (okJson_settle_not_abort _ _ _ E).
  - simpl. do 3 f_equal. lia.
Qed.

Lemma extractBody_aborted i file st acc :
  signalAborted st = true →
  extractBody quality env i file (st, acc) = (Break, (st, acc)).
Proof. intros H. unfold extractBody. by rewrite H. Qed.

Lemma extractBody_fresh i file st acc :
  abortControllerRef st = fresh →
  extractBody quality env i file (st, acc) =
    let a := env (CallExtract i) in
    let st1 := logEvent (EvFetch (CallExtract i) (OcrExtract file quality))
                 (setAt i (with_status Processing) st) in
    if stopped a
    then (Break, (handleStop (advanceClock (elapsed a) st1), acc))
    else (Next, (setAt i (extractUpdate a) (advanceClock (elapsed a) st1),
                 acc ++ extractPush a i (clock st))).
Proof.
  intros Href. unfold extractBody, signalAborted. rewrite Href. simpl aborted. cbv iota.
  rewrite fetch_signal_fresh by done.
  unfold suspend, extractUpdate, extractPush, answer.
  destruct (stopped (env (CallExtract i))); [done|].
  destruct (okJson _ _) as [err|data] eqn:E.
  - rewrite (okJson_settle_not_abort _ _ _ E). by rewrite app_nil_r.
  - done.
Qed.

Lemma parseBody_aborted k m st :
  signalAborted st = true →
  parseBody files model template contextWindow env k m st = (Break, st).
Proof. intros H. unfold parseBody. by rewrite H. Qed.

Lemma parseBody_fresh k m f st :
  abortControllerRef st = fresh →
  files !! mr_index m = Some f →
  parseBody files model template contextWindow env k m st =
    let a := env (CallParse (mr_index m)) in
    let st1 := logEvent (EvFetch (CallParse (mr_index m))
                 (LlmParse (mr_markdown m) (name f) model template contextWindow))
                 (setAt (mr_index m) (with_status Processing) st) in
    if stopped a
    then (Break, handleStop (advanceClock (elapsed a) st1))
    else (Next, setAt (mr_index m)
                  (parseUpdate a (clock st + elapsed a - mr_startTime m))
                  (advanceClock (elapsed a) st1)).
Proof.
  intros Href Hf. unfold parseBody, parseAttempt, signalAborted.
  rewrite Href. simpl aborted. cbv iota. simpl results. rewrite Hf.
  rewrite fetch_signal_fresh by done.
  unfold suspend, parseUpdate, answer.
  destruct (stopped (env (CallParse _))); [done|].
  destruct (okJson _ _) as [err|data] eqn:E.
  - by rewrite (okJson_settle_not_abort _ _ _ E).
  - done.
Qed.

Lemma unloadModel_eq c st :
  unloadModel env c st =
  warnIfFailed (outcome (env c))
    (suspend (env c) (logEvent (EvFetch c OcrUnload) st)).
Proof.
  unfold unloadModel. rewrite fetch_no_signal.
  by destruct (outcome (env c)).
Qed.

Lemma lowVramBody_aborted i file st :
  signalAborted st = true →
  lowVramBody model template contextWindow quality env i file st = (Break, st).
Proof. intros H. unfold lowVramBody. by rewrite H. Qed.

Lemma lowVramBody_fresh i file st :
  abortControllerRef st = fresh →
  lowVramBody model template contextWindow quality env i file st =
    let a := env (CallExtract i) in
    let u := env (CallUnload (Some i)) in
    let p := env (CallParse i) in
    let st1 := advanceClock (elapsed a)
                 (logEvent (EvFetch (CallExtract i) (OcrExtract file quality))
                    (setAt i (with_status Processing) st)) in
    if stopped a then (Break, handleStop st1)
    else
      match answer "OCR failed" a with
      | inl err => (Next, setAt i (failed "OCR failed" err) st1)
      | inr data =>
          let st2 := unloadModel env (CallUnload (Some i))
                       (setAt i (with_rawMarkdown (markdown data)) st1) in
          let st3 := logEvent (EvFetch (CallParse i)
                       (LlmParse (markdown data) (name file) model template
                          contextWindow)) st2 in
          if stopped u then (Break, st3)
          else if stopped p then (Break, handleStop (advanceClock (elapsed p) st3))
          else (Next, setAt i
                        (parseUpdate p (elapsed a + elapsed u + elapsed p))
                        (advanceClock (elapsed p) st3))
      end.
Proof.
  intros Href. unfold lowVramBody, signalAborted. rewrite Href. simpl aborted. cbv iota.
  rewrite fetch_signal_fresh by done.
  unfold suspend, answer.
  destruct (stopped (env (CallExtract i))); [done|]. cbv iota.
  destruct (okJson _ _) as [err|data] eqn:E.
  - by rewrite (okJson_settle_not_abort _ _ _ E).
  - cbv zeta. rewrite unloadModel_eq. unfold suspend.
    destruct (stopped (env (CallUnload (Some i)))) eqn:Hu.
    + rewrite fetch_signal_aborted; [done|].
      destruct (outcome (env (CallUnload (Some i)))); simpl; by rewrite Href.
    + rewrite fetch_signal_fresh
        by (destruct (outcome (env (CallUnload (Some i)))); simpl; by rewrite ?Hu).
      unfold suspend, parseUpdate, answer.
      destruct (stopped (env (CallParse i))); [done|].
      destruct (okJson "Parse failed" _) as [err'|data'] eqn:E'.
      * by rewrite (okJson_settle_not_abort _ _ _ E').
      * do 3 f_equal.
        destruct (outcome (env (CallUnload (Some i)))); simpl; rewrite ?Hu; simpl; lia.
Qed.

Lemma parseBody_fresh_missing k m st :
  abortControllerRef st = fresh →
  files !! mr_index m = None →
  parseBody files model template contextWindow env k m st =
    (Next, setAt (mr_index m) (failed "Parse failed" (undefinedRead "name"))
             (setAt (mr_index m) (with_status Processing) st)).
Proof.
  intros Href Hf. unfold parseBody, parseAttempt, signalAborted.
  rewrite Href. simpl aborted. cbv iota. by rewrite Hf.
Qed.

End Bodies.

Section Unload.
Variable env : Env.

Lemma unloadModel_issued c st :
  issued (log (unloadModel env c st)) = issued (log st) ++ [c].
Proof.
  rewrite unloadModel_eq. unfold suspend, warnIfFailed.
  destruct (outcome (env c)), (stopped (env c)); app_simpl;
    rewrite !issued_cons, ?app_nil_r; done.
Qed.

Lemma unloadModel_ref c st :
  abortControllerRef (unloadModel env c st) =
  if stopped (env c)
  then match abortControllerRef st with Some _ => stoppedRef | None => None end
  else abortControllerRef st.
Proof.
  rewrite unloadModel_eq. unfold suspend, warnIfFailed.
  destruct (outcome (env c)), (stopped (env c)); app_simpl; done.
Qed.

Lemma unloadModel_results c st :
  results (unloadModel env c st) =
  if stopped (env c) then map unprocess (results st) else results st.
Proof.
  rewrite unloadModel_eq. unfold suspend, warnIfFailed.
  destruct (outcome (env c)), (stopped (env c)); app_simpl; done.
Qed.

Lemma unloadModel_lookup c st j :
  results (unloadModel env c st) !! j
  = (if stopped (env c) then unprocess else id) <$> results st !! j.
Proof.
  rewrite unloadModel_results. destruct (stopped (env c)).
  - by rewrite list_lookup_fmap.
  - by destruct (results st !! j).
Qed.
End Unload.

(** * Which calls a run makes *)

Section NormalCalls.
Variable files : list File.
Variable model template : string.
Variable contextWindow : Z.
Variable quality : string.
Variable env : Env.

(** The calls of a Performance run: one per job, in order, up to and
    including the first job during which Stop is pressed. *)
Lemma normal_calls st :
  abortControllerRef st = fresh →
  ∃ k, k ≤ length files ∧
    issued (log (handleNormalProcessing files model template contextWindow quality env st))
      = issued (log st) ++ (CallProcess <$> seq 0 k) ∧
    (∀ m, m < length files →
       (∀ j, j < m → stopped (env (CallProcess j)) = false) → m < k).
Proof.
  intros Href. unfold handleNormalProcessing.
  apply (forEach_rule (normalBody model template contextWindow quality env) files
    (λ i s, abortControllerRef s = fresh ∧
            issued (log s) = issued (log st) ++ (CallProcess <$> seq 0 i))
    (λ s, ∃ k, k ≤ length files ∧
            issued (log s) = issued (log st) ++ (CallProcess <$> seq 0 k) ∧
            (∀ m, m < length files →
               (∀ j, j < m → stopped (env (CallProcess j)) = false) → m < k))).
  - by rewrite app_nil_r.
  - intros i f s s' Hf (Hr & Hc).
    rewrite normalBody_fresh by done. cbv zeta.
    destruct (stopped (env (CallProcess i))) eqn:Hs; [discriminate|].
    intros [= <-]. app_simpl. split; [done|].
    by rewrite !issued_cons, Hc, seq_snoc, fmap_app, !app_nil_r, app_assoc.
  - intros i f s s' Hf (Hr & Hc).
    rewrite normalBody_fresh by done. cbv zeta.
    destruct (stopped (env (CallProcess i))) eqn:Hs; [|discriminate].
    intros [= <-]. exists (S i). split; [by eapply lookup_lt_Some|]. split.
    + app_simpl.
      by rewrite !issued_cons, Hc, seq_snoc, fmap_app, !app_nil_r, app_assoc.
    + intros m Hm Hq. destruct (decide (m < S i)); [done|].
      rewrite Hq in Hs by lia. done.
  - intros s (Hr & Hc). exists (length files). by repeat split.
Qed.
End NormalCalls.

Section BatchCalls.
Variable files : list File.
Variable model template : string.
Variable contextWindow : Z.
Variable quality : string.
Variable env : Env.

Lemma extractPush_index i t :
  mr_index <$> extractPush (env (CallExtract i)) i t
  = if decide (extractSucceeds env i) then [i] else [].
Proof.
  destruct (decide (extractSucceeds env i)) as [H|H];
    unfold extractPush, extractSucceeds, succeeds in *;
    destruct (answer _ _); done.
Qed.

Lemma phase1_calls st :
  abortControllerRef st = fresh →
  ∃ k, k ≤ length files ∧
    issued (log (forEach (extractBody quality env) 0 files (st, [])).1)
      = issued (log st) ++ (CallExtract <$> seq 0 k) ∧
    abortControllerRef (forEach (extractBody quality env) 0 files (st, [])).1
      = (if phase1Cancelled env (length files) then stoppedRef else fresh) ∧
    (phase1Cancelled env (length files) = false →
       k = length files ∧
       mr_index <$> (forEach (extractBody quality env) 0 files (st, [])).2
         = filter (extractSucceeds env) (seq 0 (length files))) ∧
    (∀ m, m < length files →
       (∀ j, j < m → stopped (env (CallExtract j)) = false) → m < k).
Proof.
  intros Href.
  apply (forEach_rule (extractBody quality env) files
    (λ i s, abortControllerRef s.1 = fresh ∧
            issued (log s.1) = issued (log st) ++ (CallExtract <$> seq 0 i) ∧
            (∀ j, j < i → stopped (env (CallExtract j)) = false) ∧
            mr_index <$> s.2 = filter (extractSucceeds env) (seq 0 i))
    (λ s, ∃ k, k ≤ length files ∧
            issued (log s.1) = issued (log st) ++ (CallExtract <$> seq 0 k) ∧
            abortControllerRef s.1
              = (if phase1Cancelled env (length files) then stoppedRef else fresh) ∧
            (phase1Cancelled env (length files) = false →
               k = length files ∧
               mr_index <$> s.2 = filter (extractSucceeds env) (seq 0 (length files))) ∧
            (∀ m, m < length files →
               (∀ j, j < m → stopped (env (CallExtract j)) = false) → m < k))).
  - simpl. rewrite app_nil_r. repeat split; [done|]. intros j Hj. lia.
  - intros i f [s acc] [s' acc'] Hf (Hr & Hc & Hq & Hacc). simpl in Hr, Hc, Hacc.
    rewrite extractBody_fresh by done. cbv zeta.
    destruct (stopped (env (CallExtract i))) eqn:Hs; [discriminate|].
    intros [= <- <-]. app_simpl. rewrite Hr. repeat split.
    + rewrite !issued_cons, Hc, seq_snoc, fmap_app, !app_nil_r, app_assoc. done.
    + intros j Hj. destruct (decide (j = i)) as [->|]; [done|]. apply Hq. lia.
    + by rewrite fmap_app, Hacc, extractPush_index, filter_seq_snoc.
  - intros i f [s acc] [s' acc'] Hf (Hr & Hc & Hq & Hacc). simpl in Hr, Hc.
    rewrite extractBody_fresh by done. cbv zeta.
    destruct (stopped (env (CallExtract i))) eqn:Hs; [|discriminate].
    intros [= <- <-]. exists (S i). apply lookup_lt_Some in Hf.
    split; [lia|]. app_simpl. rewrite Hr.
    rewrite (phase1Cancelled_true env (length files) i) by done.
    split; [|split; [done|split; [done|]]].
    + rewrite !issued_cons, Hc, seq_snoc, fmap_app, !app_nil_r, app_assoc. done.
    + intros m Hm Hqm. destruct (decide (m < S i)); [done|].
      rewrite Hqm in Hs by lia. done.
  - intros [s acc] (Hr & Hc & Hq & Hacc). exists (length files). split; [done|].
    split; [done|]. simpl in *.
    by rewrite (proj2 (phase1Cancelled_false env (length files)) Hq).
Qed.

Lemma phase3_calls todo st :
  abortControllerRef st = fresh →
  (∀ m, m ∈ todo → is_Some (files !! mr_index m)) →
  ∃ k, k ≤ length todo ∧
    issued (log (forEach (parseBody files model template contextWindow env) 0 todo st))
      = issued (log st) ++ parseCalls (take k todo) ∧
    ((∀ m, m ∈ todo → stopped (env (CallParse (mr_index m))) = false) →
       k = length todo).
Proof.
  intros Href Hin.
  apply (forEach_rule (parseBody files model template contextWindow env) todo
    (λ i s, abortControllerRef s = fresh ∧
            issued (log s) = issued (log st) ++ parseCalls (take i todo))
    (λ s, ∃ k, k ≤ length todo ∧
            issued (log s) = issued (log st) ++ parseCalls (take k todo) ∧
            ((∀ m, m ∈ todo → stopped (env (CallParse (mr_index m))) = false) →
               k = length todo))).
  - by rewrite take_0, app_nil_r.
  - intros i m s s' Hm (Hr & Hc).
    destruct (Hin m) as [f Hf]; [by eapply list_elem_of_lookup_2|].
    rewrite (parseBody_fresh _ _ _ _ _ _ _ f) by done. cbv zeta.
    destruct (stopped (env (CallParse (mr_index m)))) eqn:Hs; [discriminate|].
    intros [= <-]. app_simpl. split; [done|].
    rewrite !issued_cons, Hc, (take_S_r _ _ _ Hm), !app_nil_r.
    unfold parseCalls. by rewrite fmap_app, app_assoc.
  - intros i m s s' Hm (Hr & Hc).
    destruct (Hin m) as [f Hf]; [by eapply list_elem_of_lookup_2|].
    rewrite (parseBody_fresh _ _ _ _ _ _ _ f) by done. cbv zeta.
    destruct (stopped (env (CallParse (mr_index m)))) eqn:Hs; [|discriminate].
    intros [= <-]. exists (S i). split; [by eapply lookup_lt_Some|]. split.
    + app_simpl. rewrite !issued_cons, Hc, (take_S_r _ _ _ Hm), !app_nil_r.
      unfold parseCalls. by rewrite fmap_app, app_assoc.
    + intros Hq. rewrite Hq in Hs; [done|]. by eapply list_elem_of_lookup_2.
  - intros s (Hr & Hc). exists (length todo). by repeat split.
Qed.
End BatchCalls.

Section BatchRun.
Variable files : list File.
Variable model template : string.
Variable contextWindow : Z.
Variable quality : string.
Variable env : Env.

(** The calls of a Batch run that starts with a fresh controller. *)
Lemma batch_calls st :
  abortControllerRef st = fresh →
  ∃ k1 k3,
    k1 ≤ length files ∧
    issued (log (handleBatchProcessing files model template contextWindow quality env st))
    = issued (log st) ++ (CallExtract <$> seq 0 k1) ++
      (if phase1Cancelled env (length files) then []
       else CallUnload None ::
            (CallParse <$> take k3 (filter (extractSucceeds env) (seq 0 (length files))))) ∧
    (∀ m, m < length files →
       (∀ j, j < m → stopped (env (CallExtract j)) = false) → m < k1) ∧
    (phase1Cancelled env (length files) = false →
     stopped (env (CallUnload None)) = false →
     (∀ j, stopped (env (CallParse j)) = false) →
     k3 = length (filter (extractSucceeds env) (seq 0 (length files)))).
Proof.
  intros Href. unfold handleBatchProcessing.
  destruct (phase1_calls files quality env st Href)
    as (k1 & Hk1 & Hc & Hr & Hacc & Hreach).
  destruct (forEach (extractBody quality env) 0 files (st, [])) as [st1 acc].
  simpl in Hc, Hr, Hacc. unfold signalAborted. rewrite Hr.
  destruct (phase1Cancelled env (length files)) eqn:Hcan.
  - simpl. exists k1, 0. rewrite Hc, app_nil_r. by repeat split.
  - simpl. destruct (Hacc eq_refl) as [-> Hidx]. clear Hacc.
    pose proof (unloadModel_ref env (CallUnload None) st1) as Hru.
    pose proof (unloadModel_issued env (CallUnload None) st1) as Hcu.
    rewrite Hr in Hru.
    destruct (stopped (env (CallUnload None))) eqn:Hsu.
    + exists (length files), 0. rewrite forEach_break_first.
      * rewrite Hcu, Hc, take_0. simpl. rewrite <- app_assoc.
        repeat split; try done.
      * intros i m. apply parseBody_aborted. unfold signalAborted. by rewrite Hru.
    + destruct (phase3_calls files model template contextWindow env acc
                  (unloadModel env (CallUnload None) st1) Hru) as (k3 & Hk3 & Hc3 & Hfull).
      { intros m Hm. apply lookup_lt_is_Some.
        assert (mr_index m ∈ mr_index <$> acc) as Hin by (by apply list_elem_of_fmap_2).
        rewrite Hidx in Hin. apply list_elem_of_filter in Hin as [_ Hin].
        apply list_elem_of_In, in_seq in Hin. lia. }
      exists (length files), k3. rewrite Hc3, Hcu, Hc, parseCalls_indices.
      rewrite fmap_take, Hidx, <- !app_assoc. simpl.
      repeat split; try done.
      intros _ _ Hq. rewrite <- Hidx, length_fmap. apply Hfull. intros m _. apply Hq.
Qed.
End BatchRun.

Section Schedule.
Variable env : Env.

Lemma jobCalls_jobs i : Forall (λ c, callJob c = Some i) (jobCalls env i).
Proof. unfold jobCalls. destruct (extractCompleted env i); repeat constructor. Qed.

Lemma schedule_jobs a n :
  Forall (λ c, ∃ j, callJob c = Some j ∧ a ≤ j < a + n)
         (flat_map (jobCalls env) (seq a n)).
Proof.
  revert a. induction n as [|n IH]; intros a; [constructor|].
  simpl. apply Forall_app. split.
  - eapply Forall_impl; [apply jobCalls_jobs|]. intros c Hc. exists a. split; [done|lia].
  - eapply Forall_impl; [apply IH|]. intros c (j & Hj & Hr). exists j. split; [done|lia].
Qed.

Lemma schedule_snoc k :
  flat_map (jobCalls env) (seq 0 (S k))
  = flat_map (jobCalls env) (seq 0 k) ++ jobCalls env k.
Proof. rewrite seq_snoc, flat_map_app. simpl. by rewrite app_nil_r. Qed.

Lemma schedule_extract k i :
  CallExtract i ∈ flat_map (jobCalls env) (seq 0 k) ↔ i < k.
Proof.
  split.
  - intros Hin. pose proof (schedule_jobs 0 k) as Hall.
    rewrite Forall_forall in Hall. destruct (Hall _ Hin) as (j & [= ->] & Hj). lia.
  - intros Hi. apply list_elem_of_In, in_flat_map. exists i. split.
    + apply in_seq. lia.
    + unfold jobCalls. destruct (extractCompleted env i); simpl; tauto.
Qed.

Lemma schedule_unload_once k i :
  length (filter (λ c, c = CallUnload (Some i)) (flat_map (jobCalls env) (seq 0 k)))
  = if decide (i < k ∧ extractCompleted env i = true) then 1 else 0.
Proof.
  induction k as [|k IH].
  - change (flat_map (jobCalls env) (seq 0 0)) with (@nil Call).
    rewrite filter_nil. case_decide; [lia|done].
  - rewrite schedule_snoc, filter_app, length_app, IH.
    destruct (decide (i = k)) as [->|Hne].
    + unfold jobCalls. destruct (extractCompleted env k) eqn:Hk.
      * rewrite filter_cons_False, filter_cons_True, filter_cons_False by done.
        rewrite filter_nil. cbn [length].
        repeat case_decide; try done; try lia; naive_solver lia.
      * rewrite filter_cons_False by done. rewrite filter_nil. cbn [length].
        repeat case_decide; try done; try lia; naive_solver.
    + assert (filter (λ c, c = CallUnload (Some i)) (jobCalls env k) = []) as ->.
      { apply filter_none.
        eapply Forall_impl; [apply jobCalls_jobs|].
        intros c Hc ->. simpl in Hc. congruence. }
      cbn [length]. rewrite Nat.add_0_r.
      destruct (decide (i < k ∧ _)) as [[? ?]|Hn1];
        destruct (decide (i < S k ∧ _)) as [[? ?]|Hn2]; try done.
      * exfalso. apply Hn2. split; [lia|done].
      * exfalso. apply Hn1. split; [lia|done].
Qed.

Lemma schedule_split k i :
  i < k →
  flat_map (jobCalls env) (seq 0 k)
  = flat_map (jobCalls env) (seq 0 i) ++ jobCalls env i
    ++ flat_map (jobCalls env) (seq (S i) (k - S i)).
Proof.
  intros Hi. replace k with (i + S (k - S i)) at 1 by lia.
  rewrite seq_app, flat_map_app. simpl. done.
Qed.
End Schedule.

Section LowVramCalls.
Variable files : list File.
Variable model template : string.
Variable contextWindow : Z.
Variable quality : string.
Variable env : Env.

Lemma lowVramBody_issued i file st :
  abortControllerRef st = fresh →
  issued (log (lowVramBody model template contextWindow quality env i file st).2)
  = issued (log st) ++ jobCalls env i.
Proof.
  intros Href. rewrite lowVramBody_fresh by done. cbv zeta.
  unfold jobCalls, extractCompleted, succeeds.
  destruct (stopped (env (CallExtract i))).
  { app_simpl. by rewrite !issued_cons, !app_nil_r. }
  destruct (answer "OCR failed" _) as [err|data].
  { app_simpl. by rewrite !issued_cons, !app_nil_r. }
  cbn [negb andb].
  assert (∀ st0, issued (log (logEvent (EvFetch (CallParse i)
              (LlmParse (markdown data) (name file) model template contextWindow))
              (unloadModel env (CallUnload (Some i))
                 (setAt i (with_rawMarkdown (markdown data))
                   (advanceClock (elapsed (env (CallExtract i)))
                     (logEvent (EvFetch (CallExtract i) (OcrExtract file quality))
                       (setAt i (with_status Processing) st0)))))))
            = issued (log st0) ++ [CallExtract i; CallUnload (Some i); CallParse i]) as Hthree.
  { intros st0. cbn [log logEvent]. rewrite issued_cons, unloadModel_issued.
    app_simpl. rewrite !issued_cons, !app_nil_r, <- !app_assoc. done. }
  destruct (stopped (env (CallUnload (Some i)))); [apply Hthree|].
  destruct (stopped (env (CallParse i))).
  - cbn [snd]. rewrite handleStop_log, !issued_cons, !app_nil_r.
    cbn [advanceClock log]. apply Hthree.
  - cbn [snd setAt setResults log advanceClock]. rewrite issued_cons, app_nil_r.
    apply Hthree.
Qed.

(** What one iteration does, seen from the job list. *)
Lemma lowVramBody_effect i file st :
  abortControllerRef st = fresh →
  let out := lowVramBody model template contextWindow quality env i file st in
  out.1 = (if lowVramBreaks env i then Break else Next) ∧
  (lowVramBreaks env i = false →
     abortControllerRef out.2 = fresh ∧
     results out.2 !! i = lowVramFinal env i <$> results st !! i) ∧
  (∀ k, k ≠ i →
     results out.2 !! k
     = (if lowVramBreaks env i then unprocess else id) <$> results st !! k).
Proof.
  intros Href. rewrite lowVramBody_fresh by done. cbv zeta.
  unfold lowVramBreaks, lowVramFinal, succeeds.
  destruct (stopped (env (CallExtract i))) eqn:Ha.
  { cbn [fst snd orb]. split; [done|]. split; [done|].
    intros k Hk. rewrite handleStop_lookup.
    cbn [results advanceClock logEvent]. by rewrite setAt_lookup_ne. }
  destruct (answer "OCR failed" _) as [err|data].
  { cbn [fst snd orb andb]. split; [done|]. split.
    - intros _. split; [by app_simpl|].
      rewrite setAt_lookup_eq. cbn [results advanceClock logEvent].
      rewrite setAt_lookup_eq. by destruct (results st !! i).
    - intros k Hk. rewrite setAt_lookup_ne by done.
      cbn [results advanceClock logEvent]. rewrite setAt_lookup_ne by done.
      by destruct (results st !! k). }
  cbn [orb andb].
  assert (Hother : ∀ k, k ≠ i →
            results (unloadModel env (CallUnload (Some i))
               (setAt i (with_rawMarkdown (markdown data))
                  (advanceClock (elapsed (env (CallExtract i)))
                     (logEvent (EvFetch (CallExtract i) (OcrExtract file quality))
                        (setAt i (with_status Processing) st))))) !! k
            = (if stopped (env (CallUnload (Some i))) then unprocess else id)
                <$> results st !! k).
  { intros k Hk. rewrite unloadModel_lookup, setAt_lookup_ne by done.
    cbn [results advanceClock logEvent]. by rewrite setAt_lookup_ne. }
  destruct (stopped (env (CallUnload (Some i)))) eqn:Hu.
  { cbn [fst snd]. split; [done|]. split; [done|]. exact Hother. }
  destruct (stopped (env (CallParse i))) eqn:Hp.
  { cbn [fst snd orb]. split; [done|]. split; [done|].
    intros k Hk. rewrite handleStop_lookup.
    cbn [results advanceClock logEvent]. rewrite (Hother k) by done.
    by destruct (results st !! k). }
  cbn [fst snd orb]. split; [done|]. split.
  - intros _. split.
    + app_simpl. by rewrite unloadModel_ref, Hu.
    + rewrite setAt_lookup_eq. cbn [results advanceClock logEvent].
      rewrite unloadModel_lookup, Hu, setAt_lookup_eq.
      cbn [results advanceClock logEvent]. rewrite setAt_lookup_eq.
      by destruct (results st !! i).
  - intros k Hk. rewrite setAt_lookup_ne by done.
    cbn [results advanceClock logEvent]. by apply Hother.
Qed.

(** The calls of a Low-VRAM run: those of its jobs, job after job, up to
    and including the first job during which Stop is pressed. *)
Lemma lowVram_calls st :
  abortControllerRef st = fresh →
  ∃ k, k ≤ length files ∧
    issued (log (handleLowVramProcessing files model template contextWindow quality env st))
    = issued (log st) ++ flat_map (jobCalls env) (seq 0 k) ∧
    (∀ m, m < length files →
       (∀ j, j < m → lowVramBreaks env j = false) → m < k).
Proof.
  intros Href. unfold handleLowVramProcessing.
  apply (forEach_rule (lowVramBody model template contextWindow quality env) files
    (λ i s, abortControllerRef s = fresh ∧
            issued (log s) = issued (log st) ++ flat_map (jobCalls env) (seq 0 i))
    (λ s, ∃ k, k ≤ length files ∧
            issued (log s) = issued (log st) ++ flat_map (jobCalls env) (seq 0 k) ∧
            (∀ m, m < length files →
               (∀ j, j < m → lowVramBreaks env j = false) → m < k))).
  - by rewrite app_nil_r.
  - intros i f s s' Hf (Hr & Hc) Hb.
    destruct (lowVramBody_effect i f s Hr) as (Hfl & Hnext & _).
    pose proof (lowVramBody_issued i f s Hr) as Hi.
    rewrite Hb in Hfl, Hnext, Hi. cbn [fst snd] in *.
    destruct (lowVramBreaks env i); [discriminate|].
    split; [by apply Hnext|].
    by rewrite Hi, Hc, schedule_snoc, app_assoc.
  - intros i f s s' Hf (Hr & Hc) Hb.
    destruct (lowVramBody_effect i f s Hr) as (Hfl & _ & _).
    pose proof (lowVramBody_issued i f s Hr) as Hi.
    rewrite Hb in Hfl, Hi. cbn [fst snd] in *.
    destruct (lowVramBreaks env i) eqn:Hbr; [|discriminate].
    exists (S i). split; [by eapply lookup_lt_Some|]. split.
    + by rewrite Hi, Hc, schedule_snoc, app_assoc.
    + intros m Hm Hq. destruct (decide (m < S i)); [done|].
      rewrite Hq in Hbr by lia. done.
  - intros s (Hr & Hc). exists (length files). by repeat split.
Qed.
End LowVramCalls.

(** * Stopping a run *)

Lemma frozen_no_stop new final : EvStop ∉ new → frozenAfterStop new final.
Proof.
  intros Hno later earlier ->. exfalso. apply Hno.
  apply elem_of_app. right. left.
Qed.

Section Frozen.
Variable base : list Event.

Lemma quiet_frozen st : Quiet base st → ∃ new, log st = new ++ base ∧ frozenAfterStop new (results st).
Proof. intros (_ & new & Hl & Hno & _). exists new. split; [done|]. by apply frozen_no_stop. Qed.

Lemma halted_frozen st : Halted base st → ∃ new, log st = new ++ base ∧ frozenAfterStop new (results st).
Proof. by intros (_ & H). Qed.

Lemma quiet_setResults f st : Quiet base st → Quiet base (setResults f st).
Proof.
  intros (Hr & new & Hl & Hno & Hlast). split; [done|].
  exists (EvRender (f (results st)) :: new). cbn [log setResults results].
  rewrite Hl. split; [done|]. split; [|done].
  rewrite not_elem_of_cons. by split.
Qed.

Lemma quiet_logEvent e st : silent e → Quiet base st → Quiet base (logEvent e st).
Proof.
  intros He (Hr & new & Hl & Hno & Hlast). split; [done|].
  exists (e :: new). cbn [log logEvent results]. rewrite Hl. split; [done|]. split.
  - rewrite not_elem_of_cons. split; [|done]. destruct e; simpl in He; done.
  - destruct e; simpl in He; done.
Qed.

Lemma quiet_advanceClock dt st : Quiet base st → Quiet base (advanceClock dt st).
Proof.
  intros (Hr & new & Hl & Hno & Hlast). split; [done|]. by exists new.
Qed.

Lemma halted_handleStop st : Quiet base st → Halted base (handleStop st).
Proof.
  intros (Hr & new & Hl & Hno & Hlast). split.
  { by rewrite handleStop_ref, Hr. }
  exists (EvRender (map unprocess (results st)) :: EvStop :: new).
  rewrite handleStop_log, handleStop_results, Hl. split; [done|].
  intros later earlier Heq.
  destruct later as [|e1 later]; [discriminate|].
  injection Heq as <- Heq.
  destruct later as [|e2 later].
  - injection Heq as <-. rewrite Hlast. split; [|done].
    intros rs Hin. rewrite list_elem_of_singleton in Hin. congruence.
  - injection Heq as <- Heq. exfalso. apply Hno. rewrite Heq.
    apply elem_of_app. right. left.
Qed.

Lemma halted_logEvent e st : silent e → Halted base st → Halted base (logEvent e st).
Proof.
  intros He (Hr & new & Hl & Hfr). split; [done|].
  exists (e :: new). cbn [log logEvent results]. rewrite Hl. split; [done|].
  intros later earlier Heq.
  destruct later as [|e1 later]; [injection Heq as -> _; done|].
  injection Heq as <- Heq. destruct (Hfr _ _ Heq) as [Hrs Hfin]. split; [|done].
  intros rs Hin. apply elem_of_cons in Hin as [<-|Hin]; [done|]. by apply Hrs.
Qed.

Lemma halted_rerender f st :
  f (results st) = results st → Halted base st → Halted base (setResults f st).
Proof.
  intros Hf (Hr & new & Hl & Hfr). split; [done|].
  exists (EvRender (f (results st)) :: new). cbn [log setResults results].
  rewrite Hl. split; [done|].
  intros later earlier Heq.
  destruct later as [|e1 later]; [discriminate|].
  injection Heq as <- Heq. destruct (Hfr _ _ Heq) as [Hrs Hfin].
  rewrite Hf. split; [|done].
  intros rs Hin. apply elem_of_cons in Hin as [[= ->]|Hin]; [done|]. by apply Hrs.
Qed.
End Frozen.

Lemma quiet_ref base st : Quiet base st → abortControllerRef st = fresh.
Proof. by intros [? _]. Qed.

Lemma halted_ref base st : Halted base st → signalAborted st = true.
Proof. intros [H _]. unfold signalAborted. by rewrite H. Qed.

Create HintDb frozen discriminated.
#[local] Hint Resolve quiet_setResults quiet_logEvent quiet_advanceClock
  halted_handleStop halted_logEvent : frozen.
#[local] Hint Extern 1 (silent _) => exact I : frozen.

Section FrozenRun.
Variable base : list Event.
Variable files : list File.
Variable model template : string.
Variable contextWindow : Z.
Variable quality : string.
Variable env : Env.

Lemma quiet_setAt i g st : Quiet base st → Quiet base (setAt i g st).
Proof. apply quiet_setResults. Qed.

Lemma normalBody_frozen i file st fl st' :
  Quiet base st →
  normalBody model template contextWindow quality env i file st = (fl, st') →
  match fl with Next => Quiet base st' | Break => Halted base st' end.
Proof.
  intros Hq. rewrite normalBody_fresh by (by eapply quiet_ref). cbv zeta.
  destruct (stopped (env (CallProcess i))); intros [= <- <-].
  - apply halted_rerender.
    + rewrite handleStop_results. cbn [results advanceClock logEvent setAt setResults].
      apply mapAt_pending_stopped.
    + auto 10 using quiet_setAt with frozen.
  - auto 10 using quiet_setAt with frozen.
Qed.

Lemma extractBody_frozen i file st acc fl st' acc' :
  Quiet base st →
  extractBody quality env i file (st, acc) = (fl, (st', acc')) →
  match fl with Next => Quiet base st' | Break => Halted base st' end.
Proof.
  intros Hq. rewrite extractBody_fresh by (by eapply quiet_ref). cbv zeta.
  destruct (stopped (env (CallExtract i))); intros [= <- <- <-];
    auto 10 using quiet_setAt with frozen.
Qed.

Lemma parseBody_frozen k m st fl st' :
  Quiet base st →
  parseBody files model template contextWindow env k m st = (fl, st') →
  match fl with Next => Quiet base st' | Break => Halted base st' end.
Proof.
  intros Hq. destruct (files !! mr_index m) as [f|] eqn:Hf.
  - rewrite (parseBody_fresh _ _ _ _ _ _ _ f) by (done || by eapply quiet_ref).
    cbv zeta.
    destruct (stopped (env (CallParse _))); intros [= <- <-];
      auto 10 using quiet_setAt with frozen.
  - rewrite parseBody_fresh_missing by (done || by eapply quiet_ref).
    intros [= <- <-]. auto 10 using quiet_setAt with frozen.
Qed.

Lemma unloadModel_frozen c st :
  Quiet base st →
  if stopped (env c) then Halted base (unloadModel env c st)
  else Quiet base (unloadModel env c st).
Proof.
  intros Hq. rewrite unloadModel_eq. unfold suspend, warnIfFailed.
  destruct (stopped (env c)), (outcome (env c));
    auto 10 using quiet_setAt with frozen.
Qed.

Lemma lowVramBody_frozen i file st fl st' :
  Quiet base st →
  lowVramBody model template contextWindow quality env i file st = (fl, st') →
  match fl with Next => Quiet base st' | Break => Halted base st' end.
Proof.
  intros Hq. rewrite lowVramBody_fresh by (by eapply quiet_ref). cbv zeta.
  destruct (stopped (env (CallExtract i))).
  { intros [= <- <-]. auto 10 using quiet_setAt with frozen. }
  destruct (answer "OCR failed" _) as [err|data].
  { intros [= <- <-]. auto 10 using quiet_setAt with frozen. }
  match goal with |- context [unloadModel env ?c ?s] =>
    assert (Quiet base s) as Hq2 by auto 10 using quiet_setAt with frozen;
    pose proof (unloadModel_frozen c s Hq2) as Hu
  end.
  destruct (stopped (env (CallUnload (Some i)))).
  { intros [= <- <-]. auto 10 with frozen. }
  destruct (stopped (env (CallParse i))); intros [= <- <-];
    auto 10 using quiet_setAt with frozen.
Qed.

Lemma normal_frozen st :
  Quiet base st →
  Settled base (handleNormalProcessing files model template contextWindow quality env st).
Proof.
  intros Hq. unfold handleNormalProcessing.
  apply (forEach_rule _ files (λ _ s, Quiet base s) (Settled base)); try done.
  - intros i x s s' _ Hs Hb. by apply (normalBody_frozen _ _ _ _ _ Hs Hb).
  - intros i x s s' _ Hs Hb. eapply halted_frozen.
    by apply (normalBody_frozen _ _ _ _ _ Hs Hb).
  - intros s Hs. by eapply quiet_frozen.
Qed.

Lemma lowVram_frozen st :
  Quiet base st →
  Settled base (handleLowVramProcessing files model template contextWindow quality env st).
Proof.
  intros Hq. unfold handleLowVramProcessing.
  apply (forEach_rule _ files (λ _ s, Quiet base s) (Settled base)); try done.
  - intros i x s s' _ Hs Hb. by apply (lowVramBody_frozen _ _ _ _ _ Hs Hb).
  - intros i x s s' _ Hs Hb. eapply halted_frozen.
    by apply (lowVramBody_frozen _ _ _ _ _ Hs Hb).
  - intros s Hs. by eapply quiet_frozen.
Qed.

Lemma batch_frozen st :
  Quiet base st →
  Settled base (handleBatchProcessing files model template contextWindow quality env st).
Proof.
  intros Hq. unfold handleBatchProcessing.
  assert (Hp1 : let s := forEach (extractBody quality env) 0 files (st, []) in
                Quiet base s.1 ∨ Halted base s.1).
  { apply (forEach_rule _ files (λ _ s, Quiet base s.1)
             (λ s, Quiet base s.1 ∨ Halted base s.1)); try done.
    - intros i x [s a] [s' a'] _ Hs Hb.
      by apply (extractBody_frozen _ _ _ _ _ _ _ Hs Hb).
    - intros i x [s a] [s' a'] _ Hs Hb. right.
      by apply (extractBody_frozen _ _ _ _ _ _ _ Hs Hb).
    - intros s Hs. by left. }
  destruct (forEach (extractBody quality env) 0 files (st, [])) as [st1 acc].
  cbn [fst] in Hp1. destruct Hp1 as [Hq1|Hh1].
  - unfold signalAborted. rewrite (quiet_ref _ _ Hq1). cbn [aborted].
    pose proof (unloadModel_frozen (CallUnload None) st1 Hq1) as Hu.
    destruct (stopped (env (CallUnload None))).
    + rewrite forEach_break_first; [by eapply halted_frozen|].
      intros i m. apply parseBody_aborted. by eapply halted_ref.
    + apply (forEach_rule _ acc (λ _ s, Quiet base s) (Settled base)); try done.
      * intros i x s s' _ Hs Hb. by apply (parseBody_frozen _ _ _ _ _ Hs Hb).
      * intros i x s s' _ Hs Hb. eapply halted_frozen.
        by apply (parseBody_frozen _ _ _ _ _ Hs Hb).
      * intros s Hs. by eapply quiet_frozen.
  - rewrite (halted_ref _ _ Hh1). by eapply halted_frozen.
Qed.
End FrozenRun.

Lemma startSetup_quiet files st : Quiet (log st) (startSetup files st).
Proof.
  split; [apply startSetup_ref|]. unfold startSetup.
  destruct (initialResults_log files
              (setAbortControllerRef (Some (mkAbortController false))
                 (setIsProcessing true st))) as (cs & Hl & Hcs).
  destruct (initialResults files _) as [rs st'] eqn:E. cbn [snd] in Hl.
  exists (EvRender rs :: cs). cbn [log setResults results]. rewrite Hl.
  split; [done|]. split; [|done].
  rewrite not_elem_of_cons. split; [done|].
  intros Hin. rewrite Forall_forall in Hcs. by apply Hcs in Hin.
Qed.

(** * How the jobs of a run end *)

Section NormalRun.
Variable files : list File.
Variable model template : string.
Variable contextWindow : Z.
Variable quality : string.
Variable env : Env.

(** The jobs of a Performance run up to the first one that is stopped:
    each of them is called, and ends as the answer to its call says. *)
Lemma normal_summary st :
  abortControllerRef st = fresh →
  let st' := handleNormalProcessing files model template contextWindow quality env st in
  ∀ k, k < length files →
    (∀ j, j < k → stopped (env (CallProcess j)) = false) →
    CallProcess k ∈ issued (log st') ∧
    (stopped (env (CallProcess k)) = false →
     results st' !! k = normalFinal env k <$> results st !! k).
Proof.
  intros Href. unfold handleNormalProcessing.
  apply (forEach_rule (normalBody model template contextWindow quality env) files
    (λ i s, abortControllerRef s = fresh ∧
            (∀ j, j < i → CallProcess j ∈ issued (log s)) ∧
            (∀ j, j < i → stopped (env (CallProcess j)) = false) ∧
            (∀ j, results s !! j =
                  (if decide (j < i) then normalFinal env j <$> results st !! j
                   else results st !! j)))
    (λ s, ∀ k, k < length files →
            (∀ j, j < k → stopped (env (CallProcess j)) = false) →
            CallProcess k ∈ issued (log s) ∧
            (stopped (env (CallProcess k)) = false →
             results s !! k = normalFinal env k <$> results st !! k))).
  - split; [done|]. split; [intros; lia|]. split; [intros; lia|].
    intros j. by case_decide; [lia|].
  - intros i f s s' Hf (Hr & Hc & Hq & Hres).
    rewrite normalBody_fresh by done. cbv zeta.
    destruct (stopped (env (CallProcess i))) eqn:Hs; [discriminate|].
    intros [= <-]. split; [by app_simpl|]. split; [|split].
    + intros j Hj. app_simpl. rewrite !issued_cons, !app_nil_r.
      apply elem_of_app. destruct (decide (j = i)) as [->|].
      * right. by left.
      * left. apply Hc. lia.
    + intros j Hj. destruct (decide (j = i)) as [->|]; [done|]. apply Hq. lia.
    + intros j. rewrite setAt_lookup. cbn [results advanceClock logEvent].
      rewrite setAt_lookup, Hres.
      repeat case_decide; try lia; subst; destruct (results st !! _); done.
  - intros i f s s' Hf (Hr & Hc & Hq & Hres).
    rewrite normalBody_fresh by done. cbv zeta.
    destruct (stopped (env (CallProcess i))) eqn:Hs; [|discriminate].
    intros [= <-] k Hk Hqk.
    assert (k ≤ i) as Hki.
    { destruct (decide (k ≤ i)); [done|]. rewrite Hqk in Hs by lia. done. }
    split.
    + app_simpl. rewrite !issued_cons, !app_nil_r.
      apply elem_of_app. destruct (decide (k = i)) as [->|].
      * right. by left.
      * left. apply Hc. lia.
    + intros Hsk. assert (k < i) by (destruct (decide (k = i)); [congruence|lia]).
      rewrite setAt_lookup_ne, handleStop_lookup by lia.
      cbn [results advanceClock logEvent]. rewrite setAt_lookup_ne by lia.
      rewrite Hres. case_decide; [|lia].
      destruct (results st !! k); [|done]. simpl. f_equal.
      apply unprocess_id, terminal_not_processing, normalFinal_terminal.
  - intros s (Hr & Hc & Hq & Hres) k Hk Hqk. split; [by apply Hc|].
    intros _. rewrite Hres. by case_decide.
Qed.
End NormalRun.

Section LowVramRun.
Variable files : list File.
Variable model template : string.
Variable contextWindow : Z.
Variable quality : string.
Variable env : Env.

(** The jobs of a Low-VRAM run up to the first one that is stopped. *)
Lemma lowVram_summary st :
  abortControllerRef st = fresh →
  let st' := handleLowVramProcessing files model template contextWindow quality env st in
  ∀ k, k < length files →
    (∀ j, j < k → lowVramBreaks env j = false) →
    Forall (λ c, c ∈ issued (log st')) (jobCalls env k) ∧
    (lowVramBreaks env k = false →
     results st' !! k = lowVramFinal env k <$> results st !! k).
Proof.
  intros Href. unfold handleLowVramProcessing.
  apply (forEach_rule (lowVramBody model template contextWindow quality env) files
    (λ i s, abortControllerRef s = fresh ∧
            (∀ j, j < i → Forall (λ c, c ∈ issued (log s)) (jobCalls env j)) ∧
            (∀ j, j < i → lowVramBreaks env j = false) ∧
            (∀ j, results s !! j =
                  (if decide (j < i) then lowVramFinal env j <$> results st !! j
                   else results st !! j)))
    (λ s, ∀ k, k < length files →
            (∀ j, j < k → lowVramBreaks env j = false) →
            Forall (λ c, c ∈ issued (log s)) (jobCalls env k) ∧
            (lowVramBreaks env k = false →
             results s !! k = lowVramFinal env k <$> results st !! k))).
  - split; [done|]. split; [intros; lia|]. split; [intros; lia|].
    intros j. by case_decide; [lia|].
  - intros i f s s' Hf (Hr & Hc & Hq & Hres) Hb.
    destruct (lowVramBody_effect model template contextWindow quality env i f s Hr) as (Hfl & Hnext & Hframe).
    pose proof (lowVramBody_issued model template contextWindow quality env i f s Hr) as Hiss.
    rewrite Hb in Hfl, Hnext, Hframe, Hiss. cbn [fst snd] in *.
    destruct (lowVramBreaks env i) eqn:Hbr; [discriminate|].
    destruct (Hnext eq_refl) as [Hr' Hi]. split; [done|]. split; [|split].
    + intros j Hj. rewrite Hiss. destruct (decide (j = i)) as [->|].
      * apply Forall_forall. intros c Hin. apply elem_of_app. by right.
      * eapply Forall_impl; [apply Hc; lia|]. intros c Hin. apply elem_of_app. by left.
    + intros j Hj. destruct (decide (j = i)) as [->|]; [done|]. apply Hq. lia.
    + intros j. destruct (decide (j = i)) as [->|Hne].
      * rewrite Hi, Hres. repeat case_decide; try lia. done.
      * rewrite Hframe, Hres by done.
        repeat case_decide; try lia; by destruct (results st !! j).
  - intros i f s s' Hf (Hr & Hc & Hq & Hres) Hb k Hk Hqk.
    destruct (lowVramBody_effect model template contextWindow quality env i f s Hr) as (Hfl & Hnext & Hframe).
    pose proof (lowVramBody_issued model template contextWindow quality env i f s Hr) as Hiss.
    rewrite Hb in Hfl, Hnext, Hframe, Hiss. cbn [fst snd] in *.
    destruct (lowVramBreaks env i) eqn:Hbr; [|discriminate].
    assert (k ≤ i) as Hki.
    { destruct (decide (k ≤ i)); [done|]. rewrite Hqk in Hbr by lia. done. }
    split.
    + rewrite Hiss. destruct (decide (k = i)) as [->|].
      * apply Forall_forall. intros c Hin. apply elem_of_app. by right.
      * eapply Forall_impl; [apply Hc; lia|]. intros c Hin. apply elem_of_app. by left.
    + intros Hbk. assert (k < i) by (destruct (decide (k = i)); [congruence|lia]).
      rewrite Hframe, Hres by lia. case_decide; [|lia].
      destruct (results st !! k); [|done]. cbn [fmap option_fmap option_map]. f_equal.
      apply unprocess_id, terminal_not_processing, lowVramFinal_terminal.
  - intros s (Hr & Hc & Hq & Hres) k Hk Hqk. split; [by apply Hc|].
    intros _. rewrite Hres. by case_decide.
Qed.
End LowVramRun.

Section BatchResults.
Variable files : list File.
Variable model template : string.
Variable contextWindow : Z.
Variable quality : string.
Variable env : Env.

(** Phase 1, seen from the job list: the jobs up to the first one that is
    stopped are as the answers to their extract calls say. *)
Lemma phase1_results st :
  abortControllerRef st = fresh →
  ∀ k, k < length files →
    (∀ j, j ≤ k → stopped (env (CallExtract j)) = false) →
    results (forEach (extractBody quality env) 0 files (st, [])).1 !! k
    = extractFinal env k <$> results st !! k.
Proof.
  intros Href.
  apply (forEach_rule (extractBody quality env) files
    (λ i s, abortControllerRef s.1 = fresh ∧
            (∀ j, results s.1 !! j =
                  (if decide (j < i) then extractFinal env j <$> results st !! j
                   else results st !! j)))
    (λ s, ∀ k, k < length files →
            (∀ j, j ≤ k → stopped (env (CallExtract j)) = false) →
            results s.1 !! k = extractFinal env k <$> results st !! k)).
  - split; [done|]. intros j. by case_decide; [lia|].
  - intros i f [s acc] [s' acc'] Hf (Hr & Hres). cbn [fst] in Hr, Hres.
    rewrite extractBody_fresh by done. cbv zeta.
    destruct (stopped (env (CallExtract i))) eqn:Hs; [discriminate|].
    intros [= <- <-]. split; [by app_simpl|]. cbn [fst].
    intros j. rewrite setAt_lookup. cbn [results advanceClock logEvent].
    rewrite setAt_lookup, Hres.
    repeat case_decide; try lia; subst; destruct (results st !! _); done.
  - intros i f [s acc] [s' acc'] Hf (Hr & Hres). cbn [fst] in Hr, Hres.
    rewrite extractBody_fresh by done. cbv zeta.
    destruct (stopped (env (CallExtract i))) eqn:Hs; [|discriminate].
    intros [= <- <-] k Hk Hqk. cbn [fst].
    assert (k < i) as Hki.
    { destruct (decide (k < i)); [done|]. rewrite Hqk in Hs by lia. done. }
    rewrite handleStop_lookup. cbn [results advanceClock logEvent].
    rewrite setAt_lookup_ne, Hres by lia. case_decide; [|lia].
    destruct (results st !! k); [|done]. cbn [fmap option_fmap option_map]. f_equal.
    apply unprocess_id, extractFinal_not_processing.
  - intros [s acc] (Hr & Hres) k Hk Hqk. cbn [fst] in *.
    rewrite Hres. by case_decide.
Qed.

(** Phase 3 leaves alone every settled job that is not in its list. *)
Lemma phase3_frame todo st k r :
  abortControllerRef st = fresh →
  k ∉ mr_index <$> todo →
  results st !! k = Some r → status r ≠ Processing →
  results (forEach (parseBody files model template contextWindow env) 0 todo st) !! k
  = Some r.
Proof.
  intros Href Hk Hr Hst.
  apply (forEach_rule (parseBody files model template contextWindow env) todo
    (λ _ s, abortControllerRef s = fresh ∧ results s !! k = Some r)
    (λ s, results s !! k = Some r)); try done.
  - intros i m s s' Hm (Hrs & Hres).
    assert (k ≠ mr_index m) as Hne.
    { intros ->. apply Hk. apply list_elem_of_fmap_2. by eapply list_elem_of_lookup_2. }
    destruct (files !! mr_index m) as [f|] eqn:Hf.
    + rewrite (parseBody_fresh _ _ _ _ _ _ _ f) by done. cbv zeta.
      destruct (stopped _); [discriminate|]. intros [= <-].
      split; [by app_simpl|]. rewrite setAt_lookup_ne by done.
      cbn [results advanceClock logEvent]. by rewrite setAt_lookup_ne.
    + rewrite parseBody_fresh_missing by done. intros [= <-].
      split; [by app_simpl|]. by rewrite !setAt_lookup_ne.
  - intros i m s s' Hm (Hrs & Hres).
    assert (k ≠ mr_index m) as Hne.
    { intros ->. apply Hk. apply list_elem_of_fmap_2. by eapply list_elem_of_lookup_2. }
    destruct (files !! mr_index m) as [f|] eqn:Hf.
    + rewrite (parseBody_fresh _ _ _ _ _ _ _ f) by done. cbv zeta.
      destruct (stopped _); [|discriminate]. intros [= <-].
      rewrite handleStop_lookup. cbn [results advanceClock logEvent].
      rewrite setAt_lookup_ne, Hres by done.
      cbn [fmap option_fmap option_map]. by rewrite unprocess_id.
    + by rewrite parseBody_fresh_missing.
  - by intros s [_ ?].
Qed.

(** A job whose extract call fails in Phase 1 keeps the error it got
    there, whatever happens later in the run. *)
Lemma batch_extract_failed st k r0 :
  abortControllerRef st = fresh →
  k < length files →
  results st !! k = Some r0 →
  (∀ j, j ≤ k → stopped (env (CallExtract j)) = false) →
  ¬ extractSucceeds env k →
  results (handleBatchProcessing files model template contextWindow quality env st) !! k
  = Some (extractFinal env k r0).
Proof.
  intros Href Hk Hr0 Hq Hfail. unfold handleBatchProcessing.
  pose proof (phase1_results st Href k Hk Hq) as Hres. rewrite Hr0 in Hres.
  destruct (phase1_calls files quality env st Href) as (k1 & Hk1 & Hc & Hr & Hacc & _).
  destruct (forEach (extractBody quality env) 0 files (st, [])) as [st1 acc].
  cbn [fst snd fmap option_fmap option_map] in *. unfold signalAborted. rewrite Hr.
  destruct (phase1Cancelled env (length files)); [done|]. cbn [aborted stoppedRef fresh].
  destruct (Hacc eq_refl) as [-> Hidx]. clear Hacc.
  pose proof (unloadModel_ref env (CallUnload None) st1) as Hru.
  pose proof (unloadModel_lookup env (CallUnload None) st1 k) as Hlu.
  rewrite Hr in Hru. rewrite Hres in Hlu.
  destruct (stopped (env (CallUnload None))).
  - rewrite forEach_break_first.
    + rewrite Hlu. cbn [fmap option_fmap option_map]. f_equal.
      apply unprocess_id, extractFinal_not_processing.
    + intros i m. apply parseBody_aborted. unfold signalAborted. by rewrite Hru.
  - apply phase3_frame; [done| |done|apply extractFinal_not_processing].
    rewrite Hidx. intros Hin. apply list_elem_of_filter in Hin as [Hin _]. done.
Qed.

(** Phase 3 when nobody stops it: every job in its list gets the answer
    of its parse call, every other job is left as it is. *)
Lemma phase3_results todo st :
  abortControllerRef st = fresh →
  NoDup (mr_index <$> todo) →
  (∀ m, m ∈ todo → is_Some (files !! mr_index m)) →
  (∀ m, m ∈ todo → stopped (env (CallParse (mr_index m))) = false) →
  ∀ j r0, results st !! j = Some r0 →
    ∃ r, results (forEach (parseBody files model template contextWindow env) 0 todo st) !! j
           = Some r ∧
         (if decide (j ∈ mr_index <$> todo)
          then ∃ t, r = parseUpdate (env (CallParse j)) t (with_status Processing r0)
          else r = r0).
Proof.
  intros Href Hnd Hin Hq.
  apply (forEach_rule (parseBody files model template contextWindow env) todo
    (λ p s, abortControllerRef s = fresh ∧
            ∀ j r0, results st !! j = Some r0 →
              ∃ r, results s !! j = Some r ∧
                (if decide (j ∈ mr_index <$> take p todo)
                 then ∃ t, r = parseUpdate (env (CallParse j)) t
                                 (with_status Processing r0)
                 else r = r0))
    (λ s, ∀ j r0, results st !! j = Some r0 →
            ∃ r, results s !! j = Some r ∧
              (if decide (j ∈ mr_index <$> todo)
               then ∃ t, r = parseUpdate (env (CallParse j)) t
                               (with_status Processing r0)
               else r = r0))).
  - split; [done|]. intros j r0 Hj. exists r0. split; [done|].
    rewrite take_0. case_decide as Hc; [|done]. by apply elem_of_nil in Hc.
  - intros p m s s' Hm (Hr & Hres).
    assert (m ∈ todo) as Hmin by (by eapply list_elem_of_lookup_2).
    destruct (Hin m Hmin) as [f Hf].
    rewrite (parseBody_fresh _ _ _ _ _ _ _ f) by done. cbv zeta.
    rewrite (Hq m Hmin). intros [= <-]. split; [by app_simpl|].
    intros j r0 Hj. destruct (Hres j r0 Hj) as (r & Hrj & Hcase).
    rewrite (take_S_r _ _ _ Hm), fmap_app.
    assert (mr_index m ∉ mr_index <$> take p todo) as Hfresh.
    { rewrite <- (take_drop_middle _ _ _ Hm), fmap_app in Hnd.
      apply NoDup_app in Hnd as (_ & Hdisj & _). intros Hmem.
      apply (Hdisj _ Hmem). rewrite fmap_cons. left. }
    rewrite setAt_lookup. cbn [results advanceClock logEvent].
    rewrite setAt_lookup, Hrj. cbn [fmap option_fmap option_map].
    eexists. split; [reflexivity|].
    destruct (decide (j = mr_index m)) as [->|Hne].
    + case_decide as Hc1; [done|]. subst r.
      case_decide as Hc2.
      * eexists. reflexivity.
      * exfalso. apply Hc2. apply elem_of_app. right. simpl. left.
    + case_decide as Hc1; case_decide as Hc2; try done.
      * exfalso. apply Hc2. apply elem_of_app. by left.
      * exfalso. apply elem_of_app in Hc2 as [?|Hc2]; [done|].
        simpl in Hc2. apply list_elem_of_singleton in Hc2. done.
  - intros p m s s' Hm (Hr & Hres).
    assert (m ∈ todo) as Hmin by (by eapply list_elem_of_lookup_2).
    destruct (Hin m Hmin) as [f Hf].
    rewrite (parseBody_fresh _ _ _ _ _ _ _ f) by done. cbv zeta.
    by rewrite (Hq m Hmin).
  - intros s (Hr & Hres) j r0 Hj. specialize (Hres j r0 Hj).
    by rewrite firstn_all in Hres.
Qed.

(** A Batch run that nobody stops: every job whose extract call succeeds
    gets the answer of its parse call, every other job keeps the error of
    its extract call. *)
Lemma batch_summary st k r0 :
  abortControllerRef st = fresh →
  (∀ c, stopped (env c) = false) →
  k < length files →
  results st !! k = Some r0 →
  ∃ r, results (handleBatchProcessing files model template contextWindow quality env st) !! k
         = Some r ∧
       (if decide (extractSucceeds env k)
        then ∃ t, r = parseUpdate (env (CallParse k)) t
                        (with_status Processing (extractFinal env k r0))
        else r = extractFinal env k r0).
Proof.
  intros Href Hq Hk Hr0. unfold handleBatchProcessing.
  pose proof (phase1_results st Href k Hk (λ j _, Hq _)) as Hres. rewrite Hr0 in Hres.
  destruct (phase1_calls files quality env st Href) as (k1 & Hk1 & Hc & Hr & Hacc & _).
  destruct (forEach (extractBody quality env) 0 files (st, [])) as [st1 acc].
  cbn [fst snd fmap option_fmap option_map] in *. unfold signalAborted. rewrite Hr.
  rewrite (proj2 (phase1Cancelled_false env (length files))) in * by (intros; apply Hq).
  cbn [aborted fresh]. destruct (Hacc eq_refl) as [-> Hidx]. clear Hacc.
  pose proof (unloadModel_ref env (CallUnload None) st1) as Hru.
  pose proof (unloadModel_lookup env (CallUnload None) st1 k) as Hlu.
  rewrite Hr, Hq in Hru. rewrite Hres, Hq in Hlu.
  destruct (phase3_results acc (unloadModel env (CallUnload None) st1) Hru)
    with (j := k) (r0 := extractFinal env k r0) as (r & Hfin & Hcase); try done.
  - rewrite Hidx. apply NoDup_filter, NoDup_seq.
  - intros m Hm. apply lookup_lt_is_Some.
    assert (mr_index m ∈ mr_index <$> acc) as Hin by (by apply list_elem_of_fmap_2).
    rewrite Hidx in Hin. apply list_elem_of_filter in Hin as [_ Hin].
    apply list_elem_of_In, in_seq in Hin. lia.
  - exists r. split; [done|]. rewrite Hidx in Hcase.
    repeat case_decide; try done.
    + exfalso. match goal with H : ¬ extractSucceeds _ _ |- _ => apply H end.
      match goal with H : _ ∈ filter _ _ |- _ => by apply list_elem_of_filter in H as [? _] end.
    + exfalso. match goal with H : _ ∉ filter _ _ |- _ => apply H end.
      apply list_elem_of_filter. split; [done|]. apply list_elem_of_In, in_seq. lia.
Qed.
End BatchResults.

(** * Failures and malformed answers, job by job *)

Lemma startSetup_results files st :
  results (startSetup files st) =
  imap (λ i f, mkResultItem (name f) Pending None None None None
                 (Some ("blob:" +:+ pretty (blobs st + i)))) files.
Proof.
  unfold startSetup.
  destruct (initialResults files _) as [rs st'] eqn:E. cbn [results setResults].
  change rs with ((rs, st').1). by rewrite <- E, initialResults_fst.
Qed.

Lemma startSetup_lookup files st k :
  k < length files →
  ∃ r0, results (startSetup files st) !! k = Some r0 ∧
        status r0 = Pending ∧ error r0 = None ∧
        rawMarkdown r0 = None ∧ parsedJson r0 = None.
Proof.
  intros Hk. apply lookup_lt_is_Some in Hk as [f Hf].
  rewrite startSetup_results, list_lookup_imap, Hf.
  eexists. split; [reflexivity|]. done.
Qed.

Lemma answer_stageFailure fb a m :
  stageFailure a m → answer fb a = inl (ErrorObject "Error" m).
Proof.
  intros (d & Ho & Hd & Hm). unfold answer. rewrite Ho. simpl. rewrite Hd.
  by destruct m.
Qed.

Lemma answer_malformedOk fb a :
  malformedOk a → answer fb a = inr (mkResponseData None None None None).
Proof. intros Ho. unfold answer. by rewrite Ho. Qed.

Lemma failed_erroredWith fb m r :
  erroredWith m (failed fb (ErrorObject "Error" m) r).
Proof. done. Qed.

Lemma never_stopped_phase1 env n :
  (∀ c, stopped (env c) = false) → phase1Cancelled env n = false.
Proof. intros Hq. apply phase1Cancelled_false. intros j _. apply Hq. Qed.

Lemma never_stopped_lowVram env j :
  (∀ c, stopped (env c) = false) → lowVramBreaks env j = false.
Proof.
  intros Hq. unfold lowVramBreaks. rewrite !Hq.
  by destruct (succeeds _ _).
Qed.

Section Jobs.
Variable files : list File.
Variable model template : string.
Variable contextWindow : Z.
Variable quality : OCRQuality.
Variable env : Env.
Variable st : App.

(** A Performance run, job by job. *)
Lemma performance_jobs :
  ∃ new, issued (log (handleStart files model template contextWindow performance quality env st)) = issued (log st) ++ new ∧
    ∀ k, k < length files →
      (∀ j, j < k → stopped (env (CallProcess j)) = false) →
      CallProcess k ∈ new ∧
      (stopped (env (CallProcess k)) = false →
       ∃ r0, status r0 = Pending ∧ error r0 = None ∧
             rawMarkdown r0 = None ∧ parsedJson r0 = None ∧
             results (handleStart files model template contextWindow performance quality env st) !! k = Some (normalFinal env k r0)).
Proof.
  unfold handleStart.
  cbn [results log setIsProcessing setAbortControllerRef].
  destruct (normal_calls files model template contextWindow (quality_param quality)
              env (startSetup files st) (startSetup_ref files st))
    as (n & Hn & Hc & Hreach).
  rewrite startSetup_issued in Hc. eexists. split; [exact Hc|].
  intros k Hk Hq. split.
  - apply list_elem_of_fmap_2, list_elem_of_In, in_seq.
    specialize (Hreach k Hk Hq). lia.
  - intros Hs.
    destruct (startSetup_lookup files st k Hk) as (r0 & Hr0 & Hfields).
    exists r0. repeat (split; [apply Hfields|]).
    destruct (normal_summary files model template contextWindow
                (quality_param quality) env (startSetup files st)
                (startSetup_ref files st) k Hk Hq) as [_ Hres].
    by rewrite (Hres Hs), Hr0.
Qed.

(** A Low-VRAM run, job by job. *)
Lemma lowvram_jobs :
  ∃ new, issued (log (handleStart files model template contextWindow lowvram quality env st)) = issued (log st) ++ new ∧
    ∀ k, k < length files →
      (∀ j, j < k → lowVramBreaks env j = false) →
      Forall (λ c, c ∈ new) (jobCalls env k) ∧
      (lowVramBreaks env k = false →
       ∃ r0, status r0 = Pending ∧ error r0 = None ∧
             rawMarkdown r0 = None ∧ parsedJson r0 = None ∧
             results (handleStart files model template contextWindow lowvram quality env st) !! k = Some (lowVramFinal env k r0)).
Proof.
  unfold handleStart.
  cbn [results log setIsProcessing setAbortControllerRef].
  destruct (lowVram_calls files model template contextWindow (quality_param quality)
              env (startSetup files st) (startSetup_ref files st))
    as (n & Hn & Hc & Hreach).
  rewrite startSetup_issued in Hc. eexists. split; [exact Hc|].
  intros k Hk Hq. split.
  - apply Forall_forall. intros c Hin.
    apply list_elem_of_In, in_flat_map. exists k. split.
    + apply in_seq. specialize (Hreach k Hk Hq). lia.
    + by apply list_elem_of_In.
  - intros Hs.
    destruct (startSetup_lookup files st k Hk) as (r0 & Hr0 & Hfields).
    exists r0. repeat (split; [apply Hfields|]).
    destruct (lowVram_summary files model template contextWindow
                (quality_param quality) env (startSetup files st)
                (startSetup_ref files st) k Hk Hq) as [_ Hres].
    by rewrite (Hres Hs), Hr0.
Qed.

(** A Batch run, job by job. *)
Lemma batch_jobs :
  ∃ new, issued (log (handleStart files model template contextWindow batch quality env st)) = issued (log st) ++ new ∧
    ∀ k, k < length files →
      (∀ j, j < k → stopped (env (CallExtract j)) = false) →
      CallExtract k ∈ new ∧
      (¬ extractSucceeds env k → CallParse k ∉ new) ∧
      (stopped (env (CallExtract k)) = false → ¬ extractSucceeds env k →
       ∃ r0, status r0 = Pending ∧ error r0 = None ∧
             rawMarkdown r0 = None ∧ parsedJson r0 = None ∧
             results (handleStart files model template contextWindow batch quality env st) !! k = Some (extractFinal env k r0)) ∧
      ((∀ c, stopped (env c) = false) → extractSucceeds env k →
       CallParse k ∈ new ∧
       ∃ r0 t, status r0 = Pending ∧ error r0 = None ∧
             rawMarkdown r0 = None ∧ parsedJson r0 = None ∧
             results (handleStart files model template contextWindow batch quality env st) !! k
             = Some (parseUpdate (env (CallParse k)) t
                       (with_status Processing (extractFinal env k r0)))).
Proof.
  unfold handleStart.
  cbn [results log setIsProcessing setAbortControllerRef].
  destruct (batch_calls files model template contextWindow (quality_param quality)
              env (startSetup files st) (startSetup_ref files st))
    as (k1 & k3 & Hk1 & Hc & Hreach & Hfull).
  rewrite startSetup_issued in Hc. eexists. split; [exact Hc|].
  intros k Hk Hq.
  destruct (startSetup_lookup files st k Hk) as (r0 & Hr0 & Hfields).
  split; [|split; [|split]].
  - apply elem_of_app. left.
    apply list_elem_of_fmap_2, list_elem_of_In, in_seq.
    specialize (Hreach k Hk Hq). lia.
  - intros Hfail Hin. apply elem_of_app in Hin as [Hin|Hin].
    + apply list_elem_of_fmap in Hin as (j & [=] & _).
    + destruct (phase1Cancelled env (length files)); [by apply elem_of_nil in Hin|].
      apply elem_of_cons in Hin as [[=]|Hin].
      apply list_elem_of_fmap in Hin as (j & [= <-] & Hj).
      apply elem_of_take in Hj as (i & Hj & _).
      apply list_elem_of_lookup_2, list_elem_of_filter in Hj as [Hj _]. done.
  - intros Hs Hfail. exists r0. repeat (split; [apply Hfields|]).
    apply (batch_extract_failed files model template contextWindow
             (quality_param quality) env (startSetup files st) k r0);
      try done; [apply startSetup_ref|].
    intros j Hj. destruct (decide (j = k)) as [->|]; [done|]. apply Hq. lia.
  - intros Hnever Hok. split.
    + apply elem_of_app. right.
      rewrite (never_stopped_phase1 env (length files) Hnever) in *.
      rewrite (Hfull eq_refl (Hnever _) (λ j, Hnever _)), firstn_all.
      right. apply list_elem_of_fmap_2, list_elem_of_filter. split; [done|].
      apply list_elem_of_In, in_seq. lia.
    + destruct (batch_summary files model template contextWindow
                  (quality_param quality) env (startSetup files st) k r0
                  (startSetup_ref files st) Hnever Hk Hr0) as (r & Hres & Hcase).
      destruct (decide (extractSucceeds env k)) as [_|]; [|done].
      destruct Hcase as [t ->]. exists r0, t.
      repeat (split; [apply Hfields|]). done.
Qed.
End Jobs.

Lemma normalFinal_stageFailure env k m r :
  stageFailure (env (CallProcess k)) m → erroredWith m (normalFinal env k r).
Proof.
  intros Hf. unfold normalFinal, normalUpdate.
  by rewrite (answer_stageFailure _ _ _ Hf).
Qed.

Lemma extractSucceeds_stageFailure env k m :
  stageFailure (env (CallExtract k)) m → ¬ extractSucceeds env k.
Proof.
  intros Hf. unfold extractSucceeds, succeeds.
  by rewrite (answer_stageFailure _ _ _ Hf).
Qed.

Lemma extractFinal_stageFailure env k m r :
  stageFailure (env (CallExtract k)) m → erroredWith m (extractFinal env k r).
Proof.
  intros Hf. unfold extractFinal, extractUpdate.
  by rewrite (answer_stageFailure _ _ _ Hf).
Qed.

Lemma extractFinal_failed env k r :
  ¬ extractSucceeds env k → status (extractFinal env k r) = Error.
Proof.
  unfold extractSucceeds, succeeds, extractFinal, extractUpdate.
  by destruct (answer _ _).
Qed.

Lemma parseUpdate_stageFailure a m t r :
  stageFailure a m → erroredWith m (parseUpdate a t r).
Proof.
  intros Hf. unfold parseUpdate. by rewrite (answer_stageFailure _ _ _ Hf).
Qed.

Lemma lowVramFinal_stageFailure env k m r :
  stageFailure (env (CallExtract k)) m ∨
  (extractSucceeds env k ∧ stageFailure (env (CallParse k)) m) →
  erroredWith m (lowVramFinal env k r).
Proof.
  unfold lowVramFinal, extractSucceeds, succeeds. intros [Hf|[Hok Hf]].
  - by rewrite (answer_stageFailure _ _ _ Hf).
  - destruct (answer "OCR failed" _); [done|]. by apply parseUpdate_stageFailure.
Qed.

Lemma lowVramBreaks_extract env k :
  lowVramBreaks env k = false → stopped (env (CallExtract k)) = false.
Proof. unfold lowVramBreaks. by destruct (stopped _). Qed.


Lemma normalFinal_malformedOk env k r :
  malformedOk (env (CallProcess k)) →
  status (normalFinal env k r) = Success ∧
  error (normalFinal env k r) = error r ∧
  rawMarkdown (normalFinal env k r) = None ∧
  parsedJson (normalFinal env k r) = None.
Proof.
  intros Hm. unfold normalFinal, normalUpdate.
  by rewrite (answer_malformedOk _ _ Hm).
Qed.

Lemma malformedOk_succeeds fb a : malformedOk a → succeeds fb a = true.
Proof. intros Hm. unfold succeeds. by rewrite (answer_malformedOk _ _ Hm). Qed.

Lemma parseUpdate_rawMarkdown a t r :
  rawMarkdown (parseUpdate a t r) = rawMarkdown r.
Proof. unfold parseUpdate. by destruct (answer _ _). Qed.

Lemma parseUpdate_succeeds a t r :
  succeeds "Parse failed" a = true →
  status (parseUpdate a t r) = Success ∧ error (parseUpdate a t r) = error r.
Proof. unfold succeeds, parseUpdate. by destruct (answer _ _). Qed.

Lemma lowVramFinal_malformedOk env k r :
  malformedOk (env (CallExtract k)) →
  rawMarkdown (lowVramFinal env k r) = None ∧
  (succeeds "Parse failed" (env (CallParse k)) = true →
   status (lowVramFinal env k r) = Success ∧ error (lowVramFinal env k r) = error r).
Proof.
  intros Hm. unfold lowVramFinal. rewrite (answer_malformedOk _ _ Hm). split.
  - by rewrite parseUpdate_rawMarkdown.
  - intros Hp. by destruct (parseUpdate_succeeds (env (CallParse k))
      (elapsed (env (CallExtract k)) + elapsed (env (CallUnload (Some k)))
       + elapsed (env (CallParse k)))
      (with_rawMarkdown (markdown (mkResponseData None None None None))
         (with_status Processing r)) Hp) as [-> ->].
Qed.

Lemma extractFinal_malformedOk env k r :
  malformedOk (env (CallExtract k)) →
  rawMarkdown (extractFinal env k r) = None ∧ error (extractFinal env k r) = error r.
Proof.
  intros Hm. unfold extractFinal, extractUpdate.
  by rewrite (answer_malformedOk _ _ Hm).
Qed.



(** * Unload calls *)

(** C5. A Batch run calls unload exactly once when no extract call of
    Phase 1 is cancelled, however many of them fail; when Phase 1 is
    cancelled it calls unload not at all and makes no parse call either. *)
Theorem batch_unload_once (files : list File) (model template : string)
    (contextWindow : Z) (quality : OCRQuality) (env : Env) (st : App) :
  ∃ new,
    issued (log (handleStart files model template contextWindow batch quality env st))
      = issued (log st) ++ new ∧
    unloads new = (if phase1Cancelled env (length files) then 0 else 1) ∧
    (phase1Cancelled env (length files) = true →
       Forall (λ c, isExtract c = true) new).
Proof.
  unfold handleStart.
  destruct (batch_calls files model template contextWindow (quality_param quality)
              env (startSetup files st) (startSetup_ref files st))
    as (k1 & k3 & Hk1 & Hc & _ & _).
  rewrite startSetup_issued in Hc.
  eexists. split; [exact Hc|].
  destruct (phase1Cancelled env (length files)).
  - rewrite app_nil_r, unloads_extracts. split; [done|]. intros _.
    apply Forall_fmap, Forall_forall. done.
  - split; [|done]. rewrite unloads_app, unloads_extracts.
    change (CallUnload None :: ?l) with ([CallUnload None] ++ l).
    by rewrite unloads_app, unloads_parses.
Qed.

(** C6. In a Low-VRAM run unload is called exactly once for every job whose
    extract call was made and completed successfully, and not at all for any
    other job; for such a job the three calls extract, unload, parse follow
    each other directly, after all calls of the jobs before it and before
    any call of a later job. *)
Theorem lowvram_unload_per_extract (files : list File) (model template : string)
    (contextWindow : Z) (quality : OCRQuality) (env : Env) (st : App) :
  ∃ new,
    issued (log (handleStart files model template contextWindow lowvram quality env st))
      = issued (log st) ++ new ∧
    (∀ i, length (filter (λ c, c = CallUnload (Some i)) new)
          = if decide (CallExtract i ∈ new ∧ extractCompleted env i = true)
            then 1 else 0) ∧
    (∀ i, CallExtract i ∈ new → extractCompleted env i = true →
       ∃ before after,
         new = before ++ [CallExtract i; CallUnload (Some i); CallParse i] ++ after ∧
         Forall (λ c, ∃ j, callJob c = Some j ∧ j < i) before ∧
         Forall (λ c, ∃ j, callJob c = Some j ∧ i < j) after).
Proof.
  unfold handleStart.
  destruct (lowVram_calls files model template contextWindow (quality_param quality)
              env (startSetup files st) (startSetup_ref files st)) as (k & Hk & Hc & _).
  rewrite startSetup_issued in Hc.
  eexists. split; [exact Hc|]. split.
  - intros i. rewrite schedule_unload_once.
    destruct (decide (i < k ∧ _)) as [[? ?]|Hn1];
      destruct (decide (CallExtract i ∈ _ ∧ _)) as [[Hin ?]|Hn2]; try done.
    + exfalso. apply Hn2. split; [by apply schedule_extract|done].
    + exfalso. apply Hn1. split; [by apply schedule_extract in Hin|done].
  - intros i Hi Hok. apply schedule_extract in Hi.
    exists (flat_map (jobCalls env) (seq 0 i)),
           (flat_map (jobCalls env) (seq (S i) (k - S i))).
    split; [|split].
    + rewrite (schedule_split env k i Hi). unfold jobCalls at 2. by rewrite Hok.
    + eapply Forall_impl; [apply schedule_jobs|].
      intros c (j & Hj & Hr). exists j. split; [done|lia].
    + eapply Forall_impl; [apply schedule_jobs|].
      intros c (j & Hj & Hr). exists j. split; [done|lia].
Qed.

(** * Stop *)


(** * The synchronous handlers *)

(** C4. Right after the synchronous setup of [handleStart] there is one job
    per input file, in input order: job [i] carries the name of [files[i]],
    is Pending, and holds a preview URL (a non-empty string, so the handle
    is not null). *)
Theorem startSetup_jobs (files : list File) (st : App) :
  length (results (startSetup files st)) = length files ∧
  ∀ i f, files !! i = Some f →
    ∃ r, results (startSetup files st) !! i = Some r ∧
         filename r = name f ∧
         status r = Pending ∧
         is_Some (truthyUrl (fileUrl r)).
Proof.
  rewrite startSetup_results. split.
  - apply length_imap.
  - intros i f Hf. rewrite list_lookup_imap, Hf.
    eexists. split; [reflexivity|]. repeat split. by eexists.
Qed.

(** C8. Removing an existing job [index]: the list gets one shorter, the
    jobs before [index] stay where they are and those after it move down by
    one, each of them untouched; the only object URL released is the one of
    the removed job; the run in progress, if any, is not cancelled. *)
Theorem remove_in_range (st : App) (index : nat) (r : ResultItem) :
  results st !! index = Some r →
  ∃ st', handleRemoveResult index st = inr st' ∧
    length (results st') + 1 = length (results st) ∧
    (∀ j, j < index → results st' !! j = results st !! j) ∧
    (∀ j, index ≤ j → results st' !! j = results st !! S j) ∧
    revoked (log st') =
      match truthyUrl (fileUrl r) with
      | Some url => url :: revoked (log st)
      | None => revoked (log st)
      end ∧
    abortControllerRef st' = abortControllerRef st ∧
    isProcessing st' = isProcessing st.
Proof.
  intros Hr. unfold handleRemoveResult. rewrite Hr.
  eexists. split; [reflexivity|].
  assert (Hres : ∀ st0, results st0 = results st →
            results (setResults (filterOut index 0) st0)
            = delete index (results st)).
  { intros st0 Hst0. simpl. rewrite Hst0, filterOut_delete by lia.
    by rewrite Nat.sub_0_r. }
  assert (Hsame : results
            match truthyUrl (fileUrl r) with
            | Some url => revokeObjectURL url st
            | None => st
            end = results st) by (by destruct (truthyUrl (fileUrl r))).
  rewrite (Hres _ Hsame).
  split; [|split; [|split; [|split; [|split]]]].
  - rewrite length_delete by (by eexists).
    apply lookup_lt_Some in Hr. lia.
  - intros j Hj. by apply list_lookup_delete_lt.
  - intros j Hj. by apply list_lookup_delete_ge.
  - by destruct (truthyUrl (fileUrl r)).
  - by destruct (truthyUrl (fileUrl r)).
  - by destruct (truthyUrl (fileUrl r)).
Qed.

Lemma remove_in_range_witness :
  ∃ st', handleRemoveResult 1 oneOfEach = inr st' ∧
         length (results st') + 1 = 4 ∧
         revoked (log st') = ["blob:1"].
Proof.
  destruct (remove_in_range oneOfEach 1 _ eq_refl)
    as (st' & H1 & H2 & _ & _ & H3 & _).
  exists st'. split; [exact H1|]. split; [exact H2 | exact H3].
Defined.

(** C10. Removing a job that does not exist (an index at or past the end of
    the list, any index on the empty list) does not leave the list alone:
    the updater reads [fileUrl] of the undefined slot and throws. *)
Theorem remove_out_of_range_throws (st : App) (index : nat) :
  length (results st) ≤ index →
  handleRemoveResult index st = inl (undefinedRead "fileUrl").
Proof.
  intros Hge. unfold handleRemoveResult.
  by rewrite (lookup_ge_None_2 _ _ Hge).
Qed.

Lemma remove_out_of_range_throws_witness :
  handleRemoveResult 0 initialApp = inl (undefinedRead "fileUrl") ∧
  handleRemoveResult 4 oneOfEach = inl (undefinedRead "fileUrl").
Proof.
  split; apply remove_out_of_range_throws; simpl; lia.
Defined.

(** C1, as the code has it. [handleUpdateResult] replaces [parsedJson] of
    job [index] whatever the status of that job; its other fields and the
    other jobs stay as they are. *)
Theorem update_overwrites_any_status (st : App) (index : nat) (value : Json)
    (r : ResultItem) :
  results st !! index = Some r →
  results (handleUpdateResult index value st)
  = <[index := with_parsedJson (Some value) r]> (results st).
Proof. intros Hr. simpl. by apply mapAt_insert. Qed.

Lemma update_overwrites_any_status_witness :
  results (handleUpdateResult 3 (JStr "edited") oneOfEach)
  = <[3 := mkResultItem "d.png" Error None (Some (JStr "edited"))
             (Some "model crashed") None (Some "blob:3")]> (results oneOfEach).
Proof.
  exact (update_overwrites_any_status oneOfEach 3 (JStr "edited") _ eq_refl).
Defined.

(** C1, as stated, fails: on the Processing, the Pending and the Error job
    of a list the update is not a no-op. *)
Lemma update_pending_not_noop :
  status <$> results oneOfEach = [Success; Processing; Pending; Error] ∧
  results (handleUpdateResult 1 (JStr "edited") oneOfEach) ≠ results oneOfEach ∧
  results (handleUpdateResult 2 (JStr "edited") oneOfEach) ≠ results oneOfEach ∧
  results (handleUpdateResult 3 (JStr "edited") oneOfEach) ≠ results oneOfEach.
Proof. repeat split; discriminate. Qed.

(** * Preview URLs across runs *)

Lemma revoked_cons e l :
  revoked (e :: l) =
  match e with EvRevokeObjectURL u => u :: revoked l | _ => revoked l end.
Proof. by destruct e. Qed.

Lemma fetch_revoked env c req b st :
  revoked (log (fetch env c req b st).1) = revoked (log st).
Proof.
  unfold fetch, suspend.
  destruct (if b then _ else _) as [[[]]|]; destruct (stopped (env c));
    cbn [fst aborted]; rewrite ?handleStop_log; done.
Qed.

Section Revoked.
Variable files : list File.
Variable model template : string.
Variable contextWindow : Z.
Variable quality : string.
Variable env : Env.

Lemma unloadModel_revoked c st :
  revoked (log (unloadModel env c st)) = revoked (log st).
Proof.
  rewrite unloadModel_eq. unfold suspend, warnIfFailed.
  destruct (outcome (env c)), (stopped (env c)); app_simpl; done.
Qed.

Lemma normalBody_revoked i f st :
  revoked (log (normalBody model template contextWindow quality env i f st).2)
  = revoked (log st).
Proof.
  unfold normalBody. destruct (signalAborted st); [done|].
  match goal with |- context [fetch ?e ?c ?r ?b ?s] =>
    pose proof (fetch_revoked e c r b s) as Hf; destruct (fetch e c r b s) as [st1 res]
  end.
  cbn [fst] in Hf. destruct (okJson _ _) as [err|d]; [destruct (isAbortError err)|];
    cbn [snd setAt setResults log]; by rewrite revoked_cons, Hf.
Qed.

Lemma extractBody_revoked i f s :
  revoked (log (extractBody quality env i f s).2.1) = revoked (log s.1).
Proof.
  destruct s as [st acc]. unfold extractBody. destruct (signalAborted st); [done|].
  match goal with |- context [fetch ?e ?c ?r ?b ?s] =>
    pose proof (fetch_revoked e c r b s) as Hf; destruct (fetch e c r b s) as [st1 res]
  end.
  cbn [fst] in Hf. destruct (okJson _ _) as [err|d]; [destruct (isAbortError err)|];
    cbn [fst snd setAt setResults log]; rewrite ?revoked_cons, Hf; done.
Qed.

Lemma parseBody_revoked k m st :
  revoked (log (parseBody files model template contextWindow env k m st).2)
  = revoked (log st).
Proof.
  unfold parseBody, parseAttempt. destruct (signalAborted st); [done|].
  destruct (files !! mr_index m) as [f|]; [|done].
  match goal with |- context [fetch ?e ?c ?r ?b ?s] =>
    pose proof (fetch_revoked e c r b s) as Hf; destruct (fetch e c r b s) as [st1 res]
  end.
  cbn [fst] in Hf. destruct (okJson _ _) as [err|d]; [destruct (isAbortError err)|];
    cbn [fst snd setAt setResults log]; rewrite ?revoked_cons, Hf; done.
Qed.

Lemma lowVramBody_revoked i f st :
  revoked (log (lowVramBody model template contextWindow quality env i f st).2)
  = revoked (log st).
Proof.
  unfold lowVramBody. destruct (signalAborted st); [done|].
  match goal with |- context [fetch ?e ?c ?r ?b ?s] =>
    pose proof (fetch_revoked e c r b s) as Hf; destruct (fetch e c r b s) as [st1 res]
  end.
  cbn [fst] in Hf. destruct (okJson _ _) as [err|d].
  { destruct (isAbortError err); cbn [snd setAt setResults log];
      rewrite ?revoked_cons, Hf; done. }
  match goal with |- context [fetch ?e ?c ?r ?b ?s] =>
    pose proof (fetch_revoked e c r b s) as Hf2; destruct (fetch e c r b s) as [st2 res2]
  end.
  cbn [fst] in Hf2. rewrite unloadModel_revoked in Hf2.
  destruct (okJson _ _) as [err|d']; [destruct (isAbortError err)|];
    cbn [snd setAt setResults log] in *; rewrite ?revoked_cons, Hf2, ?revoked_cons, Hf; done.
Qed.
End Revoked.

Lemma forEach_preserves {A St : Type} (body : nat → A → St → Flow * St)
    (P : St → Prop) items s :
  (∀ i x s, P s → P (body i x s).2) → P s → P (forEach body 0 items s).
Proof.
  intros Hbody Hs.
  apply (forEach_rule body items (λ _, P) P); try done.
  - intros i x s0 s' _ Hp Hb. specialize (Hbody i x s0 Hp). by rewrite Hb in Hbody.
  - intros i x s0 s' _ Hp Hb. specialize (Hbody i x s0 Hp). by rewrite Hb in Hbody.
Qed.

(** No run ever releases an object URL: [handleStart] replaces the job list
    and the loops only update jobs in place. *)
Lemma start_never_revokes (files : list File) (model template : string)
    (contextWindow : Z) (mode : ProcessingMode) (quality : OCRQuality)
    (env : Env) (st : App) :
  revoked (log (handleStart files model template contextWindow mode quality env st))
  = revoked (log st).
Proof.
  unfold handleStart. cbn [log setIsProcessing setAbortControllerRef].
  assert (Hsetup : revoked (log (startSetup files st)) = revoked (log st)).
  { unfold startSetup. destruct (initialResults files _) as [rs st'] eqn:E.
    cbn [log setResults]. rewrite revoked_cons. change st' with ((rs, st').2).
    rewrite <- E. by rewrite (proj2 (proj2 (initialResults_snd _ _))). }
  rewrite <- Hsetup. destruct mode.
  - apply (forEach_preserves _ (λ s, revoked (log s) = _)); [|done].
    intros i x s Hs. by rewrite normalBody_revoked.
  - unfold handleBatchProcessing.
    assert (Hp1 : revoked (log (forEach (extractBody (quality_param quality) env) 0
                                  files (startSetup files st, [])).1)
                  = revoked (log (startSetup files st))).
    { apply (forEach_preserves _ (λ s, revoked (log s.1) = _)); [|done].
      intros i x s Hs. by rewrite extractBody_revoked. }
    destruct (forEach (extractBody _ _) 0 files _) as [st1 acc]. cbn [fst] in Hp1.
    destruct (signalAborted st1); [done|].
    apply (forEach_preserves _ (λ s, revoked (log s) = _)).
    + intros i x s Hs. by rewrite parseBody_revoked.
    + by rewrite unloadModel_revoked.
  - apply (forEach_preserves _ (λ s, revoked (log s) = _)); [|done].
    intros i x s Hs. by rewrite lowVramBody_revoked.
Qed.

(** C3 on two runs in a row: the preview URL of the first run's job is
    still held by that job when the second run starts; the second run
    replaces the job list, and the URL is neither released nor reachable
    from any job afterwards. *)
Theorem start_leaks_previous_preview :
  fileUrl <$> results firstRun = [Some "blob:0"] ∧
  fileUrl <$> results secondRun = [Some "blob:1"] ∧
  acquired (log secondRun) = ["blob:1"; "blob:0"] ∧
  revoked (log secondRun) = [].
Proof. vm_compute. repeat split. Qed.

(** * Instances *)

Lemma batch_unload_once_witness :
  ∃ new,
    issued (log (handleStart [scanA; scanB] "llm" "invoice" 4096 batch base
                   stopAtFirst initialApp)) = [] ++ new ∧
    unloads new = 0 ∧
    Forall (λ c, isExtract c = true) new.
Proof.
  destruct (batch_unload_once [scanA; scanB] "llm" "invoice" 4096 base
              stopAtFirst initialApp) as (new & H1 & H2 & H3).
  exists new. split; [exact H1|]. split; [exact H2|]. apply H3. reflexivity.
Defined.

Lemma lowvram_unload_per_extract_witness :
  ∃ new,
    issued (log (handleStart [scanA] "llm" "invoice" 4096 lowvram base
                   allOk initialApp)) = [] ++ new ∧
    ∃ before after,
      new = before ++ [CallExtract 0; CallUnload (Some 0); CallParse 0] ++ after.
Proof.
  destruct (lowvram_unload_per_extract [scanA] "llm" "invoice" 4096 base
              allOk initialApp) as (new & H1 & _ & H3).
  exists new. split; [exact H1|].
  destruct (H3 0) as (before & after & H4 & _).
  - vm_compute in H1. rewrite <- H1. left.
  - reflexivity.
  - by exists before, after.
Defined.




(** ** The scenarios of the specification *)

(** Three files under Performance, every call succeeds: three jobs in
    Success, in input order, each with a processing time. *)
Example scenario_performance_all_succeed :
  (λ r, (filename r, status r, processingTime r)) <$>
    results (handleStart [scanA; scanB; scanC] "llm" "invoice" 4096 performance
               base allOk initialApp)
  = [("a.pdf", Success, Some 5%Z); ("b.pdf", Success, Some 5%Z);
     ("c.png", Success, Some 5%Z)].
Proof. vm_compute. reflexivity. Qed.

(** Two files under Batch, the extract call of the first one fails: it ends
    in Error, unload is called once, and only the second file is parsed. *)
Example scenario_batch_first_extract_fails :
  let st' := handleStart [scanA; scanB] "llm" "invoice" 4096 batch base
               failFirst initialApp in
  (λ r, (status r, error r)) <$> results st'
    = [(Error, Some "model crashed"); (Success, None)] ∧
  issued (log st')
    = [CallExtract 0; CallExtract 1; CallUnload None; CallParse 1].
Proof. vm_compute. split; reflexivity. Qed.

(** Two files under Low-VRAM, Stop is pressed while the parse call of the
    second one is in flight: the first job keeps its result, the second one
    is back to Pending, and nothing is Processing. *)
Example scenario_lowvram_stop_during_parse :
  let st' := handleStart [scanA; scanB] "llm" "invoice" 4096 lowvram base
               stopAtSecondParse initialApp in
  (λ r, (status r, rawMarkdown r)) <$> results st'
    = [(Success, Some "# Invoice"); (Pending, Some "# Invoice")] ∧
  issued (log st')
    = [CallExtract 0; CallUnload (Some 0); CallParse 0;
       CallExtract 1; CallUnload (Some 1); CallParse 1] ∧
  isProcessing st' = false.
Proof. vm_compute. repeat split. Qed.

(** Every call fails under Batch: both jobs end in Error, unload is still
    called once and nothing is parsed. *)
Example scenario_batch_all_fail :
  let st' := handleStart [scanA; scanB] "llm" "invoice" 4096 batch base
               failAll initialApp in
  status <$> results st' = [Error; Error] ∧
  issued (log st') = [CallExtract 0; CallExtract 1; CallUnload None].
Proof. vm_compute. split; reflexivity. Qed.

(** * Whole runs *)

Lemma cosmetic_with_status s : cosmetic (with_status s).
Proof. done. Qed.
Lemma cosmetic_with_rawMarkdown m : cosmetic (with_rawMarkdown m).
Proof. done. Qed.
Lemma cosmetic_failed fb err : cosmetic (failed fb err).
Proof. done. Qed.
Lemma cosmetic_processed d t : cosmetic (processed d t).
Proof. done. Qed.
Lemma cosmetic_extracted d : cosmetic (extracted d).
Proof. done. Qed.
Lemma cosmetic_parsed d t : cosmetic (parsed d t).
Proof. done. Qed.
Lemma cosmetic_unprocess : cosmetic unprocess.
Proof. intros r. unfold unprocess. by case_decide. Qed.

Lemma identity_mapAt i g l : cosmetic g → identity <$> mapAt i g l = identity <$> l.
Proof.
  intros Hg. apply list_eq. intros j.
  rewrite !list_lookup_fmap, mapAt_lookup.
  destruct (l !! j); [|done]. simpl. case_decide; by rewrite ?Hg.
Qed.

Lemma identity_unprocess l : identity <$> map unprocess l = identity <$> l.
Proof.
  change (map unprocess l) with (unprocess <$> l).
  rewrite <- list_fmap_compose. apply list_fmap_ext. intros i r _. apply cosmetic_unprocess.
Qed.

Create HintDb keeps discriminated.

Section Keeps.
Variable base : list Event.
Variable ids : list (string * option string).

Lemma keeps_setAt i g st : cosmetic g → Keeps base ids st → Keeps base ids (setAt i g st).
Proof.
  intros Hg (Hid & new & Hl & Hrs). unfold Keeps. cbn [setAt setResults results log].
  rewrite identity_mapAt by done. split; [done|].
  exists (EvRender (mapAt i g (results st)) :: new). rewrite Hl. split; [done|].
  intros rs Hin. apply elem_of_cons in Hin as [[= ->]|Hin]; [|by apply Hrs].
  by rewrite identity_mapAt.
Qed.

Lemma keeps_logEvent e st :
  (∀ rs, e ≠ EvRender rs) → Keeps base ids st → Keeps base ids (logEvent e st).
Proof.
  intros He (Hid & new & Hl & Hrs). split; [done|].
  exists (e :: new). cbn [log logEvent]. rewrite Hl. split; [done|].
  intros rs Hin. apply elem_of_cons in Hin as [Heq|Hin]; [|by apply Hrs].
  by destruct (He rs).
Qed.

Lemma keeps_advanceClock dt st : Keeps base ids st → Keeps base ids (advanceClock dt st).
Proof. intros (Hid & new & Hl & Hrs). split; [done|]. by exists new. Qed.

Lemma keeps_handleStop st : Keeps base ids st → Keeps base ids (handleStop st).
Proof.
  intros (Hid & new & Hl & Hrs). unfold Keeps. rewrite handleStop_results, identity_unprocess.
  split; [done|].
  exists (EvRender (map unprocess (results st)) :: EvStop :: new).
  rewrite handleStop_log, Hl. split; [done|].
  intros rs Hin. apply elem_of_cons in Hin as [[= ->]|Hin].
  - by rewrite identity_unprocess.
  - apply elem_of_cons in Hin as [[=]|Hin]. by apply Hrs.
Qed.

Lemma keeps_suspend a st : Keeps base ids st → Keeps base ids (suspend a st).
Proof.
  intros H. unfold suspend. destruct (stopped a);
    auto using keeps_handleStop, keeps_advanceClock.
Qed.

Lemma keeps_fetch env c req b st :
  Keeps base ids st → Keeps base ids (fetch env c req b st).1.
Proof.
  intros H. unfold fetch.
  assert (Keeps base ids (logEvent (EvFetch c req) st)) as H1
    by (by apply keeps_logEvent).
  destruct (if b then _ else _) as [[[]]|]; cbn [aborted];
    try destruct (stopped (env c)); cbn [fst]; auto using keeps_suspend.
Qed.

Lemma keeps_unloadModel env c st :
  Keeps base ids st → Keeps base ids (unloadModel env c st).
Proof.
  intros H. rewrite unloadModel_eq. unfold warnIfFailed.
  assert (Keeps base ids (suspend (env c) (logEvent (EvFetch c OcrUnload) st))) as H1.
  { apply keeps_suspend. by apply keeps_logEvent. }
  destruct (outcome (env c)); [|done]. by apply keeps_logEvent.
Qed.
End Keeps.

#[local] Hint Resolve keeps_setAt keeps_logEvent keeps_advanceClock keeps_handleStop
  keeps_fetch keeps_unloadModel cosmetic_with_status cosmetic_with_rawMarkdown
  cosmetic_failed cosmetic_processed cosmetic_extracted cosmetic_parsed : keeps.

Section KeepsRun.
Variable base : list Event.
Variable ids : list (string * option string).
Variable files : list File.
Variable model template : string.
Variable contextWindow : Z.
Variable quality : string.
Variable env : Env.

Lemma normalBody_keeps i f st :
  Keeps base ids st →
  Keeps base ids (normalBody model template contextWindow quality env i f st).2.
Proof.
  intros H. unfold normalBody. destruct (signalAborted st); [done|].
  match goal with |- context [fetch ?e ?c ?r ?b ?s] =>
    assert (Keeps base ids (fetch e c r b s).1) as Hf by auto with keeps;
    destruct (fetch e c r b s) as [st1 res]
  end.
  cbn [fst] in Hf. destruct (okJson _ _) as [err|d]; [destruct (isAbortError err)|];
    cbn [snd]; auto with keeps.
Qed.

Lemma extractBody_keeps i f s :
  Keeps base ids s.1 → Keeps base ids (extractBody quality env i f s).2.1.
Proof.
  destruct s as [st acc]. cbn [fst]. intros H. unfold extractBody.
  destruct (signalAborted st); [done|].
  match goal with |- context [fetch ?e ?c ?r ?b ?s] =>
    assert (Keeps base ids (fetch e c r b s).1) as Hf by auto with keeps;
    destruct (fetch e c r b s) as [st1 res]
  end.
  cbn [fst] in Hf. destruct (okJson _ _) as [err|d]; [destruct (isAbortError err)|];
    cbn [fst snd]; auto with keeps.
Qed.

Lemma parseBody_keeps k m st :
  Keeps base ids st →
  Keeps base ids (parseBody files model template contextWindow env k m st).2.
Proof.
  intros H. unfold parseBody, parseAttempt. destruct (signalAborted st); [done|].
  destruct (files !! mr_index m) as [f|].
  - match goal with |- context [fetch ?e ?c ?r ?b ?s] =>
      assert (Keeps base ids (fetch e c r b s).1) as Hf by auto with keeps;
      destruct (fetch e c r b s) as [st1 res]
    end.
    cbn [fst] in Hf. destruct (okJson _ _) as [err|d]; [destruct (isAbortError err)|];
      cbn [fst snd]; auto with keeps.
  - change (isAbortError (undefinedRead "name")) with false.
    cbn [snd]. auto with keeps.
Qed.

Lemma lowVramBody_keeps i f st :
  Keeps base ids st →
  Keeps base ids (lowVramBody model template contextWindow quality env i f st).2.
Proof.
  intros H. unfold lowVramBody. destruct (signalAborted st); [done|].
  match goal with |- context [fetch ?e ?c ?r ?b ?s] =>
    assert (Keeps base ids (fetch e c r b s).1) as Hf by auto with keeps;
    destruct (fetch e c r b s) as [st1 res]
  end.
  cbn [fst] in Hf. destruct (okJson _ _) as [err|d].
  { destruct (isAbortError err); cbn [snd]; auto with keeps. }
  match goal with |- context [fetch ?e ?c ?r ?b ?s] =>
    assert (Keeps base ids (fetch e c r b s).1) as Hf2 by auto 6 with keeps;
    destruct (fetch e c r b s) as [st2 res2]
  end.
  cbn [fst] in Hf2. destruct (okJson _ _) as [err|d']; [destruct (isAbortError err)|];
    cbn [snd]; auto with keeps.
Qed.
End KeepsRun.

Lemma startSetup_keeps files st :
  Keeps (log st)
    (imap (λ i f, (name f, Some ("blob:" +:+ pretty (blobs st + i)))) files)
    (startSetup files st).
Proof.
  assert (Hid : identity <$> results (startSetup files st)
                = imap (λ i f, (name f, Some ("blob:" +:+ pretty (blobs st + i)))) files).
  { rewrite startSetup_results. apply list_eq. intros i.
    rewrite list_lookup_fmap, !list_lookup_imap. by destruct (files !! i). }
  split; [done|]. rewrite <- Hid. unfold startSetup.
  destruct (initialResults_log files
              (setAbortControllerRef (Some (mkAbortController false))
                 (setIsProcessing true st))) as (cs & Hl & Hcs).
  destruct (initialResults files _) as [rs st'] eqn:E. cbn [snd] in Hl.
  exists (EvRender rs :: cs). cbn [log setResults results]. rewrite Hl.
  split; [done|]. intros rs' Hin.
  apply elem_of_cons in Hin as [[= ->]|Hin]; [done|].
  rewrite Forall_forall in Hcs. by apply Hcs in Hin.
Qed.

Lemma run_keeps (files : list File) (model template : string)
    (contextWindow : Z) (mode : ProcessingMode) (quality : OCRQuality)
    (env : Env) (st : App) :
  Keeps (log st)
    (imap (λ i f, (name f, Some ("blob:" +:+ pretty (blobs st + i)))) files)
    (handleStart files model template contextWindow mode quality env st).
Proof.
  pose proof (startSetup_keeps files st) as Hs.
  set (ids := imap _ files) in *.
  assert (Keeps (log st) ids
            match mode with
            | performance =>
                handleNormalProcessing files model template contextWindow
                  (quality_param quality) env (startSetup files st)
            | batch =>
                handleBatchProcessing files model template contextWindow
                  (quality_param quality) env (startSetup files st)
            | lowvram =>
                handleLowVramProcessing files model template contextWindow
                  (quality_param quality) env (startSetup files st)
            end) as (Hid & new & Hl & Hrs).
  { destruct mode.
    - apply (forEach_preserves _ (Keeps (log st) ids)); [|done].
      intros i x s. apply normalBody_keeps.
    - unfold handleBatchProcessing.
      assert (Hp1 : Keeps (log st) ids
                (forEach (extractBody (quality_param quality) env) 0 files
                   (startSetup files st, [])).1).
      { apply (forEach_preserves _ (λ s, Keeps (log st) ids s.1)); [|done].
        intros i x s. apply extractBody_keeps. }
      destruct (forEach (extractBody _ _) 0 files _) as [st1 acc]. cbn [fst] in Hp1.
      destruct (signalAborted st1); [done|].
      apply (forEach_preserves _ (Keeps (log st) ids)).
      + intros i x s. apply parseBody_keeps.
      + by apply keeps_unloadModel.
    - apply (forEach_preserves _ (Keeps (log st) ids)); [|done].
      intros i x s. apply lowVramBody_keeps. }
  unfold handleStart, Keeps.
  cbn [log results setIsProcessing setAbortControllerRef]. split; [done|].
  by exists new.
Qed.


Lemma untouched_wellFormed r : untouched r → wellFormed r.
Proof.
  intros (Hs & He & Ht). unfold wellFormed. rewrite Hs, He, Ht.
  split; [done|]. split; split; intros H; try done; by destruct H.
Qed.

Lemma inFlight_unprocess r : inFlight r → untouched (unprocess r).
Proof.
  intros (Hs & He & Ht). unfold unprocess. rewrite decide_True by done. done.
Qed.

Lemma inFlight_start r : untouched r → inFlight (with_status Processing r).
Proof. by intros (Hs & He & Ht). Qed.

Lemma inFlight_rawMarkdown md r : inFlight r → inFlight (with_rawMarkdown md r).
Proof. done. Qed.

Lemma wellFormed_failed fb err r : inFlight r → wellFormed (failed fb err r).
Proof.
  intros (Hs & He & Ht). unfold wellFormed. cbn. rewrite Ht.
  split; [done|]. split; split; intros H; try done; by destruct H.
Qed.

Lemma wellFormed_processed d t r : inFlight r → wellFormed (processed d t r).
Proof.
  intros (Hs & He & Ht). unfold wellFormed. cbn. rewrite He.
  split; [done|]. split; split; intros H; try done; by destruct H.
Qed.

Lemma wellFormed_parsed d t r : inFlight r → wellFormed (parsed d t r).
Proof.
  intros (Hs & He & Ht). unfold wellFormed. cbn. rewrite He.
  split; [done|]. split; split; intros H; try done; by destruct H.
Qed.

Lemma untouched_extracted d r : inFlight r → untouched (extracted d r).
Proof. by intros (Hs & He & Ht). Qed.

Lemma wellFormed_normalUpdate a r : inFlight r → wellFormed (normalUpdate a r).
Proof.
  intros H. unfold normalUpdate.
  destruct (answer _ _); [by apply wellFormed_failed|by apply wellFormed_processed].
Qed.

Lemma wellFormed_parseUpdate a t r : inFlight r → wellFormed (parseUpdate a t r).
Proof.
  intros H. unfold parseUpdate.
  destruct (answer _ _); [by apply wellFormed_failed|by apply wellFormed_parsed].
Qed.

Lemma wellFormed_extractUpdate a r : inFlight r → wellFormed (extractUpdate a r).
Proof.
  intros H. unfold extractUpdate. destruct (answer _ _).
  - by apply wellFormed_failed.
  - by apply untouched_wellFormed, untouched_extracted.
Qed.

Lemma solo_at i (l : list ResultItem) :
  (∀ j r, l !! j = Some r → j ≠ i → status r ≠ Processing) → solo l.
Proof.
  intros H. exists i. intros j r Hj Hs.
  destruct (decide (j = i)); [done|]. by destruct (H j r Hj).
Qed.

Lemma solo_idle (l : list ResultItem) :
  (∀ j r, l !! j = Some r → status r ≠ Processing) → solo l.
Proof. intros H. apply (solo_at 0). intros j r Hj _. by apply (H j r). Qed.

Section Tidy.
Variable base : list Event.
Variable waiting : nat → Prop.

Lemma tidy_weaken (waiting' : nat → Prop) st :
  (∀ j, waiting' j → waiting j) → Tidy base waiting st → Tidy base waiting' st.
Proof.
  intros Hw [Hres Hlog]. split; [|done]. intros j r Hj.
  destruct (Hres j r Hj) as [Hwf Hu]. split; [done|]. auto.
Qed.

Lemma tidy_logEvent e st :
  (∀ rs, e ≠ EvRender rs) → Tidy base waiting st → Tidy base waiting (logEvent e st).
Proof.
  intros He (Hres & new & Hl & Hrs). split; [done|].
  exists (e :: new). cbn [log logEvent]. rewrite Hl. split; [done|].
  intros rs Hin. apply elem_of_cons in Hin as [Heq|Hin]; [|by apply Hrs].
  by destruct (He rs).
Qed.

Lemma tidy_advanceClock dt st :
  Tidy base waiting st → Tidy base waiting (advanceClock dt st).
Proof. intros (Hres & new & Hl & Hrs). split; [done|]. by exists new. Qed.

Lemma tidy_handleStop st : Tidy base waiting st → Tidy base waiting (handleStop st).
Proof.
  intros (Hres & new & Hl & Hrs).
  assert (Hsame : map unprocess (results st) = results st).
  { apply list_eq. intros j. rewrite list_lookup_fmap.
    destruct (results st !! j) as [r|] eqn:Hj; [|done]. simpl. f_equal.
    apply unprocess_id. by destruct (Hres j r Hj) as [[? _] _]. }
  unfold Tidy. rewrite handleStop_results, handleStop_log, Hsame. split; [done|].
  exists (EvRender (results st) :: EvStop :: new). rewrite Hl. split; [done|].
  intros rs Hin. apply elem_of_cons in Hin as [[= ->]|Hin].
  - apply solo_idle. intros j r Hj. by destruct (Hres j r Hj) as [[? _] _].
  - apply elem_of_cons in Hin as [[=]|Hin]. by apply Hrs.
Qed.

Lemma tidy_start i st :
  waiting i → Tidy base waiting st →
  Busy base waiting i (setAt i (with_status Processing) st).
Proof.
  intros Hi (Hres & new & Hl & Hrs). split.
  - intros j r. rewrite setAt_lookup.
    destruct (results st !! j) as [r0|] eqn:Hj; [|done]. simpl. intros [= <-].
    destruct (Hres j r0 Hj) as [Hwf Hu]. case_decide as Hji; split; try done.
    intros _. subst j. by apply inFlight_start, Hu.
  - exists (EvRender (mapAt i (with_status Processing) (results st)) :: new).
    cbn [log setAt setResults]. rewrite Hl. split; [done|].
    intros rs Hin. apply elem_of_cons in Hin as [[= ->]|Hin]; [|by apply Hrs].
    apply (solo_at i). intros j r. rewrite mapAt_lookup.
    destruct (results st !! j) as [r0|] eqn:Hj; [|done]. simpl. intros [= <-] Hji.
    rewrite decide_False by done. by destruct (Hres j r0 Hj) as [[? _] _].
Qed.

Lemma busy_logEvent i e st :
  (∀ rs, e ≠ EvRender rs) → Busy base waiting i st → Busy base waiting i (logEvent e st).
Proof.
  intros He (Hres & new & Hl & Hrs). split; [done|].
  exists (e :: new). cbn [log logEvent]. rewrite Hl. split; [done|].
  intros rs Hin. apply elem_of_cons in Hin as [Heq|Hin]; [|by apply Hrs].
  by destruct (He rs).
Qed.

Lemma busy_advanceClock i dt st :
  Busy base waiting i st → Busy base waiting i (advanceClock dt st).
Proof. intros (Hres & new & Hl & Hrs). split; [done|]. by exists new. Qed.

Lemma busy_solo i st : Busy base waiting i st → solo (results st).
Proof.
  intros [Hres _]. apply (solo_at i). intros j r Hj Hji.
  by destruct (Hres j r Hj) as [_ [[? _] _]].
Qed.

Lemma busy_setAt i g st :
  (∀ r, inFlight r → inFlight (g r)) →
  Busy base waiting i st → Busy base waiting i (setAt i g st).
Proof.
  intros Hg (Hres & new & Hl & Hrs).
  assert (Hres' : ∀ j r, results (setAt i g st) !! j = Some r →
            (j = i → inFlight r) ∧
            (j ≠ i → wellFormed r ∧ (waiting j → untouched r))).
  { intros j r. rewrite setAt_lookup.
    destruct (results st !! j) as [r0|] eqn:Hj; [|done]. simpl. intros [= <-].
    destruct (Hres j r0 Hj) as [Hi Ho]. case_decide; split; try done.
    intros _. by apply Hg, Hi. }
  split; [done|].
  exists (EvRender (results (setAt i g st)) :: new).
  cbn [log setAt setResults results]. rewrite Hl. split; [done|].
  intros rs Hin. apply elem_of_cons in Hin as [[= ->]|Hin]; [|by apply Hrs].
  apply (solo_at i). intros j r Hj Hji.
  by destruct (Hres' j r Hj) as [_ [[? _] _]].
Qed.

Lemma busy_finish (waiting' : nat → Prop) i g st :
  (∀ r, inFlight r → wellFormed (g r)) →
  (∀ j, waiting' j →
     (waiting j ∧ j ≠ i) ∨ (j = i ∧ ∀ r, inFlight r → untouched (g r))) →
  Busy base waiting i st → Tidy base waiting' (setAt i g st).
Proof.
  intros Hg Hw (Hres & new & Hl & Hrs).
  assert (Hres' : ∀ j r, results (setAt i g st) !! j = Some r →
            wellFormed r ∧ (waiting' j → untouched r)).
  { intros j r. rewrite setAt_lookup.
    destruct (results st !! j) as [r0|] eqn:Hj; [|done]. simpl. intros [= <-].
    destruct (Hres j r0 Hj) as [Hi Ho]. case_decide.
    - split; [by apply Hg, Hi|]. intros Hwj.
      destruct (Hw j Hwj) as [[_ ?]|[_ Hu]]; [done|]. by apply Hu, Hi.
    - destruct (Ho ltac:(done)) as [Hwf Hu]. split; [done|].
      intros Hwj. destruct (Hw j Hwj) as [[? _]|[? _]]; [by apply Hu|done]. }
  split; [done|].
  exists (EvRender (results (setAt i g st)) :: new).
  cbn [log setAt setResults results]. rewrite Hl. split; [done|].
  intros rs Hin. apply elem_of_cons in Hin as [[= ->]|Hin]; [|by apply Hrs].
  apply solo_idle. intros j r Hj. by destruct (Hres' j r Hj) as [[? _] _].
Qed.

Lemma busy_handleStop i st :
  Busy base waiting i st → Tidy base waiting (handleStop st).
Proof.
  intros (Hres & new & Hl & Hrs).
  assert (Hres' : ∀ j r, results (handleStop st) !! j = Some r →
            wellFormed r ∧ (waiting j → untouched r)).
  { intros j r. rewrite handleStop_lookup.
    destruct (results st !! j) as [r0|] eqn:Hj; [|done]. simpl. intros [= <-].
    destruct (Hres j r0 Hj) as [Hi Ho]. destruct (decide (j = i)) as [Heq|Hne].
    - pose proof (inFlight_unprocess r0 (Hi Heq)) as Hu.
      split; [by apply untouched_wellFormed|done].
    - destruct (Ho Hne) as [Hwf Hu]. rewrite unprocess_id by (by destruct Hwf). done. }
  split; [done|].
  exists (EvRender (results (handleStop st)) :: EvStop :: new).
  rewrite handleStop_log, Hl, handleStop_results. split; [done|].
  intros rs Hin. apply elem_of_cons in Hin as [[= ->]|Hin].
  - apply solo_idle. intros j r Hj. rewrite <- handleStop_results in Hj.
    by destruct (Hres' j r Hj) as [[? _] _].
  - apply elem_of_cons in Hin as [[=]|Hin]. by apply Hrs.
Qed.

Lemma tidy_repending i st :
  waiting i → Tidy base waiting st →
  Tidy base waiting (setAt i (with_status Pending) st).
Proof.
  intros Hi (Hres & new & Hl & Hrs).
  assert (Hsame : mapAt i (with_status Pending) (results st) = results st).
  { apply list_eq. intros j. rewrite mapAt_lookup.
    destruct (results st !! j) as [r|] eqn:Hj; [|done]. simpl. f_equal.
    case_decide; [|done]. subst j. destruct (Hres i r Hj) as [_ Hu].
    destruct (Hu Hi) as (Hs & _). destruct r. simpl in *. by subst. }
  unfold Tidy. cbn [setAt setResults results log]. rewrite Hsame. split; [done|].
  exists (EvRender (results st) :: new). rewrite Hl. split; [done|].
  intros rs Hin. apply elem_of_cons in Hin as [[= ->]|Hin]; [|by apply Hrs].
  apply solo_idle. intros j r Hj. by destruct (Hres j r Hj) as [[? _] _].
Qed.
End Tidy.

Section TidyRun.
Variable base : list Event.
Variable files : list File.
Variable model template : string.
Variable contextWindow : Z.
Variable quality : string.
Variable env : Env.

Lemma tidy_unloadModel waiting c st :
  Tidy base waiting st → Tidy base waiting (unloadModel env c st).
Proof.
  intros H. rewrite unloadModel_eq. unfold warnIfFailed, suspend.
  assert (Tidy base waiting
            (advanceClock (elapsed (env c)) (logEvent (EvFetch c OcrUnload) st))) as H1.
  { apply tidy_advanceClock. by apply tidy_logEvent. }
  destruct (stopped (env c)), (outcome (env c));
    repeat first [done | apply tidy_logEvent | apply tidy_handleStop].
Qed.

Lemma busy_unloadModel waiting i c st :
  Busy base waiting i st →
  if stopped (env c) then Tidy base waiting (unloadModel env c st)
  else Busy base waiting i (unloadModel env c st).
Proof.
  intros H. rewrite unloadModel_eq. unfold warnIfFailed, suspend.
  assert (Busy base waiting i
            (advanceClock (elapsed (env c)) (logEvent (EvFetch c OcrUnload) st))) as H1.
  { apply busy_advanceClock. by apply busy_logEvent. }
  destruct (stopped (env c)), (outcome (env c));
    repeat first [done | apply tidy_logEvent | apply busy_logEvent
                 | eapply busy_handleStop; eassumption].
Qed.

Lemma normalBody_tidy i f st fl st' :
  abortControllerRef st = fresh →
  Tidy base (λ j, i ≤ j) st →
  normalBody model template contextWindow quality env i f st = (fl, st') →
  match fl with
  | Next => abortControllerRef st' = fresh ∧ Tidy base (λ j, S i ≤ j) st'
  | Break => Tidy base (λ j, i ≤ j) st'
  end.
Proof.
  intros Href Ht. rewrite normalBody_fresh by done. cbv zeta.
  assert (Busy base (λ j, i ≤ j) i
            (advanceClock (elapsed (env (CallProcess i)))
               (logEvent (EvFetch (CallProcess i)
                            (OcrProcess f model template contextWindow quality))
                  (setAt i (with_status Processing) st)))) as Hb.
  { apply busy_advanceClock, busy_logEvent; [done|]. by apply tidy_start. }
  destruct (stopped (env (CallProcess i))); intros [= <- <-].
  - apply tidy_repending; [done|]. by eapply busy_handleStop.
  - split; [by app_simpl|].
    eapply busy_finish; [apply wellFormed_normalUpdate| |exact Hb].
    intros j Hj. left. simpl. lia.
Qed.

Lemma extractBody_tidy i f st acc fl st' acc' :
  abortControllerRef st = fresh →
  (∀ j, j ∈ mr_index <$> acc → j < i) →
  Tidy base (λ j, i ≤ j ∨ j ∈ mr_index <$> acc) st →
  extractBody quality env i f (st, acc) = (fl, (st', acc')) →
  Tidy base (λ j, S i ≤ j ∨ j ∈ mr_index <$> acc') st' ∧
  (∀ j, j ∈ mr_index <$> acc' → j < S i) ∧
  (fl = Next → abortControllerRef st' = fresh).
Proof.
  intros Href Hlt Ht. rewrite extractBody_fresh by done. cbv zeta.
  assert (Busy base (λ j, i ≤ j ∨ j ∈ mr_index <$> acc) i
            (advanceClock (elapsed (env (CallExtract i)))
               (logEvent (EvFetch (CallExtract i) (OcrExtract f quality))
                  (setAt i (with_status Processing) st)))) as Hb.
  { apply busy_advanceClock, busy_logEvent; [done|]. apply tidy_start; [|done]. by left. }
  destruct (stopped (env (CallExtract i))); intros [= <- <- <-].
  - split; [|split; [|done]].
    + eapply tidy_weaken; [|by eapply busy_handleStop].
      intros j [?|?]; [left; lia|by right].
    + intros j Hj. specialize (Hlt j Hj). lia.
  - split; [|split; [|by app_simpl]].
    + eapply busy_finish; [apply wellFormed_extractUpdate| |exact Hb].
      intros j Hj. rewrite fmap_app, elem_of_app in Hj.
      destruct (decide (j = i)) as [->|Hne].
      * destruct Hj as [?|[Hin|Hin]]; [lia|specialize (Hlt i Hin); lia|].
        right. split; [done|]. intros r Hr.
        unfold extractPush, extractUpdate in *.
        destruct (answer _ _); [by apply elem_of_nil in Hin|].
        by apply untouched_extracted.
      * left. split; [|done]. destruct Hj as [?|[Hin|Hin]].
        -- left. lia.
        -- by right.
        -- unfold extractPush in Hin. destruct (answer _ _).
           ++ by apply elem_of_nil in Hin.
           ++ apply list_elem_of_singleton in Hin. simpl in Hin. done.
    + intros j Hj. rewrite fmap_app, elem_of_app in Hj. destruct Hj as [Hin|Hin].
      * specialize (Hlt j Hin). lia.
      * unfold extractPush in Hin. destruct (answer _ _).
        -- by apply elem_of_nil in Hin.
        -- apply list_elem_of_singleton in Hin. simpl in Hin. lia.
Qed.

Lemma parseBody_tidy (waiting waiting' : nat → Prop) k m st fl st' :
  abortControllerRef st = fresh →
  waiting (mr_index m) →
  (∀ j, waiting' j → waiting j ∧ j ≠ mr_index m) →
  Tidy base waiting st →
  parseBody files model template contextWindow env k m st = (fl, st') →
  match fl with
  | Next => abortControllerRef st' = fresh ∧ Tidy base waiting' st'
  | Break => Tidy base waiting st'
  end.
Proof.
  intros Href Hm Hw Ht. destruct (files !! mr_index m) as [f|] eqn:Hf.
  - rewrite (parseBody_fresh _ _ _ _ _ _ _ f) by done. cbv zeta.
    assert (Busy base waiting (mr_index m)
              (advanceClock (elapsed (env (CallParse (mr_index m))))
                 (logEvent (EvFetch (CallParse (mr_index m))
                              (LlmParse (mr_markdown m) (name f) model template
                                 contextWindow))
                    (setAt (mr_index m) (with_status Processing) st)))) as Hb.
    { apply busy_advanceClock, busy_logEvent; [done|]. by apply tidy_start. }
    destruct (stopped (env (CallParse _))); intros [= <- <-].
    + by eapply busy_handleStop.
    + split; [by app_simpl|].
      eapply busy_finish; [apply wellFormed_parseUpdate| |exact Hb].
      intros j Hj. left. by apply Hw.
  - rewrite parseBody_fresh_missing by done. intros [= <- <-].
    split; [by app_simpl|].
    eapply busy_finish; [apply wellFormed_failed| |by apply tidy_start].
    intros j Hj. left. by apply Hw.
Qed.

Lemma lowVramBody_tidy i f st fl st' :
  abortControllerRef st = fresh →
  Tidy base (λ j, i ≤ j) st →
  lowVramBody model template contextWindow quality env i f st = (fl, st') →
  match fl with
  | Next => abortControllerRef st' = fresh ∧ Tidy base (λ j, S i ≤ j) st'
  | Break => Tidy base (λ j, i ≤ j) st'
  end.
Proof.
  intros Href Ht. rewrite lowVramBody_fresh by done. cbv zeta.
  assert (Busy base (λ j, i ≤ j) i
            (advanceClock (elapsed (env (CallExtract i)))
               (logEvent (EvFetch (CallExtract i) (OcrExtract f quality))
                  (setAt i (with_status Processing) st)))) as Hb.
  { apply busy_advanceClock, busy_logEvent; [done|]. by apply tidy_start. }
  destruct (stopped (env (CallExtract i))).
  { intros [= <- <-]. by eapply busy_handleStop. }
  destruct (answer "OCR failed" _) as [err|data].
  { intros [= <- <-]. split; [by app_simpl|].
    eapply busy_finish; [intros r; apply wellFormed_failed| |exact Hb].
    intros j Hj. left. simpl. lia. }
  pose proof (busy_unloadModel (λ j, i ≤ j) i (CallUnload (Some i)) _
                (busy_setAt base _ i (with_rawMarkdown (markdown data)) _
                   (inFlight_rawMarkdown (markdown data)) Hb)) as Hu.
  pose proof (unloadModel_ref env (CallUnload (Some i))
                (setAt i (with_rawMarkdown (markdown data))
                   (advanceClock (elapsed (env (CallExtract i)))
                      (logEvent (EvFetch (CallExtract i) (OcrExtract f quality))
                         (setAt i (with_status Processing) st))))) as Hru.
  destruct (stopped (env (CallUnload (Some i)))).
  { intros [= <- <-]. by apply tidy_logEvent. }
  destruct (stopped (env (CallParse i))); intros [= <- <-].
  - eapply busy_handleStop. apply busy_advanceClock. by apply busy_logEvent.
  - split.
    + app_simpl. by rewrite Hru.
    + eapply busy_finish;
        [apply wellFormed_parseUpdate|
        |apply busy_advanceClock, busy_logEvent; [done|exact Hu]].
      intros j Hj. left. simpl. lia.
Qed.

(** Whatever the policy, a run that starts with every job waiting keeps the
    job list tidy. *)
Lemma normal_tidy st :
  abortControllerRef st = fresh → Tidy base (λ _, True) st →
  Tidy base (λ _, False)
    (handleNormalProcessing files model template contextWindow quality env st).
Proof.
  intros Href Ht. unfold handleNormalProcessing.
  apply (forEach_rule _ files
    (λ i s, abortControllerRef s = fresh ∧ Tidy base (λ j, i ≤ j) s)
    (Tidy base (λ _, False))).
  - split; [done|]. eapply tidy_weaken; [|exact Ht]. done.
  - intros i x s s' _ [Hr Hs] Hb. by apply (normalBody_tidy _ _ _ _ _ Hr Hs Hb).
  - intros i x s s' _ [Hr Hs] Hb. eapply tidy_weaken; [|apply (normalBody_tidy _ _ _ _ _ Hr Hs Hb)].
    done.
  - intros s [_ Hs]. eapply tidy_weaken; [|exact Hs]. done.
Qed.

Lemma lowVram_tidy st :
  abortControllerRef st = fresh → Tidy base (λ _, True) st →
  Tidy base (λ _, False)
    (handleLowVramProcessing files model template contextWindow quality env st).
Proof.
  intros Href Ht. unfold handleLowVramProcessing.
  apply (forEach_rule _ files
    (λ i s, abortControllerRef s = fresh ∧ Tidy base (λ j, i ≤ j) s)
    (Tidy base (λ _, False))).
  - split; [done|]. eapply tidy_weaken; [|exact Ht]. done.
  - intros i x s s' _ [Hr Hs] Hb. by apply (lowVramBody_tidy _ _ _ _ _ Hr Hs Hb).
  - intros i x s s' _ [Hr Hs] Hb. eapply tidy_weaken; [|apply (lowVramBody_tidy _ _ _ _ _ Hr Hs Hb)].
    done.
  - intros s [_ Hs]. eapply tidy_weaken; [|exact Hs]. done.
Qed.

Lemma phase3_tidy todo st :
  abortControllerRef st = fresh →
  NoDup (mr_index <$> todo) →
  Tidy base (λ j, j ∈ mr_index <$> todo) st →
  Tidy base (λ _, False)
    (forEach (parseBody files model template contextWindow env) 0 todo st).
Proof.
  intros Href Hnd Ht.
  assert (Hstep : ∀ p m s fl s', todo !! p = Some m →
            abortControllerRef s = fresh →
            Tidy base (λ j, j ∈ mr_index <$> drop p todo) s →
            parseBody files model template contextWindow env p m s = (fl, s') →
            match fl with
            | Next => abortControllerRef s' = fresh ∧
                      Tidy base (λ j, j ∈ mr_index <$> drop (S p) todo) s'
            | Break => Tidy base (λ j, j ∈ mr_index <$> drop p todo) s'
            end).
  { intros p m s fl s' Hm Hr Hs Hb.
    apply (parseBody_tidy (λ j, j ∈ mr_index <$> drop p todo)
             (λ j, j ∈ mr_index <$> drop (S p) todo) p m s fl s' Hr); [| |done|done].
    - rewrite (drop_S _ _ _ Hm), fmap_cons. left.
    - intros j Hj. rewrite (drop_S _ _ _ Hm), fmap_cons. split; [by right|].
      intros ->. rewrite <- (take_drop_middle _ _ _ Hm), fmap_app, fmap_cons in Hnd.
      apply NoDup_app in Hnd as (_ & _ & Hnd). by apply NoDup_cons in Hnd as [Hnd _]. }
  apply (forEach_rule _ todo
    (λ p s, abortControllerRef s = fresh ∧
            Tidy base (λ j, j ∈ mr_index <$> drop p todo) s)
    (Tidy base (λ _, False))).
  - split; [done|]. by rewrite drop_0.
  - intros p m s s' Hm [Hr Hs] Hb. exact (Hstep p m s Next s' Hm Hr Hs Hb).
  - intros p m s s' Hm [Hr Hs] Hb.
    eapply tidy_weaken; [|exact (Hstep p m s Break s' Hm Hr Hs Hb)]. done.
  - intros s [_ Hs]. eapply tidy_weaken; [|exact Hs]. done.
Qed.

Lemma batch_tidy st :
  abortControllerRef st = fresh → Tidy base (λ _, True) st →
  Tidy base (λ _, False)
    (handleBatchProcessing files model template contextWindow quality env st).
Proof.
  intros Href Ht. unfold handleBatchProcessing.
  assert (Hp1 : let s := forEach (extractBody quality env) 0 files (st, []) in
                Tidy base (λ j, j ∈ mr_index <$> s.2) s.1).
  { apply (forEach_rule (extractBody quality env) files
      (λ i s, abortControllerRef s.1 = fresh ∧
              (∀ j, j ∈ mr_index <$> s.2 → j < i) ∧
              Tidy base (λ j, i ≤ j ∨ j ∈ mr_index <$> s.2) s.1)
      (λ s, Tidy base (λ j, j ∈ mr_index <$> s.2) s.1)).
    - split; [done|]. split; [intros j Hj; by apply elem_of_nil in Hj|].
      eapply tidy_weaken; [|exact Ht]. done.
    - intros i x [s a] [s' a'] _ (Hr & Hlt & Hs) Hb. cbn [fst snd] in *.
      destruct (extractBody_tidy _ _ _ _ _ _ _ Hr Hlt Hs Hb) as (H1 & H2 & H3).
      split; [by apply H3|]. by split.
    - intros i x [s a] [s' a'] _ (Hr & Hlt & Hs) Hb. cbn [fst snd] in *.
      destruct (extractBody_tidy _ _ _ _ _ _ _ Hr Hlt Hs Hb) as (H1 & _).
      eapply tidy_weaken; [|exact H1]. intros j Hj. by right.
    - intros [s a] (_ & _ & Hs). cbn [fst snd] in *.
      eapply tidy_weaken; [|exact Hs]. intros j Hj. by right. }
  destruct (phase1_calls files quality env st Href) as (k1 & _ & _ & Hr & Hacc & _).
  destruct (forEach (extractBody quality env) 0 files (st, [])) as [st1 acc].
  cbn [fst snd] in *. unfold signalAborted. rewrite Hr.
  destruct (phase1Cancelled env (length files)).
  { eapply tidy_weaken; [|exact Hp1]. done. }
  cbn [aborted fresh]. destruct (Hacc eq_refl) as [_ Hidx].
  pose proof (unloadModel_ref env (CallUnload None) st1) as Hru. rewrite Hr in Hru.
  pose proof (tidy_unloadModel _ (CallUnload None) _ Hp1) as Hu.
  destruct (stopped (env (CallUnload None))).
  - rewrite forEach_break_first; [eapply tidy_weaken; [|exact Hu]; done|].
    intros i m. apply parseBody_aborted. unfold signalAborted. by rewrite Hru.
  - apply phase3_tidy; [done| |done].
    rewrite Hidx. apply NoDup_filter, NoDup_seq.
Qed.
End TidyRun.

Lemma startSetup_tidy files st : Tidy (log st) (λ _, True) (startSetup files st).
Proof.
  assert (Hu : ∀ j r, results (startSetup files st) !! j = Some r → untouched r).
  { intros j r. rewrite startSetup_results, list_lookup_imap.
    destruct (files !! j); [|done]. by intros [= <-]. }
  split.
  - intros j r Hj. split; [by eapply untouched_wellFormed, Hu|]. intros _. by eapply Hu.
  - revert Hu. unfold startSetup.
    destruct (initialResults_log files
                (setAbortControllerRef (Some (mkAbortController false))
                   (setIsProcessing true st))) as (cs & Hl & Hcs).
    destruct (initialResults files _) as [rs st'] eqn:E. cbn [snd] in Hl.
    cbn [log setResults results]. intros Hu.
    exists (EvRender rs :: cs). rewrite Hl. split; [done|]. intros rs' Hin.
    apply elem_of_cons in Hin as [[= ->]|Hin].
    + apply solo_idle. intros j r Hj. destruct (Hu j r Hj) as [-> _]. done.
    + rewrite Forall_forall in Hcs. by apply Hcs in Hin.
Qed.

Lemma run_tidy (files : list File) (model template : string)
    (contextWindow : Z) (mode : ProcessingMode) (quality : OCRQuality)
    (env : Env) (st : App) :
  Tidy (log st) (λ _, False)
    (handleStart files model template contextWindow mode quality env st).
Proof.
  pose proof (startSetup_tidy files st) as Hs.
  pose proof (startSetup_ref files st) as Hr.
  assert (Tidy (log st) (λ _, False)
            match mode with
            | performance =>
                handleNormalProcessing files model template contextWindow
                  (quality_param quality) env (startSetup files st)
            | batch =>
                handleBatchProcessing files model template contextWindow
                  (quality_param quality) env (startSetup files st)
            | lowvram =>
                handleLowVramProcessing files model template contextWindow
                  (quality_param quality) env (startSetup files st)
            end) as [Hres Hlog].
  { destruct mode; [by apply normal_tidy|by apply batch_tidy|by apply lowVram_tidy]. }
  unfold handleStart. split; [|exact Hlog].
  cbn [results setIsProcessing setAbortControllerRef]. exact Hres.
Qed.



(** * Requests *)

Section Logged.
Variable P : Event → Prop.
Variable base : list Event.
Hypothesis P_render : ∀ rs, P (EvRender rs).
Hypothesis P_stop : P EvStop.
Hypothesis P_warn : ∀ m, P (EvWarn m).

Lemma logged_logEvent e st : P e → Logged P base st → Logged P base (logEvent e st).
Proof.
  intros He (new & Hl & Hn). exists (e :: new). cbn [log logEvent].
  rewrite Hl. split; [done|]. by constructor.
Qed.

Lemma logged_setAt i g st : Logged P base st → Logged P base (setAt i g st).
Proof.
  intros (new & Hl & Hn). exists (EvRender (mapAt i g (results st)) :: new).
  cbn [log setAt setResults]. rewrite Hl. split; [done|]. by constructor.
Qed.

Lemma logged_advanceClock dt st : Logged P base st → Logged P base (advanceClock dt st).
Proof. done. Qed.

Lemma logged_handleStop st : Logged P base st → Logged P base (handleStop st).
Proof.
  intros (new & Hl & Hn). unfold Logged. rewrite handleStop_log, Hl.
  eexists (_ :: _ :: new). split; [done|]. by repeat constructor.
Qed.

Lemma logged_suspend a st : Logged P base st → Logged P base (suspend a st).
Proof.
  intros H. unfold suspend. destruct (stopped a); [apply logged_handleStop|]; done.
Qed.

Lemma logged_unloadModel env c st :
  P (EvFetch c OcrUnload) → Logged P base st → Logged P base (unloadModel env c st).
Proof.
  intros Hc H. rewrite unloadModel_eq. unfold warnIfFailed.
  assert (Logged P base (suspend (env c) (logEvent (EvFetch c OcrUnload) st))).
  { by apply logged_suspend, logged_logEvent. }
  destruct (outcome (env c)); [apply logged_logEvent|]; done.
Qed.
End Logged.

Lemma initialResults_creates fs st :
  log (initialResults fs st).2
  = reverse (imap (λ i f, EvCreateObjectURL f (previewUrl (blobs st) i)) fs) ++ log st.
Proof.
  revert st. induction fs as [|f fs IH]; intros st; [done|].
  cbn [initialResults createObjectURL].
  specialize (IH (mkApp (results st) (isProcessing st) (abortControllerRef st)
                    (clock st) (S (blobs st))
                    (EvCreateObjectURL f ("blob:" +:+ pretty (blobs st)) :: log st))).
  destruct (initialResults fs _) as [rs st']. cbn [snd blobs log] in *.
  rewrite IH. cbn [imap]. rewrite reverse_cons, <- app_assoc. cbn [app].
  unfold previewUrl. rewrite Nat.add_0_r. do 2 f_equal.
  apply imap_ext. intros i x _. cbn. by rewrite Nat.add_succ_r.
Qed.

Lemma startSetup_log files st :
  log (startSetup files st)
  = EvRender (results (startSetup files st))
    :: reverse (imap (λ i f, EvCreateObjectURL f (previewUrl (blobs st) i)) files)
    ++ log st.
Proof.
  unfold startSetup.
  pose proof (initialResults_creates files
                (setAbortControllerRef (Some (mkAbortController false))
                   (setIsProcessing true st))) as H.
  destruct (initialResults files _) as [rs st']. cbn [snd] in H.
  cbn [log setResults results]. by rewrite H.
Qed.

Section RunLogged.
Variable base : list Event.
Variable files : list File.
Variable model template : string.
Variable contextWindow : Z.
Variable quality : string.
Variable env : Env.
Variable P : Event → Prop.
Hypothesis P_render : ∀ rs, P (EvRender rs).
Hypothesis P_stop : P EvStop.
Hypothesis P_warn : ∀ m, P (EvWarn m).
Hypothesis P_fetch : ∀ c req,
  wellAddressed files model template contextWindow quality env (EvFetch c req) →
  P (EvFetch c req).

#[local] Abbreviation L := (Logged P base).

Lemma normalBody_logged i f st :
  files !! i = Some f → abortControllerRef st = fresh → L st →
  L (normalBody model template contextWindow quality env i f st).2.
Proof.
  intros Hf Href H. rewrite normalBody_fresh by done. cbv zeta.
  assert (L (advanceClock (elapsed (env (CallProcess i)))
               (logEvent (EvFetch (CallProcess i)
                  (OcrProcess f model template contextWindow quality))
                  (setAt i (with_status Processing) st)))) as H1.
  { apply logged_advanceClock, logged_logEvent; [apply P_fetch; by exists f|].
    by apply logged_setAt. }
  destruct (stopped (env (CallProcess i))); cbn [snd].
  - apply logged_setAt; [done|]. by apply logged_handleStop.
  - by apply logged_setAt.
Qed.

Lemma extractBody_logged i f st acc :
  files !! i = Some f → abortControllerRef st = fresh → L st →
  L (extractBody quality env i f (st, acc)).2.1.
Proof.
  intros Hf Href H. rewrite extractBody_fresh by done. cbv zeta.
  assert (L (advanceClock (elapsed (env (CallExtract i)))
               (logEvent (EvFetch (CallExtract i) (OcrExtract f quality))
                  (setAt i (with_status Processing) st)))) as H1.
  { apply logged_advanceClock, logged_logEvent; [apply P_fetch; by exists f|].
    by apply logged_setAt. }
  destruct (stopped (env (CallExtract i))); cbn [fst snd].
  - by apply logged_handleStop.
  - by apply logged_setAt.
Qed.

Lemma parseBody_logged k m st :
  (∃ f data, files !! mr_index m = Some f ∧
     answer "OCR failed" (env (CallExtract (mr_index m))) = inr data ∧
     mr_markdown m = markdown data) →
  abortControllerRef st = fresh → L st →
  L (parseBody files model template contextWindow env k m st).2.
Proof.
  intros (f & data & Hf & Ha & Hm) Href H.
  rewrite (parseBody_fresh _ _ _ _ _ _ _ f) by done. cbv zeta.
  assert (L (advanceClock (elapsed (env (CallParse (mr_index m))))
               (logEvent (EvFetch (CallParse (mr_index m))
                  (LlmParse (mr_markdown m) (name f) model template contextWindow))
                  (setAt (mr_index m) (with_status Processing) st)))) as H1.
  { apply logged_advanceClock, logged_logEvent; [|by apply logged_setAt].
    apply P_fetch. exists f, data. by rewrite Hm. }
  destruct (stopped (env (CallParse _))); cbn [snd].
  - by apply logged_handleStop.
  - by apply logged_setAt.
Qed.

Lemma lowVramBody_logged i f st :
  files !! i = Some f → abortControllerRef st = fresh → L st →
  L (lowVramBody model template contextWindow quality env i f st).2.
Proof.
  intros Hf Href H. rewrite lowVramBody_fresh by done. cbv zeta.
  assert (L (advanceClock (elapsed (env (CallExtract i)))
               (logEvent (EvFetch (CallExtract i) (OcrExtract f quality))
                  (setAt i (with_status Processing) st)))) as H1.
  { apply logged_advanceClock, logged_logEvent; [apply P_fetch; by exists f|].
    by apply logged_setAt. }
  destruct (stopped (env (CallExtract i))); cbn [snd].
  { by apply logged_handleStop. }
  destruct (answer "OCR failed" (env (CallExtract i))) as [err|data] eqn:Ha; cbn [snd].
  { by apply logged_setAt. }
  assert (L (logEvent (EvFetch (CallParse i)
               (LlmParse (markdown data) (name f) model template contextWindow))
               (unloadModel env (CallUnload (Some i))
                  (setAt i (with_rawMarkdown (markdown data))
                     (advanceClock (elapsed (env (CallExtract i)))
                        (logEvent (EvFetch (CallExtract i) (OcrExtract f quality))
                           (setAt i (with_status Processing) st))))))) as H3.
  { apply logged_logEvent; [apply P_fetch; by exists f, data|].
    apply logged_unloadModel; [done..|by apply P_fetch|]. by apply logged_setAt. }
  destruct (stopped (env (CallUnload (Some i)))); cbn [snd]; [done|].
  destruct (stopped (env (CallParse i))); cbn [snd].
  - by apply logged_handleStop, logged_advanceClock.
  - by apply logged_setAt, logged_advanceClock.
Qed.

Lemma normalBody_next_fresh i f st st' :
  abortControllerRef st = fresh →
  normalBody model template contextWindow quality env i f st = (Next, st') →
  abortControllerRef st' = fresh.
Proof.
  intros Href. rewrite normalBody_fresh by done. cbv zeta.
  destruct (stopped _); [done|]. intros [= <-]. by app_simpl.
Qed.

Lemma extractBody_next_fresh i f st acc st' acc' :
  abortControllerRef st = fresh →
  extractBody quality env i f (st, acc) = (Next, (st', acc')) →
  abortControllerRef st' = fresh.
Proof.
  intros Href. rewrite extractBody_fresh by done. cbv zeta.
  destruct (stopped _); [done|]. intros [= <- _]. by app_simpl.
Qed.

Lemma parseBody_next_fresh k m st st' :
  abortControllerRef st = fresh →
  parseBody files model template contextWindow env k m st = (Next, st') →
  abortControllerRef st' = fresh.
Proof.
  intros Href. destruct (files !! mr_index m) as [f|] eqn:Hf.
  - rewrite (parseBody_fresh _ _ _ _ _ _ _ f) by done. cbv zeta.
    destruct (stopped _); [done|]. intros [= <-]. by app_simpl.
  - rewrite parseBody_fresh_missing by done. intros [= <-]. by app_simpl.
Qed.

Lemma lowVramBody_next_fresh i f st st' :
  abortControllerRef st = fresh →
  lowVramBody model template contextWindow quality env i f st = (Next, st') →
  abortControllerRef st' = fresh.
Proof.
  intros Href. rewrite lowVramBody_fresh by done. cbv zeta.
  destruct (stopped (env (CallExtract i))); [done|].
  destruct (answer "OCR failed" _) as [err|data].
  { intros [= <-]. by app_simpl. }
  pose proof (unloadModel_ref env (CallUnload (Some i))
                (setAt i (with_rawMarkdown (markdown data))
                   (advanceClock (elapsed (env (CallExtract i)))
                      (logEvent (EvFetch (CallExtract i) (OcrExtract f quality))
                         (setAt i (with_status Processing) st))))) as Hru.
  destruct (stopped (env (CallUnload (Some i)))); [done|].
  destruct (stopped (env (CallParse i))); [done|].
  intros [= <-]. app_simpl. by rewrite Hru.
Qed.

Lemma normal_logged st :
  abortControllerRef st = fresh → L st →
  L (handleNormalProcessing files model template contextWindow quality env st).
Proof.
  intros Href H. unfold handleNormalProcessing.
  apply (forEach_rule _ files (λ i s, abortControllerRef s = fresh ∧ L s) L); [done|..].
  - intros i x s s' Hx [Hr Hs] Hb.
    pose proof (normalBody_logged i x s Hx Hr Hs) as H'. rewrite Hb in H'.
    split; [|done]. by eapply normalBody_next_fresh.
  - intros i x s s' Hx [Hr Hs] Hb.
    pose proof (normalBody_logged i x s Hx Hr Hs) as H'. by rewrite Hb in H'.
  - by intros s [_ Hs].
Qed.

Lemma lowVram_logged st :
  abortControllerRef st = fresh → L st →
  L (handleLowVramProcessing files model template contextWindow quality env st).
Proof.
  intros Href H. unfold handleLowVramProcessing.
  apply (forEach_rule _ files (λ i s, abortControllerRef s = fresh ∧ L s) L); [done|..].
  - intros i x s s' Hx [Hr Hs] Hb.
    pose proof (lowVramBody_logged i x s Hx Hr Hs) as H'. rewrite Hb in H'.
    split; [|done]. by eapply lowVramBody_next_fresh.
  - intros i x s s' Hx [Hr Hs] Hb.
    pose proof (lowVramBody_logged i x s Hx Hr Hs) as H'. by rewrite Hb in H'.
  - by intros s [_ Hs].
Qed.

(** What Phase 1 hands over to Phase 3: for each entry the file of its job
    and the markdown its extract call returned. *)
Lemma phase1_handover st :
  abortControllerRef st = fresh → L st →
  let s := forEach (extractBody quality env) 0 files (st, []) in
  L s.1 ∧
  ∀ m, m ∈ s.2 →
    ∃ f data, files !! mr_index m = Some f ∧
      answer "OCR failed" (env (CallExtract (mr_index m))) = inr data ∧
      mr_markdown m = markdown data.
Proof.
  intros Href H.
  set (Good := λ m : MarkdownResult,
    ∃ f data, files !! mr_index m = Some f ∧
      answer "OCR failed" (env (CallExtract (mr_index m))) = inr data ∧
      mr_markdown m = markdown data).
  set (Post := λ s : App * list MarkdownResult, L s.1 ∧ ∀ m, m ∈ s.2 → Good m).
  assert (Hstep : ∀ i x s fl s', files !! i = Some x →
            abortControllerRef s.1 = fresh → Post s →
            extractBody quality env i x s = (fl, s') → Post s').
  { intros i x [s a] fl [s' a'] Hx Hr [Hs Ha] Hb. cbn [fst snd] in *.
    pose proof (extractBody_logged i x s a Hx Hr Hs) as H'. rewrite Hb in H'.
    split; [done|]. cbn [snd].
    rewrite extractBody_fresh in Hb by done. cbv zeta in Hb.
    destruct (stopped _); injection Hb as <- <- <-; [done|].
    intros m Hm. apply elem_of_app in Hm as [Hm|Hm]; [by apply Ha|].
    unfold extractPush in Hm.
    destruct (answer "OCR failed" (env (CallExtract i))) as [err|data] eqn:E.
    - by apply elem_of_nil in Hm.
    - apply list_elem_of_singleton in Hm as ->. by exists x, data. }
  apply (forEach_rule (extractBody quality env) files
           (λ i s, abortControllerRef s.1 = fresh ∧ Post s) Post).
  - split; [done|]. split; [done|]. intros m Hm. by apply elem_of_nil in Hm.
  - intros i x s s' Hx [Hr Hs] Hb. split; [|by eapply Hstep].
    destruct s, s'. by eapply extractBody_next_fresh.
  - intros i x s s' Hx [Hr Hs] Hb. by eapply Hstep.
  - by intros s [_ Hs].
Qed.

Lemma batch_logged st :
  abortControllerRef st = fresh → L st →
  L (handleBatchProcessing files model template contextWindow quality env st).
Proof.
  intros Href H. unfold handleBatchProcessing.
  destruct (phase1_handover st Href H) as [H1 Hacc].
  destruct (phase1_calls files quality env st Href) as (k1 & _ & _ & Hr & _).
  destruct (forEach (extractBody quality env) 0 files (st, [])) as [st1 acc].
  cbn [fst snd] in *. unfold signalAborted. rewrite Hr.
  destruct (phase1Cancelled env (length files)); [done|]. cbn [aborted fresh].
  pose proof (unloadModel_ref env (CallUnload None) st1) as Hru. rewrite Hr in Hru.
  assert (L (unloadModel env (CallUnload None) st1)) as Hu.
  { apply logged_unloadModel; [done..|by apply P_fetch|done]. }
  destruct (stopped (env (CallUnload None))).
  - rewrite forEach_break_first; [done|].
    intros i m. apply parseBody_aborted. unfold signalAborted. by rewrite Hru.
  - apply (forEach_rule _ acc (λ i s, abortControllerRef s = fresh ∧ L s) L); [done|..].
    + intros i m s s' Hm [Hr' Hs] Hb.
      pose proof (parseBody_logged i m s
                    (Hacc m (list_elem_of_lookup_2 _ _ _ Hm)) Hr' Hs) as H'.
      rewrite Hb in H'. split; [|done]. by eapply parseBody_next_fresh.
    + intros i m s s' Hm [Hr' Hs] Hb.
      pose proof (parseBody_logged i m s
                    (Hacc m (list_elem_of_lookup_2 _ _ _ Hm)) Hr' Hs) as H'.
      by rewrite Hb in H'.
    + by intros s [_ Hs].
Qed.
End RunLogged.

(** The events of a whole run, after the setup. *)
Lemma run_logged (files : list File) (model template : string)
    (contextWindow : Z) (mode : ProcessingMode) (quality : OCRQuality)
    (env : Env) (P : Event → Prop) (st : App) :
  (∀ rs, P (EvRender rs)) → P EvStop → (∀ m, P (EvWarn m)) →
  (∀ c req, wellAddressed files model template contextWindow
              (quality_param quality) env (EvFetch c req) → P (EvFetch c req)) →
  Logged P (log (startSetup files st))
    (handleStart files model template contextWindow mode quality env st).
Proof.
  intros Hrender Hstop Hwarn Hfetch.
  assert (Logged P (log (startSetup files st)) (startSetup files st)) as Hs
    by (by exists []).
  pose proof (startSetup_ref files st) as Hr.
  unfold handleStart, Logged. cbn [log setIsProcessing setAbortControllerRef].
  destruct mode;
    [by apply normal_logged|by apply batch_logged|by apply lowVram_logged].
Qed.

(** X4. Every request of a run is made for a job of the run and carries
    what belongs to that job: a process or extract call the job's own file
    and the settings chosen at the start, a parse call the job's file name,
    the settings and the markdown that the extract call of the same job
    returned. *)
Theorem requests_well_addressed (files : list File) (model template : string)
    (contextWindow : Z) (mode : ProcessingMode) (quality : OCRQuality)
    (env : Env) (st : App) :
  ∃ new,
    log (handleStart files model template contextWindow mode quality env st)
      = new ++ log st ∧
    Forall (wellAddressed files model template contextWindow
              (quality_param quality) env) new.
Proof.
  destruct (run_logged files model template contextWindow mode quality env
              (wellAddressed files model template contextWindow
                 (quality_param quality) env) st) as (new & Hl & Hnew); try done.
  rewrite startSetup_log in Hl. eexists. split.
  - rewrite Hl. by rewrite app_comm_cons, app_assoc.
  - apply Forall_app. split; [done|]. constructor; [done|].
    apply Forall_reverse, Forall_forall.
    intros e He. apply list_elem_of_lookup in He as [i He].
    rewrite list_lookup_imap in He. by destruct (files !! i); simplify_eq/=.
Qed.

(** * Schedules and results *)

Lemma started_le halts i n : started halts i n ≤ n.
Proof.
  revert i. induction n as [|n IH]; intros i; [done|]. cbn [started].
  destruct (halts i); [lia|]. specialize (IH (S i)). lia.
Qed.

Lemma started_all halts i n :
  (∀ j, i ≤ j < i + n → halts j = false) → started halts i n = n.
Proof.
  revert i. induction n as [|n IH]; intros i Hq; [done|]. cbn [started].
  rewrite Hq by lia. f_equal. apply IH. intros j Hj. apply Hq. lia.
Qed.

Section Schedules.
Variable files : list File.
Variable model template : string.
Variable contextWindow : Z.
Variable quality : string.
Variable env : Env.

Lemma normal_schedule i fs st :
  abortControllerRef st = fresh →
  issued (log (forEach (normalBody model template contextWindow quality env) i fs st))
  = issued (log st)
    ++ (CallProcess <$> seq i (started (λ j, stopped (env (CallProcess j))) i (length fs))).
Proof.
  revert i st. induction fs as [|f fs IH]; intros i st Href.
  { cbn. by rewrite app_nil_r. }
  cbn [forEach length started]. rewrite normalBody_fresh by done. cbv zeta.
  destruct (stopped (env (CallProcess i))).
  - app_simpl. by rewrite !issued_cons, !app_nil_r.
  - rewrite IH by (by app_simpl). app_simpl.
    rewrite !issued_cons, !app_nil_r. cbn [seq fmap list_fmap].
    by rewrite <- app_assoc.
Qed.
End Schedules.

(** X5. A Performance run calls the process endpoint once per job, in file
    order, up to and including the first call during which Stop is pressed;
    it makes no other call, so it never unloads a model. *)
Theorem performance_schedule (files : list File) (model template : string)
    (contextWindow : Z) (quality : OCRQuality) (env : Env) (st : App) :
  issued (log (handleStart files model template contextWindow performance
                 quality env st))
  = issued (log st)
    ++ (CallProcess <$>
          seq 0 (started (λ j, stopped (env (CallProcess j))) 0 (length files))).
Proof.
  unfold handleStart. cbn [log setIsProcessing setAbortControllerRef].
  unfold handleNormalProcessing.
  rewrite normal_schedule by apply startSetup_ref.
  by rewrite startSetup_issued.
Qed.

(** X6. A Batch run makes its calls in three blocks: the extract calls in
    file order, then the one unload, then the parse calls, in file order
    and only for jobs whose extract call succeeded. *)
Theorem batch_phases_in_order (files : list File) (model template : string)
    (contextWindow : Z) (quality : OCRQuality) (env : Env) (st : App) :
  ∃ k1 k3,
    k1 ≤ length files ∧
    issued (log (handleStart files model template contextWindow batch quality env st))
    = issued (log st) ++ (CallExtract <$> seq 0 k1) ++
      (if phase1Cancelled env (length files) then []
       else CallUnload None ::
            (CallParse <$>
               take k3 (filter (extractSucceeds env) (seq 0 (length files))))) ∧
    ((∀ c, stopped (env c) = false) →
     k1 = length files ∧
     k3 = length (filter (extractSucceeds env) (seq 0 (length files)))).
Proof.
  unfold handleStart. cbn [log setIsProcessing setAbortControllerRef].
  destruct (batch_calls files model template contextWindow (quality_param quality)
              env (startSetup files st) (startSetup_ref files st))
    as (k1 & k3 & Hk1 & Hc & Hreach & Hfull).
  exists k1, k3. split; [done|]. split; [by rewrite Hc, startSetup_issued|].
  intros Hq. split.
  - destruct (length files) as [|n] eqn:Hn; [lia|].
    specialize (Hreach n ltac:(lia) (λ j _, Hq _)). lia.
  - apply Hfull; [|done|done]. apply phase1Cancelled_false. intros j _. apply Hq.
Qed.

Lemma startSetup_job files st k f :
  files !! k = Some f →
  results (startSetup files st) !! k
  = Some (mkResultItem (name f) Pending None None None None
            (Some (previewUrl (blobs st) k))).
Proof. intros Hf. by rewrite startSetup_results, list_lookup_imap, Hf. Qed.

(** X7. A Performance job whose process call is answered with an OK
    response ends as Success with the raw output and the parsed data of
    that response, no error, the time the call took, and the name and
    preview it got at the start. *)
Theorem performance_success (files : list File) (model template : string)
    (contextWindow : Z) (quality : OCRQuality) (env : Env) (st : App)
    (k : nat) (f : File) (d : ResponseData) :
  files !! k = Some f →
  (∀ j, j ≤ k → stopped (env (CallProcess j)) = false) →
  answer "Processing failed" (env (CallProcess k)) = inr d →
  results (handleStart files model template contextWindow performance quality env st)
    !! k
  = Some (mkResultItem (name f) Success (raw_output d) (parsed_data d) None
            (Some (elapsed (env (CallProcess k))))
            (Some (previewUrl (blobs st) k))).
Proof.
  intros Hf Hq Ha. unfold handleStart.
  cbn [results setIsProcessing setAbortControllerRef].
  destruct (normal_summary files model template contextWindow
              (quality_param quality) env (startSetup files st)
              (startSetup_ref files st) k) as [_ Hres].
  { by eapply lookup_lt_Some. }
  { intros j Hj. apply Hq. lia. }
  rewrite Hres by (apply Hq; lia). rewrite (startSetup_job _ _ _ f) by done.
  cbn [fmap option_fmap option_map]. unfold normalFinal, normalUpdate. by rewrite Ha.
Qed.

(** X8. A Low-VRAM job whose extract and parse calls are both answered with
    an OK response ends as Success with the markdown of the first and the
    parsed data of the second, and its processing time is the time of its
    extract, unload and parse calls together. *)
Theorem lowvram_success (files : list File) (model template : string)
    (contextWindow : Z) (quality : OCRQuality) (env : Env) (st : App)
    (k : nat) (f : File) (d1 d2 : ResponseData) :
  files !! k = Some f →
  (∀ j, j ≤ k → lowVramBreaks env j = false) →
  answer "OCR failed" (env (CallExtract k)) = inr d1 →
  answer "Parse failed" (env (CallParse k)) = inr d2 →
  results (handleStart files model template contextWindow lowvram quality env st)
    !! k
  = Some (mkResultItem (name f) Success (markdown d1) (parsed_data d2) None
            (Some (elapsed (env (CallExtract k))
                   + elapsed (env (CallUnload (Some k)))
                   + elapsed (env (CallParse k)))%Z)
            (Some (previewUrl (blobs st) k))).
Proof.
  intros Hf Hq Ha1 Ha2. unfold handleStart.
  cbn [results setIsProcessing setAbortControllerRef].
  destruct (lowVram_summary files model template contextWindow
              (quality_param quality) env (startSetup files st)
              (startSetup_ref files st) k) as [_ Hres].
  { by eapply lookup_lt_Some. }
  { intros j Hj. apply Hq. lia. }
  rewrite Hres by (apply Hq; lia). rewrite (startSetup_job _ _ _ f) by done.
  cbn [fmap option_fmap option_map]. unfold lowVramFinal, parseUpdate.
  by rewrite Ha1, Ha2.
Qed.

(** * Batch runs that nobody stops *)

Lemma total_app f l1 l2 : total f (l1 ++ l2) = (total f l1 + total f l2)%Z.
Proof. induction l1 as [|x l1 IH]; cbn in *; [done|]. unfold total in *. lia. Qed.

Lemma total_seq_split f k n :
  k ≤ n → total f (seq 0 n) = (total f (seq 0 k) + total f (seq k (n - k)))%Z.
Proof.
  intros Hk. replace n with (k + (n - k)) at 1 by lia.
  by rewrite seq_app, total_app.
Qed.

Section BatchTime.
Variable files : list File.
Variable model template : string.
Variable contextWindow : Z.
Variable quality : string.
Variable env : Env.
Hypothesis never : ∀ c, stopped (env c) = false.

(** [markdownResults] after the extract calls of the jobs before [i]. *)
#[local] Abbreviation pushed c0 i :=
  (flat_map (λ j, extractPush (env (CallExtract j)) j
                    (c0 + total (extractTime env) (seq 0 j))%Z) (seq 0 i)).

Lemma pushed_snoc c0 i :
  pushed c0 (S i) = pushed c0 i ++ extractPush (env (CallExtract i)) i
                      (c0 + total (extractTime env) (seq 0 i))%Z.
Proof. by rewrite seq_snoc, flat_map_app; cbn [flat_map]; rewrite app_nil_r. Qed.

Lemma pushed_index c0 i :
  mr_index <$> pushed c0 i = filter (extractSucceeds env) (seq 0 i).
Proof.
  induction i as [|i IH]; [done|].
  by rewrite pushed_snoc, fmap_app, IH, extractPush_index, filter_seq_snoc.
Qed.

Lemma phase1_clock st :
  abortControllerRef st = fresh →
  let s := forEach (extractBody quality env) 0 files (st, []) in
  abortControllerRef s.1 = fresh ∧
  clock s.1 = (clock st + total (extractTime env) (seq 0 (length files)))%Z ∧
  s.2 = pushed (clock st) (length files).
Proof.
  intros Href.
  apply (forEach_rule (extractBody quality env) files
    (λ i s, abortControllerRef s.1 = fresh ∧
            clock s.1 = (clock st + total (extractTime env) (seq 0 i))%Z ∧
            s.2 = pushed (clock st) i)
    (λ s, abortControllerRef s.1 = fresh ∧
          clock s.1 = (clock st + total (extractTime env) (seq 0 (length files)))%Z ∧
          s.2 = pushed (clock st) (length files))).
  - cbn. split; [done|]. split; [lia|done].
  - intros i f [s acc] [s' acc'] _ (Hr & Hc & Hacc). cbn [fst snd] in *.
    rewrite extractBody_fresh by done. cbv zeta. rewrite never.
    intros [= <- <-]. split; [by app_simpl|]. split.
    + app_simpl. rewrite seq_snoc, total_app, Hc. unfold extractTime, total. cbn. lia.
    + by rewrite pushed_snoc, Hacc, Hc.
  - intros i f [s acc] [s' acc'] _ (Hr & _). cbn [fst] in Hr.
    rewrite extractBody_fresh by done. cbv zeta. by rewrite never.
  - done.
Qed.

(** Phase 3 over the list [todo], position by position. *)
Lemma phase3_clock i todo st :
  abortControllerRef st = fresh →
  NoDup (mr_index <$> todo) →
  (∀ m, m ∈ todo → is_Some (files !! mr_index m)) →
  let s := forEach (parseBody files model template contextWindow env) i todo st in
  (∀ j, j ∉ mr_index <$> todo → results s !! j = results st !! j) ∧
  (∀ p m r0, todo !! p = Some m → results st !! mr_index m = Some r0 →
     results s !! mr_index m
     = Some (parseUpdate (env (CallParse (mr_index m)))
               (clock st + total (parseTime env) (mr_index <$> take (S p) todo)
                - mr_startTime m)
               (with_status Processing r0))).
Proof.
  revert i st. induction todo as [|m todo IH]; intros i st Href Hnd Hin; cbv zeta.
  { split; [done|]. intros p m r0 Hp. by rewrite lookup_nil in Hp. }
  rewrite fmap_cons in Hnd. apply NoDup_cons in Hnd as [Hm Hnd].
  destruct (Hin m ltac:(left)) as [f Hf].
  cbn [forEach]. rewrite (parseBody_fresh _ _ _ _ _ _ _ f) by done. cbv zeta.
  rewrite never.
  set (st' := setAt (mr_index m) _ _).
  assert (abortControllerRef st' = fresh) as Href' by (subst st'; by app_simpl).
  assert (clock st' = (clock st + parseTime env (mr_index m))%Z) as Hclock
    by (subst st'; by app_simpl).
  assert (Hother : ∀ j, j ≠ mr_index m → results st' !! j = results st !! j).
  { intros j Hj. subst st'. rewrite setAt_lookup_ne by done.
    cbn [results advanceClock logEvent]. by rewrite setAt_lookup_ne. }
  destruct (IH (S i) st' Href' Hnd (λ m' Hm', Hin m' ltac:(by right)))
    as [Hframe Hdone].
  split.
  - intros j Hj. rewrite fmap_cons in Hj. apply not_elem_of_cons in Hj as [Hj1 Hj2].
    rewrite Hframe by done. by apply Hother.
  - intros p m' r0 Hp Hr0. destruct p as [|p]; cbn [lookup list_lookup] in Hp.
    + injection Hp as <-. rewrite Hframe by done. subst st'.
      rewrite setAt_lookup_eq. cbn [results advanceClock logEvent].
      rewrite setAt_lookup_eq, Hr0. cbn [fmap option_fmap option_map take list_fmap].
      do 2 f_equal. rewrite take_0. unfold total, parseTime. cbn. lia.
    + assert (mr_index m' ≠ mr_index m) as Hne.
      { intros Heq. apply Hm. rewrite <- Heq. apply list_elem_of_fmap_2.
        by eapply list_elem_of_lookup_2. }
      rewrite (Hdone p m' r0 Hp) by (by rewrite Hother).
      do 2 f_equal. rewrite Hclock. cbn [take fmap list_fmap].
      change (total (parseTime env) (mr_index m :: ?l))
        with (parseTime env (mr_index m) + total (parseTime env) l)%Z. lia.
Qed.

Lemma batch_time st k r0 d1 :
  abortControllerRef st = fresh →
  k < length files →
  results st !! k = Some r0 →
  answer "OCR failed" (env (CallExtract k)) = inr d1 →
  results (handleBatchProcessing files model template contextWindow quality env st) !! k
  = Some (parseUpdate (env (CallParse k)) (batchTime env (length files) k)
            (with_status Processing (extracted d1 (with_status Processing r0)))).
Proof.
  intros Href Hk Hr0 Ha. unfold handleBatchProcessing.
  pose proof (phase1_results files quality env st Href k Hk (λ j _, never _)) as Hres.
  rewrite Hr0 in Hres.
  destruct (phase1_clock st Href) as (Hr & Hc & Hacc).
  destruct (forEach (extractBody quality env) 0 files (st, [])) as [st1 acc].
  cbn [fst snd fmap option_fmap option_map] in *. unfold signalAborted. rewrite Hr.
  cbn [aborted fresh].
  pose proof (unloadModel_ref env (CallUnload None) st1) as Hru.
  pose proof (unloadModel_lookup env (CallUnload None) st1 k) as Hlu.
  rewrite Hr, never in Hru. rewrite Hres, never in Hlu.
  assert (clock (unloadModel env (CallUnload None) st1)
          = (clock st1 + elapsed (env (CallUnload None)))%Z) as Hcu.
  { rewrite unloadModel_eq. unfold warnIfFailed, suspend. rewrite never.
    by destruct (outcome _). }
  assert (extractSucceeds env k) as Hsucc.
  { unfold extractSucceeds, succeeds. by rewrite Ha. }
  set (p := length (pushed (clock st) k)).
  assert (acc = pushed (clock st) k
                ++ mkMarkdownResult k (markdown d1)
                     (clock st + total (extractTime env) (seq 0 k))%Z
                   :: flat_map (λ j, extractPush (env (CallExtract j)) j
                                  (clock st + total (extractTime env) (seq 0 j))%Z)
                        (seq (S k) (length files - S k))) as Hsplit.
  { rewrite Hacc. replace (length files) with (S k + (length files - S k)) at 1 by lia.
    rewrite seq_app, flat_map_app, pushed_snoc, <- app_assoc. f_equal.
    unfold extractPush. by rewrite Ha. }
  destruct (phase3_clock 0 acc (unloadModel env (CallUnload None) st1) Hru)
    as [_ Hdone].
  { rewrite Hacc, pushed_index. apply NoDup_filter, NoDup_seq. }
  { intros m Hm. apply lookup_lt_is_Some.
    assert (mr_index m ∈ mr_index <$> acc) as Hin by (by apply list_elem_of_fmap_2).
    rewrite Hacc, pushed_index in Hin. apply list_elem_of_filter in Hin as [_ Hin].
    apply list_elem_of_In, in_seq in Hin. lia. }
  specialize (Hdone p _ (extractFinal env k r0)
                ltac:(rewrite Hsplit; apply list_lookup_middle; done) Hlu).
  cbn [mr_index mr_startTime] in Hdone. rewrite Hdone. do 2 f_equal.
  - assert (mr_index <$> take (S p) acc
            = filter (extractSucceeds env) (seq 0 (S k))) as ->.
    { rewrite Hsplit, cons_middle, app_assoc, take_app_length'.
      - rewrite <- (pushed_index (clock st) (S k)), pushed_snoc.
        unfold extractPush. by rewrite Ha.
      - rewrite length_app. cbn [length]. lia. }
    unfold batchTime. rewrite Hcu, Hc.
    rewrite (total_seq_split (extractTime env) k (length files)) by lia. lia.
  - unfold extractFinal, extractUpdate. by rewrite Ha.
Qed.
End BatchTime.

(** X9. In a Batch run that nobody stops, a job whose extract and parse
    calls are both answered with an OK response ends as Success with the
    markdown of the first and the parsed data of the second.  Its
    processing time runs from the start of its own extract call to the end
    of its own parse call: it counts the extract calls of all later jobs,
    the unload, and the parse calls of the earlier jobs as well. *)
Theorem batch_success (files : list File) (model template : string)
    (contextWindow : Z) (quality : OCRQuality) (env : Env) (st : App)
    (k : nat) (f : File) (d1 d2 : ResponseData) :
  files !! k = Some f →
  (∀ c, stopped (env c) = false) →
  answer "OCR failed" (env (CallExtract k)) = inr d1 →
  answer "Parse failed" (env (CallParse k)) = inr d2 →
  results (handleStart files model template contextWindow batch quality env st) !! k
  = Some (mkResultItem (name f) Success (markdown d1) (parsed_data d2) None
            (Some (batchTime env (length files) k))
            (Some (previewUrl (blobs st) k))).
Proof.
  intros Hf Hq Ha1 Ha2. unfold handleStart.
  cbn [results setIsProcessing setAbortControllerRef].
  rewrite (batch_time files model template contextWindow (quality_param quality)
             env Hq (startSetup files st) k _ d1 (startSetup_ref files st)
             (lookup_lt_Some _ _ _ Hf) (startSetup_job files st k f Hf) Ha1).
  unfold parseUpdate. by rewrite Ha2.
Qed.

(** * The synchronous handlers *)

Lemma unprocess_idemp r : unprocess (unprocess r) = unprocess r.
Proof. unfold unprocess. destruct r as [? [] ? ? ? ? ?]; by repeat case_decide. Qed.

Lemma handleStop_clock st : clock (handleStop st) = clock st.
Proof.
  unfold handleStop.
  change (abortControllerRef (logEvent EvStop st)) with (abortControllerRef st).
  destruct (abortControllerRef st); reflexivity.
Qed.

(** X10. Pressing Stop a second time changes nothing but the log: the job
    list, the controller and the processing flag are as after the first
    call. *)
Theorem stop_twice (st : App) :
  results (handleStop (handleStop st)) = results (handleStop st) ∧
  abortControllerRef (handleStop (handleStop st)) = abortControllerRef (handleStop st) ∧
  isProcessing (handleStop (handleStop st)) = isProcessing (handleStop st) ∧
  clock (handleStop (handleStop st)) = clock (handleStop st).
Proof.
  split; [|split; [|split]].
  - rewrite !handleStop_results, map_map. apply map_ext. intros r. apply unprocess_idemp.
  - rewrite (handleStop_ref (handleStop st)), (handleStop_ref st).
    by destruct (abortControllerRef st).
  - done.
  - by rewrite !handleStop_clock.
Qed.

(** X11. [handleUpdateResult] with an index at or past the end of the list
    changes no job: unlike [handleRemoveResult] it does not throw. *)
Theorem update_out_of_range (st : App) (index : nat) (value : Json) :
  length (results st) ≤ index →
  results (handleUpdateResult index value st) = results st.
Proof.
  intros Hi. cbn [results handleUpdateResult setAt setResults].
  by apply mapAt_out_of_range.
Qed.

Lemma mapAt_mapAt_eq i g h (l : list ResultItem) :
  mapAt i g (mapAt i h l) = mapAt i (g ∘ h) l.
Proof.
  apply list_eq. intros j. rewrite !mapAt_lookup.
  destruct (l !! j); [|done]. cbn. by case_decide.
Qed.

Lemma mapAt_mapAt_ne i j g h (l : list ResultItem) :
  i ≠ j → mapAt i g (mapAt j h l) = mapAt j h (mapAt i g l).
Proof.
  intros Hne. apply list_eq. intros k. rewrite !mapAt_lookup.
  destruct (l !! k); [|done]. cbn. by repeat case_decide; subst.
Qed.

(** X12. Of two edits of the same job the later one wins; edits of
    different jobs can be made in either order. *)
Theorem update_laws (st : App) (i j : nat) (a b : Json) :
  results (handleUpdateResult i b (handleUpdateResult i a st))
  = results (handleUpdateResult i b st) ∧
  (i ≠ j →
   results (handleUpdateResult i a (handleUpdateResult j b st))
   = results (handleUpdateResult j b (handleUpdateResult i a st))).
Proof.
  split.
  - cbn [results handleUpdateResult setAt setResults].
    rewrite mapAt_mapAt_eq. apply list_eq. intros k. rewrite !mapAt_lookup.
    destruct (results st !! k); [|done]. cbn. by case_decide.
  - intros Hne. cbn [results handleUpdateResult setAt setResults].
    by apply mapAt_mapAt_ne.
Qed.

Lemma handleRemoveResult_eq index st r :
  results st !! index = Some r →
  jobsAndReleased (handleRemoveResult index st)
  = inr (delete index (results st),
         match truthyUrl (fileUrl r) with
         | Some url => url :: revoked (log st)
         | None => revoked (log st)
         end).
Proof.
  intros Hr. unfold handleRemoveResult. rewrite Hr. cbn [jobsAndReleased].
  destruct (truthyUrl (fileUrl r)); cbn; by rewrite filterOut_delete, Nat.sub_0_r by lia.
Qed.

Lemma handleRemoveResult_throws index st :
  results st !! index = None →
  handleRemoveResult index st = inl (undefinedRead "fileUrl").
Proof. intros Hr. unfold handleRemoveResult. by rewrite Hr. Qed.

Lemma delete_mapAt_same i g (l : list ResultItem) :
  delete i (mapAt i g l) = delete i l.
Proof.
  apply list_eq. intros k. destruct (decide (k < i)).
  - rewrite !list_lookup_delete_lt, mapAt_lookup by done.
    destruct (l !! k); [|done]. cbn. by case_decide; [lia|].
  - rewrite !list_lookup_delete_ge, mapAt_lookup by lia.
    destruct (l !! S k); [|done]. cbn. by case_decide; [lia|].
Qed.

Lemma delete_mapAt_other i j g (l : list ResultItem) :
  i ≠ j →
  delete j (mapAt i g l) = mapAt (if decide (i < j) then i else pred i) g (delete j l).
Proof.
  intros Hne. apply list_eq. intros k. rewrite mapAt_lookup.
  destruct (decide (k < j)).
  - rewrite !list_lookup_delete_lt, mapAt_lookup by done.
    destruct (l !! k); [|done]. cbn. repeat case_decide; try done; lia.
  - rewrite !list_lookup_delete_ge, mapAt_lookup by lia.
    destruct (l !! S k); [|done]. cbn. repeat case_decide; try done; lia.
Qed.

(** X13. Removal and editing by index.  Removing a job right after editing
    it gives the same list, and releases the same URL, as removing it
    unedited.  An edit of job [i] survives the removal of another job [j]:
    the edited job is then found at [i], or at [i - 1] when [j] was before
    it. *)
Theorem remove_after_update (st : App) (i j : nat) (value : Json) :
  jobsAndReleased (handleRemoveResult i (handleUpdateResult i value st))
  = jobsAndReleased (handleRemoveResult i st) ∧
  (i ≠ j →
   jobsAndReleased (handleRemoveResult j (handleUpdateResult i value st))
   = jobsAndReleased
       (andThen (handleRemoveResult j st)
          (λ st', inr (handleUpdateResult (if decide (i < j) then i else pred i)
                         value st')))).
Proof.
  split.
  - destruct (results st !! i) as [r|] eqn:Hr.
    + rewrite (handleRemoveResult_eq i st r Hr).
      rewrite (handleRemoveResult_eq i _ (with_parsedJson (Some value) r)).
      * cbn [results handleUpdateResult setAt setResults]. by rewrite delete_mapAt_same.
      * cbn [results handleUpdateResult setAt setResults].
        rewrite mapAt_lookup, Hr. cbn. by case_decide.
    + rewrite !handleRemoveResult_throws; [done..|].
      cbn [results handleUpdateResult setAt setResults]. by rewrite mapAt_lookup, Hr.
  - intros Hne. destruct (results st !! j) as [r|] eqn:Hr.
    + rewrite (handleRemoveResult_eq j _ r).
      2:{ cbn [results handleUpdateResult setAt setResults].
          rewrite mapAt_lookup, Hr. cbn. by case_decide; [lia|]. }
      unfold handleRemoveResult. rewrite Hr. cbn [andThen jobsAndReleased].
      cbn [results handleUpdateResult setAt setResults log].
      rewrite revoked_cons, delete_mapAt_other by done. f_equal.
      destruct (truthyUrl (fileUrl r));
        cbn; by rewrite filterOut_delete, Nat.sub_0_r by lia.
    + rewrite !handleRemoveResult_throws; [done..|].
      cbn [results handleUpdateResult setAt setResults]. by rewrite mapAt_lookup, Hr.
Qed.
(** * Preview URLs of a run *)

Lemma acquired_app l1 l2 : acquired (l1 ++ l2) = acquired l1 ++ acquired l2.
Proof. unfold acquired. apply omap_app. Qed.

Lemma revoked_app l1 l2 : revoked (l1 ++ l2) = revoked l1 ++ revoked l2.
Proof. unfold revoked. apply omap_app. Qed.

Lemma acquired_none l :
  Forall (λ e, ∀ f u, e ≠ EvCreateObjectURL f u) l → acquired l = [].
Proof.
  induction 1 as [|e l He _ IH]; [done|]. unfold acquired in *. cbn.
  destruct e; try done. by destruct (He f url).
Qed.

Lemma acquired_creates (fs : list File) n :
  acquired (reverse (imap (λ i f, EvCreateObjectURL f (previewUrl n i)) fs))
  = reverse (previewUrl n <$> seq 0 (length fs)).
Proof.
  revert n. induction fs as [|f fs IH] using rev_ind; intros n; [done|].
  rewrite imap_app, reverse_app, length_app, Nat.add_comm. cbn [length imap].
  rewrite seq_snoc, fmap_app, reverse_app. cbn [fmap list_fmap reverse].
  rewrite Nat.add_0_r. unfold acquired in *. cbn. f_equal. apply IH.
Qed.

Lemma removeFirst_all st :
  jobsAndReleased (removeFirst (length (results st)) st)
  = inr ([], reverse (omap (λ r, truthyUrl (fileUrl r)) (results st))
             ++ revoked (log st)).
Proof.
  remember (results st) as rs eqn:Hrs. revert st Hrs.
  induction rs as [|r rs IH]; intros st Hrs.
  { cbn. by rewrite <- Hrs. }
  cbn [length removeFirst]. unfold handleRemoveResult. rewrite <- Hrs.
  cbn [lookup list_lookup andThen].
  assert (omap (λ r, truthyUrl (fileUrl r)) (r :: rs)
          = match truthyUrl (fileUrl r) with
            | Some u => u :: omap (λ r, truthyUrl (fileUrl r)) rs
            | None => omap (λ r, truthyUrl (fileUrl r)) rs
            end) as -> by reflexivity.
  assert (filterOut 0 0 (r :: rs) = rs) as Hf.
  { cbn. case_decide; [done|]. apply filterOut_past. lia. }
  destruct (truthyUrl (fileUrl r)) as [u|].
  - rewrite (IH (setResults (filterOut 0 0) (revokeObjectURL u st)))
      by (cbn [results setResults revokeObjectURL logEvent]; by rewrite <- Hrs).
    cbn [log setResults revokeObjectURL logEvent results].
    rewrite <- Hrs, Hf, !revoked_cons.
    by rewrite reverse_cons, <- app_assoc.
  - rewrite (IH (setResults (filterOut 0 0) st))
      by (cbn [results setResults]; by rewrite <- Hrs).
    cbn [log setResults results]. by rewrite <- Hrs, Hf, !revoked_cons.
Qed.

Lemma truthy_previews (files : list File) n rs :
  identity <$> rs = imap (λ i f, (name f, Some ("blob:" +:+ pretty (n + i)))) files →
  omap (λ r, truthyUrl (fileUrl r)) rs = previewUrl n <$> seq 0 (length files).
Proof.
  revert n rs. induction files as [|f files IH]; intros n rs Hid.
  { by destruct rs. }
  destruct rs as [|r rs]; [done|]. cbn [imap fmap list_fmap] in Hid.
  apply (f_equal head) in Hid as Hr. cbn [head] in Hr. injection Hr as _ Hu.
  apply (f_equal tail) in Hid as Hrs. cbn [tail] in Hrs.
  assert (omap (λ r, truthyUrl (fileUrl r)) (r :: rs)
          = match truthyUrl (fileUrl r) with
            | Some u => u :: omap (λ r, truthyUrl (fileUrl r)) rs
            | None => omap (λ r, truthyUrl (fileUrl r)) rs
            end) as -> by reflexivity.
  cbn [length seq fmap list_fmap].
  rewrite <- fmap_S_seq, <- list_fmap_compose.
  cbn [identity snd] in Hu. rewrite Hu.
  assert (truthyUrl (Some ("blob:" +:+ pretty (n + 0))) = Some (previewUrl n 0)) as ->.
  { unfold truthyUrl, previewUrl.
    pose proof (blob_url_nonempty (n + 0)) as Hne. by destruct ("blob:" +:+ _). }
  f_equal. rewrite (IH (S n) rs).
  - apply list_fmap_ext. intros i x _. unfold previewUrl. cbn.
    by rewrite Nat.add_succ_r.
  - rewrite Hrs. apply imap_ext. intros i x _. cbn. by rewrite Nat.add_succ_r.
Qed.

(** X14. A run acquires one preview URL per file, and removing all its
    jobs afterwards, one by one, releases exactly these URLs, each once,
    and nothing else. *)
Theorem start_then_clear (files : list File) (model template : string)
    (contextWindow : Z) (mode : ProcessingMode) (quality : OCRQuality)
    (env : Env) (st : App) :
  let st' := handleStart files model template contextWindow mode quality env st in
  let urls := reverse (previewUrl (blobs st) <$> seq 0 (length files)) in
  acquired (log st') = urls ++ acquired (log st) ∧
  jobsAndReleased (removeFirst (length files) st') = inr ([], urls ++ revoked (log st)).
Proof.
  cbv zeta. split.
  - destruct (run_logged files model template contextWindow mode quality env
                (λ e, ∀ f u, e ≠ EvCreateObjectURL f u) st) as (new & Hl & Hnew);
      try done.
    rewrite Hl, startSetup_log, acquired_app, (acquired_none new Hnew).
    cbn [app]. change (acquired (EvRender ?rs :: ?l)) with (acquired l).
    by rewrite acquired_app, acquired_creates.
  - destruct (run_keeps files model template contextWindow mode quality env st)
      as (Hid & _).
    assert (length (results (handleStart files model template contextWindow mode
                               quality env st)) = length files) as Hlen.
    { apply (f_equal length) in Hid. by rewrite length_fmap, length_imap in Hid. }
    rewrite <- Hlen, removeFirst_all, start_never_revokes, Hlen.
    by rewrite (truthy_previews files (blobs st)).
Qed.

(** * The upload panel *)

Lemma panel_eta st :
  mkPanel (isDragging st) (files st) (models st) (templates st) (categories st)
          (selectedModel st) (selectedTemplate st) (contextWindow st)
          (processingMode st) (hoveredMode st) (ocrQuality st) (loadingModels st)
          (loadingTemplates st) (backendStatus st) = st.
Proof. by destruct st. Qed.

Lemma filter_nothing {A} (p : A → bool) (l : list A) :
  (∀ x, In x l → p x = false) → List.filter p l = [].
Proof.
  induction l as [|x l IH]; intros Hp; [done|]. cbn [List.filter].
  rewrite (Hp x) by (by left). apply IH. intros y Hy. apply Hp. by right.
Qed.

Lemma filter_everything {A} (p : A → bool) (l : list A) :
  (∀ x, In x l → p x = true) → List.filter p l = l.
Proof.
  induction l as [|x l IH]; intros Hp; [done|]. cbn [List.filter].
  rewrite (Hp x) by (by left). f_equal. apply IH. intros y Hy. apply Hp. by right.
Qed.

Lemma isDuplicate_app f l1 l2 :
  isDuplicate f (l1 ++ l2) = isDuplicate f l1 || isDuplicate f l2.
Proof. unfold isDuplicate. apply existsb_app. Qed.

Lemma isDuplicate_self f l : In f l → isDuplicate f l = true.
Proof.
  intros Hin. unfold isDuplicate. apply existsb_exists. exists f.
  split; [done|]. by rewrite !bool_decide_eq_true_2.
Qed.

Lemma newFiles_again (valid prev : list Picked) :
  List.filter
    (λ f, negb (isDuplicate f
                  (prev ++ List.filter (λ f, negb (isDuplicate f prev)) valid)))
    valid = [].
Proof.
  apply filter_nothing. intros g Hg. apply negb_false_iff.
  rewrite isDuplicate_app. destruct (isDuplicate g prev) eqn:Hd; [done|].
  cbn [orb]. apply isDuplicate_self, filter_In. by rewrite Hd.
Qed.

(** X15. The two ways to add files agree: a drop leaves the panel as the
    file dialog does with the same files, apart from ending the drag; the
    test for an empty drop changes nothing. *)
Theorem drop_as_file_input (dropped : list Picked) (st : Panel) :
  handleDrop dropped st = setIsDragging false (handleFileInput (Some dropped) st).
Proof.
  unfold handleDrop, handleFileInput.
  destruct (List.filter isValidFile dropped) as [|f fs] eqn:Hf; [|done].
  cbn. unfold setIsDragging, setFiles. cbn. by rewrite app_nil_r.
Qed.

(** X16. Adding the same selection a second time adds nothing. *)
Theorem add_again_adds_nothing (selected : list Picked) (st : Panel) :
  handleFileInput (Some selected) (handleFileInput (Some selected) st)
  = handleFileInput (Some selected) st.
Proof.
  unfold handleFileInput, setFiles. cbn [files isDragging models templates
    categories selectedModel selectedTemplate contextWindow processingMode
    hoveredMode ocrQuality loadingModels loadingTemplates backendStatus].
  by rewrite newFiles_again, app_nil_r.
Qed.

(** X17. Duplicates are looked for among the files already listed only:
    when no file of a selection is listed yet, all its valid files are
    added, also those that are duplicates of one another. *)
Theorem duplicates_within_a_selection (selected : list Picked) (st : Panel) :
  (∀ f, f ∈ selected → isDuplicate f (files st) = false) →
  files (handleFileInput (Some selected) st)
  = files st ++ List.filter isValidFile selected.
Proof.
  intros Hnew. unfold handleFileInput, setFiles. cbn [files]. f_equal.
  apply filter_everything. intros f Hf. apply filter_In in Hf as [Hf _].
  apply negb_true_iff, Hnew. by apply list_elem_of_In.
Qed.

Lemma withoutIndex_past index i (l : list Picked) :
  index < i → withoutIndex index i l = l.
Proof.
  revert i. induction l as [|r l IH]; intros i Hi; [done|]. cbn [withoutIndex].
  destruct (decide (i ≠ index)); [|lia]. f_equal. apply IH. lia.
Qed.

Lemma withoutIndex_delete index i (l : list Picked) :
  i ≤ index → withoutIndex index i l = delete (index - i) l.
Proof.
  revert i. induction l as [|r l IH]; intros i Hi; [done|]. cbn [withoutIndex].
  destruct (decide (i ≠ index)) as [Hne|Heq].
  - replace (index - i) with (S (index - S i)) by lia. cbn [delete list_delete].
    f_equal. apply IH. lia.
  - assert (i = index) as -> by lia. rewrite Nat.sub_diag. cbn [delete list_delete].
    apply withoutIndex_past. lia.
Qed.

Lemma delete_past {A} (l : list A) i : length l ≤ i → delete i l = l.
Proof.
  revert i. induction l as [|x l IH]; intros i Hi; [done|].
  destruct i as [|i]; cbn in *; [lia|]. f_equal. apply IH. lia.
Qed.

(** X18. [removeFile] deletes the file at the index; with an index past the
    end of the list it changes nothing, and removing the file just added
    gives back the panel as it was. *)
Theorem remove_file (index : nat) (f : Picked) (st : Panel) :
  files (removeFile index st) = delete index (files st) ∧
  (length (files st) ≤ index → removeFile index st = st) ∧
  (isValidFile f = true → isDuplicate f (files st) = false →
   removeFile (length (files st)) (handleFileInput (Some [f]) st) = st).
Proof.
  assert (Hdel : ∀ i s, files (removeFile i s) = delete i (files s)).
  { intros i s. cbn. by rewrite withoutIndex_delete, Nat.sub_0_r by lia. }
  split; [apply Hdel|]. split.
  - intros Hi. unfold removeFile, setFiles.
    rewrite withoutIndex_delete, Nat.sub_0_r, delete_past by lia. apply panel_eta.
  - intros Hv Hd. unfold removeFile, handleFileInput, setFiles.
    cbn [files isDragging models templates categories selectedModel
         selectedTemplate contextWindow processingMode hoveredMode ocrQuality
         loadingModels loadingTemplates backendStatus List.filter].
    rewrite Hv. cbn [List.filter]. rewrite Hd. cbn [negb].
    rewrite withoutIndex_delete, Nat.sub_0_r by lia.
    rewrite delete_middle, app_nil_r. apply panel_eta.
Qed.

(** X19. The button is disabled exactly when a click on it would call
    neither [onStop] nor [onStart]. *)
Theorem button_disabled_iff_no_call (isProcessing : bool) (st : Panel) :
  buttonDisabled isProcessing st = true ↔ handleStartStop isProcessing st = NoCall.
Proof.
  unfold buttonDisabled, handleStartStop.
  destruct isProcessing; [by rewrite andb_false_r|].
  destruct (files st); cbn; split; done.
Qed.

(** X20. A click on the enabled button while nothing is processing starts
    a run whose job list shows the listed files, in their order and under
    their names. *)
Theorem click_start_lists_files (st : Panel) (env : Env) (app : App) :
  files st ≠ [] →
  filename <$> results (dispatch (handleStartStop false st) env app)
  = (λ f, name (file f)) <$> files st.
Proof.
  intros Hne. unfold handleStartStop. destruct (files st) as [|f fs] eqn:Hf; [done|].
  change (0 <? length (f :: fs)) with true. cbv iota. cbn [dispatch].
  destruct (run_keeps (file <$> f :: fs) (selectedModel st) (selectedTemplate st)
              (contextWindow st) (processingMode st) (ocrQuality st) env app)
    as [Hid _].
  apply (f_equal (fmap fst)) in Hid. rewrite <- list_fmap_compose in Hid.
  etrans; [exact Hid|]. apply list_eq. intros i.
  rewrite !list_lookup_fmap, list_lookup_imap, list_lookup_fmap.
  by destruct ((f :: fs) !! i).
Qed.

(** ** Labels *)

Lemma length_string_of_list l :
  String.length (String.string_of_list_ascii l) = length l.
Proof. induction l as [|c l IH]; cbn; [done|]. by rewrite IH. Qed.

Lemma length_units s : length (units s) = String.length s.
Proof. unfold units. induction s as [|c s IH]; cbn; [done|]. by rewrite IH. Qed.

Lemma length_append (s t : string) :
  String.length (s +:+ t) = String.length s + String.length t.
Proof. induction s as [|c s IH]; simpl; [done|]. by f_equal. Qed.

Lemma length_slice0 n s : String.length (slice0 n s) = n `min` String.length s.
Proof. unfold slice0. by rewrite length_string_of_list, length_take, length_units. Qed.

Lemma label_fit limit keep (name : string) :
  keep + 3 = limit →
  let label := if limit <? String.length name
               then slice0 keep name +:+ "..." else name in
  String.length label = String.length name `min` limit ∧
  (label = name ↔ String.length name ≤ limit).
Proof.
  intros Hk. cbv zeta.
  destruct (Nat.ltb_spec limit (String.length name)) as [Hl|Hl].
  - assert (String.length (slice0 keep name +:+ "...") = limit) as Hlen.
    { rewrite length_append, length_slice0. cbn [String.length]. lia. }
    split; [lia|]. split; [|lia].
    intros Heq. rewrite Heq in Hlen. lia.
  - split; [lia|]. done.
Qed.

(** X21. The labels of the file cards and of the result cards never exceed
    15 and 12 units: a name within the limit is shown in full, a longer one
    is cut to the limit, dots included. *)
Theorem labels_fit (name : string) :
  String.length (fileLabel name) = String.length name `min` 15 ∧
  (fileLabel name = name ↔ String.length name ≤ 15) ∧
  String.length (resultLabel name) = String.length name `min` 12 ∧
  (resultLabel name = name ↔ String.length name ≤ 12).
Proof.
  destruct (label_fit 15 12 name eq_refl) as [H1 H2].
  destruct (label_fit 12 9 name eq_refl) as [H3 H4].
  done.
Qed.

(** ** Waiting for the backend *)

Section Retry.
Context {D : Type}.
Variable respond : nat → Reply D.
Variable url : string.
Variable onSuccess : D → Panel → Thrown + Panel.
Variable onFinally : Panel → Panel.
Variable baseDelay : Z.

Lemma tries_snoc k :
  tries url baseDelay (S k)
  = tries url baseDelay k ++ [PollFetch url; PollWait baseDelay].
Proof. induction k as [|k IH]; [done|]. cbn [tries] in *. by rewrite IH at 1. Qed.

Lemma retryFrom_settles k : ∀ remaining i st st' trace,
  k < remaining →
  (∀ j, j < k → attempt respond onSuccess (i + j) st = None) →
  attempt respond onSuccess (i + k) st = Some st' →
  retryFrom respond url onSuccess onFinally baseDelay remaining i st trace
  = (onFinally st', trace ++ tries url baseDelay k ++ [PollFetch url; PollFinally]).
Proof.
  induction k as [|k IH]; intros remaining i st st' trace Hk Hfail Hok.
  - destruct remaining as [|remaining]; [lia|]. cbn [retryFrom tries].
    rewrite Nat.add_0_r in Hok. rewrite Hok. by rewrite <- app_assoc.
  - destruct remaining as [|remaining]; [lia|]. cbn [retryFrom tries].
    rewrite <- (Nat.add_0_r i) at 1. rewrite (Hfail 0) by lia.
    rewrite (IH remaining (S i) st st'); [|lia| |].
    + by rewrite <- !app_assoc.
    + intros j Hj. replace (S i + j) with (i + S j) by lia. apply Hfail. lia.
    + by replace (S i + k) with (i + S k) by lia.
Qed.

Lemma retryFrom_gives_up : ∀ remaining i st trace,
  (∀ j, j < remaining → attempt respond onSuccess (i + j) st = None) →
  retryFrom respond url onSuccess onFinally baseDelay remaining i st trace
  = (onFinally st, trace ++ tries url baseDelay remaining ++ [PollFinally]).
Proof.
  induction remaining as [|remaining IH]; intros i st trace Hfail; [done|].
  cbn [retryFrom tries]. rewrite <- (Nat.add_0_r i) at 1. rewrite (Hfail 0) by lia.
  rewrite IH.
  - by rewrite <- !app_assoc.
  - intros j Hj. replace (S i + j) with (i + S j) by lia. apply Hfail. lia.
Qed.
End Retry.


(** X23. The callback for the model list throws when the backend reports
    success without a list of models.  As long as the backend answers like
    that, [loadModels] keeps asking: it makes all 30 attempts, and in the end
    only the loading flag has changed. *)
Theorem models_without_list (respond : nat → Reply ModelsData) (st : Panel) :
  (∀ i, i < 30 →
     respond i = Replied true (Some (mkModelsData (Some "success") None))) →
  loadModels respond st
  = (setLoadingModels false st,
     tries "/api/ollama/models" 1000 30 ++ [PollFinally]).
Proof.
  intros Hr. unfold loadModels, fetchWithRetry. apply retryFrom_gives_up.
  intros j Hj. cbn [Nat.add]. unfold attempt. by rewrite (Hr j Hj).
Qed.

Lemma healthFrom_ready respond k : ∀ remaining i st trace,
  k < remaining →
  (∀ j, j < k → loadedAt respond (i + j) = false) →
  loadedAt respond (i + k) = true →
  healthFrom respond remaining i st trace
  = ((healthFrom respond remaining i st trace).1,
     trace ++ tries "/api/health" 1000 k ++ [PollFetch "/api/health"]) ∧
  backendStatus (healthFrom respond remaining i st trace).1 = ready.
Proof.
  induction k as [|k IH]; intros remaining i st trace Hk Hfail Hok.
  - destruct remaining as [|remaining]; [lia|]. cbn [healthFrom tries].
    rewrite Nat.add_0_r in Hok. unfold loadedAt in Hok.
    destruct (respond i) as [|[] [d|]]; try done. rewrite Hok. done.
  - destruct remaining as [|remaining]; [lia|]. cbn [healthFrom tries].
    pose proof (Hfail 0 ltac:(lia)) as H0. rewrite Nat.add_0_r in H0.
    unfold loadedAt in H0.
    assert (Hrec : ∀ st0,
      healthFrom respond remaining (S i) st0
        ((trace ++ [PollFetch "/api/health"]) ++ [PollWait 1000])
      = ((healthFrom respond remaining (S i) st0
            ((trace ++ [PollFetch "/api/health"]) ++ [PollWait 1000])).1,
         trace ++ PollFetch "/api/health" :: PollWait 1000
           :: tries "/api/health" 1000 k ++ [PollFetch "/api/health"]) ∧
      backendStatus (healthFrom respond remaining (S i) st0
            ((trace ++ [PollFetch "/api/health"]) ++ [PollWait 1000])).1 = ready).
    { intros st0. destruct (IH remaining (S i) st0
        ((trace ++ [PollFetch "/api/health"]) ++ [PollWait 1000])) as [H1 H2].
      - lia.
      - intros j Hj. replace (S i + j) with (i + S j) by lia. apply Hfail. lia.
      - by replace (S i + k) with (i + S k) by lia.
      - split; [|done]. rewrite H1 at 1. by rewrite <- !app_assoc. }
    destruct (respond i) as [|[] [d|]]; try apply Hrec.
    rewrite H0. apply Hrec.
Qed.

Lemma healthFrom_gives_up respond : ∀ remaining i st trace,
  (∀ j, j < remaining → loadedAt respond (i + j) = false) →
  backendStatus st ≠ ready →
  (healthFrom respond remaining i st trace).2
  = trace ++ tries "/api/health" 1000 remaining ∧
  backendStatus (healthFrom respond remaining i st trace).1 ≠ ready.
Proof.
  induction remaining as [|remaining IH]; intros i st trace Hfail Hst.
  { cbn. by rewrite app_nil_r. }
  cbn [healthFrom tries].
  pose proof (Hfail 0 ltac:(lia)) as H0. rewrite Nat.add_0_r in H0.
  unfold loadedAt in H0.
  assert (Hrec : ∀ st0, backendStatus st0 ≠ ready →
    (healthFrom respond remaining (S i) st0
       ((trace ++ [PollFetch "/api/health"]) ++ [PollWait 1000])).2
    = trace ++ PollFetch "/api/health" :: PollWait 1000
        :: tries "/api/health" 1000 remaining ∧
    backendStatus (healthFrom respond remaining (S i) st0
       ((trace ++ [PollFetch "/api/health"]) ++ [PollWait 1000])).1 ≠ ready).
  { intros st0 Hst0. destruct (IH (S i) st0
      ((trace ++ [PollFetch "/api/health"]) ++ [PollWait 1000])) as [H1 H2]; [|done|].
    - intros j Hj. replace (S i + j) with (i + S j) by lia. apply Hfail. lia.
    - split; [|done]. rewrite H1. by rewrite <- !app_assoc. }
  destruct (respond i) as [|[] [d|]]; try (by apply Hrec).
  rewrite H0. by apply Hrec.
Qed.

(** X24. [checkHealth] polls once a second until a poll reports the model
    as loaded; it then shows the backend as ready and stops.  After 60
    polls without such a report it gives up for good, and the backend is
    not shown as ready. *)
Theorem check_health (respond : nat → Reply HealthData) (st : Panel) :
  (∀ k, k < 60 →
     (∀ j, j < k → loadedAt respond j = false) →
     loadedAt respond k = true →
     backendStatus (checkHealth respond st).1 = ready ∧
     (checkHealth respond st).2
     = tries "/api/health" 1000 k ++ [PollFetch "/api/health"]) ∧
  ((∀ j, j < 60 → loadedAt respond j = false) →
   backendStatus st ≠ ready →
   backendStatus (checkHealth respond st).1 ≠ ready ∧
   (checkHealth respond st).2 = tries "/api/health" 1000 60).
Proof.
  unfold checkHealth. split.
  - intros k Hk Hfail Hok.
    destruct (healthFrom_ready respond k 60 0 st [] Hk Hfail Hok) as [H1 H2].
    split; [done|]. by rewrite H1.
  - intros Hfail Hst.
    destruct (healthFrom_gives_up respond 60 0 st [] Hfail Hst) as [H1 H2].
    by split.
Qed.

(** * The result panel *)

(** ** Saving *)

(** A unit that none of the three replacements touches. *)
Lemma degrees_clean :
  Forall (λ u, isControl u = false ∧ u ≠ 0xB0%N ∧ isInvalid u = false) degrees.
Proof. repeat constructor; done. Qed.

Lemma sanitize_clean (text : JsText) :
  Forall (λ u, isControl u = false ∧ u ≠ 0xB0%N ∧ isInvalid u = false)
         (sanitize text).
Proof.
  unfold sanitize. apply List.Forall_forall. intros u Hu.
  apply filter_In in Hu as [Hu Hinv]. apply negb_true_iff in Hinv.
  apply in_flat_map in Hu as (w & Hw & Hu).
  apply filter_In in Hw as [_ Hctl]. apply negb_true_iff in Hctl.
  destruct (N.eqb_spec w 0xB0) as [->|Hne].
  - pose proof degrees_clean as Hd. rewrite List.Forall_forall in Hd. by apply Hd.
  - destruct Hu as [<-|[]]. done.
Qed.

Lemma sanitize_id (text : JsText) :
  Forall (λ u, isControl u = false ∧ u ≠ 0xB0%N ∧ isInvalid u = false) text →
  sanitize text = text.
Proof.
  intros Hc. unfold sanitize. rewrite List.Forall_forall in Hc.
  rewrite (filter_everything _ text).
  2:{ intros u Hu. apply negb_true_iff. by apply Hc. }
  assert (flat_map (λ u, if (u =? 0xB0)%N then degrees else [u]) text = text) as ->.
  { induction text as [|u text IH]; [done|]. cbn [flat_map].
    destruct (N.eqb_spec u 0xB0) as [->|Hne].
    - by destruct (Hc 0xB0%N ltac:(by left)) as (_ & ? & _).
    - cbn [app]. f_equal. apply IH. intros w Hw. apply Hc. by right. }
  apply filter_everything. intros u Hu. apply negb_true_iff. by apply Hc.
Qed.


Lemma units_append (s t : string) : units (s +:+ t) = units s ++ units t.
Proof. unfold units. induction s as [|c s IH]; simpl; [done|]. by f_equal. Qed.

Lemma string_of_units s : String.string_of_list_ascii (units s) = s.
Proof. apply String.string_of_list_ascii_of_string. Qed.

Lemma extensionHere_dot l : dot ∈ l → extensionHere l = false.
Proof.
  intros Hin. unfold extensionHere. destruct l as [|c l]; [done|].
  apply not_true_is_false. intros Hall.
  rewrite forallb_forall in Hall. specialize (Hall dot (proj1 (list_elem_of_In _ _) Hin)).
  rewrite bool_decide_eq_true_2 in Hall by (by right). done.
Qed.

Lemma cutExtension_match stem ext :
  extensionHere ext = true → cutExtension (stem ++ dot :: ext) = stem.
Proof.
  intros Hext. induction stem as [|c stem IH]; cbn [app cutExtension].
  - by rewrite bool_decide_eq_true_2, Hext.
  - rewrite extensionHere_dot, andb_false_r, IH; [done|].
    apply elem_of_app. right. left.
Qed.

Lemma cutExtension_no_dot l : dot ∉ l → cutExtension l = l.
Proof.
  induction l as [|c l IH]; intros Hd; [done|]. cbn [cutExtension].
  apply not_elem_of_cons in Hd as [Hc Hl].
  rewrite bool_decide_eq_false_2 by done. cbn [andb]. f_equal. by apply IH.
Qed.

(** X26. The download is named after the file without its last extension:
    a name [stem.ext], where [ext] is not empty and holds neither a dot nor
    a slash, gives [stem_parsed.json], also when that leaves an empty stem;
    a name without a dot is kept whole. *)
Theorem download_name (stem ext name : string) :
  (ext ≠ "" → (∀ c, c ∈ units ext → c ≠ dot ∧ c ≠ slash) →
   downloadName (stem +:+ "." +:+ ext) = stem +:+ "_parsed.json") ∧
  (dot ∉ units name → downloadName name = name +:+ "_parsed.json").
Proof.
  unfold downloadName. split.
  - intros Hne Hext. rewrite !units_append.
    change (units ".") with [dot]. cbn [app].
    rewrite cutExtension_match, string_of_units; [done|].
    unfold extensionHere. destruct (units ext) as [|c l] eqn:Hu.
    + destruct ext; [done|discriminate].
    + apply forallb_forall. intros x Hx. apply negb_true_iff, bool_decide_eq_false_2.
      apply list_elem_of_In in Hx. destruct (Hext x Hx). by intros [?|?].
  - intros Hd. by rewrite cutExtension_no_dot, string_of_units.
Qed.

(** ** Editing *)

(** X27. Editing a job.  After a Success job is opened at [index] and the
    text is changed to [value], a click on Apply calls [onUpdate] exactly
    when [value] parses, with [index] and the parsed value; the job list
    then holds the parsed value at [index] and is unchanged elsewhere, and
    the modal shows the same value. *)
Theorem edit_then_apply (parse : JsText → string + Json) (stringify : Json → JsText)
    (r : ResultItem) (index : nat) (value : JsText) (v : Viewer) (app : App) :
  status r = Success →
  let edited := handleJsonChange parse value
                  (openResult stringify r (Z.of_nat index) v) in
  let after := clickApply parse edited in
  match parse value with
  | inr parsed =>
      after.2 = Some (index, parsed) ∧
      selectedResult after.1 = Some (with_parsedJson (Some parsed) r) ∧
      hasChanges after.1 = false ∧
      results (onUpdate after.2 app)
      = mapAt index (with_parsedJson (Some parsed)) (results app)
  | inl _ => after.2 = None ∧ results (onUpdate after.2 app) = results app
  end.
Proof.
  intros Hs. cbv zeta. unfold openResult. rewrite decide_True by done.
  unfold handleJsonChange, clickApply, handleApplyChanges.
  cbn [selectedResult hasChanges jsonError selectedIndex editedJson andb default
       from_option id].
  destruct (parse value) as [m|parsed] eqn:Hp.
  - destruct (truthy (Some m)); cbn [negb orb]; [done|].
    by destruct (Z.ltb_spec (Z.of_nat index) 0); [lia|].
  - change (truthy None) with false. cbn [negb orb].
    destruct (Z.ltb_spec (Z.of_nat index) 0); [lia|].
    cbn [fst snd selectedResult hasChanges onUpdate]. by rewrite Nat2Z.id.
Qed.

(** ** Icon and preview *)

Lemma startSetup_single f app :
  results (startSetup [f] app)
  = [mkResultItem (name f) Pending None None None None
       (Some ("blob:" +:+ pretty (blobs app + 0)))].
Proof. by rewrite startSetup_results. Qed.

(** X28. The upload panel tells a PDF by its MIME type, the result panel by
    its file name.  A file of type [application/pdf] whose name does not
    end in [.pdf] is accepted and gets the PDF icon, but its preview is
    shown as an image. *)
Theorem icon_and_preview_disagree (f : Picked) (app : App) :
  type f = "application/pdf" →
  endsWith (toLowerCase (name (file f))) ".pdf" = false →
  isValidFile f = true ∧
  getFileIcon f = "PDF" ∧
  preview <$> results (startSetup [file f] app)
  = [ImageTag ("blob:" +:+ pretty (blobs app + 0))].
Proof.
  intros Ht Hn. split; [|split].
  - unfold isValidFile. rewrite Ht. done.
  - unfold getFileIcon. by rewrite Ht.
  - rewrite startSetup_single. cbn [fmap list_fmap]. unfold preview.
    cbn [fileUrl filename]. rewrite Hn.
    pose proof (blob_url_nonempty (blobs app + 0)) as Hne.
    unfold truthyUrl. by destruct ("blob:" +:+ pretty (blobs app + 0)).
Qed.

(** * Instances of the further properties *)

Lemma performance_success_witness :
  results (handleStart [scanA; scanB] "llm" "invoice" 4096 performance base
             allOk initialApp) !! 1
  = Some (mkResultItem "b.pdf" Success (Some "# Invoice")
            (Some (JObj [("total", JNum 42)])) None (Some 5%Z) (Some "blob:1")).
Proof.
  exact (performance_success [scanA; scanB] "llm" "invoice" 4096 base allOk
           initialApp 1 scanB _ eq_refl (λ _ _, eq_refl) eq_refl).
Defined.

Lemma lowvram_success_witness :
  results (handleStart [scanA; scanB] "llm" "invoice" 4096 lowvram base
             timedOk initialApp) !! 1
  = Some (mkResultItem "b.pdf" Success (Some "# Invoice")
            (Some (JObj [("total", JNum 42)])) None (Some 114%Z) (Some "blob:1")).
Proof.
  exact (lowvram_success [scanA; scanB] "llm" "invoice" 4096 base timedOk
           initialApp 1 scanB _ _ eq_refl (λ _ _, eq_refl) eq_refl eq_refl).
Defined.

(** The first of two Batch jobs: its own extract call (10), the extract
    call of the second job (11), the unload (3) and its parse call (100). *)
Lemma batch_success_witness :
  results (handleStart [scanA; scanB] "llm" "invoice" 4096 batch base
             timedOk initialApp) !! 0
  = Some (mkResultItem "a.pdf" Success (Some "# Invoice")
            (Some (JObj [("total", JNum 42)])) None (Some 124%Z) (Some "blob:0")).
Proof.
  exact (batch_success [scanA; scanB] "llm" "invoice" 4096 base timedOk
           initialApp 0 scanA _ _ eq_refl (λ c, match c with
                                                 | CallProcess _ | CallExtract _
                                                 | CallUnload _ | CallParse _ => eq_refl
                                                 end) eq_refl eq_refl).
Defined.

Lemma update_out_of_range_witness :
  results (handleUpdateResult 4 (JStr "edited") oneOfEach) = results oneOfEach.
Proof. apply update_out_of_range. simpl. lia. Defined.

Lemma duplicates_within_a_selection_witness :
  files (handleFileInput (Some [pickedA; pickedA]) initialPanel)
  = [pickedA; pickedA].
Proof.
  apply (duplicates_within_a_selection [pickedA; pickedA] initialPanel).
  intros f _. reflexivity.
Defined.

Lemma click_start_lists_files_witness :
  filename <$> results (dispatch (handleStartStop false panelWithA) allOk initialApp)
  = ["a.pdf"].
Proof. apply (click_start_lists_files panelWithA allOk initialApp). discriminate. Defined.

Lemma models_without_list_witness :
  loadModels noModelList initialPanel
  = (setLoadingModels false initialPanel,
     tries "/api/ollama/models" 1000 30 ++ [PollFinally]).
Proof. apply models_without_list. intros i _. reflexivity. Defined.

Lemma edit_then_apply_witness :
  (clickApply parseBraces
     (handleJsonChange parseBraces [123; 125]%N
        (openResult stringifyBraces
           (mkResultItem "a.pdf" Success (Some "# Invoice") None None (Some 5%Z)
              (Some "blob:0"))
           0 initialViewer))).2
  = Some (0, JObj []).
Proof.
  exact (proj1 (edit_then_apply parseBraces stringifyBraces
                  (mkResultItem "a.pdf" Success (Some "# Invoice") None None
                     (Some 5%Z) (Some "blob:0"))
                  0 [123; 125]%N initialViewer initialApp eq_refl)).
Defined.

Lemma icon_and_preview_disagree_witness :
  isValidFile pickedScan = true ∧
  getFileIcon pickedScan = "PDF" ∧
  preview <$> results (startSetup [file pickedScan] initialApp) = [ImageTag "blob:0"].
Proof. apply (icon_and_preview_disagree pickedScan initialApp); reflexivity. Defined.

(** * The panels on sample inputs *)

(** Which files the upload panel takes: by type or by extension, in any
    letter case, the extension being at the very end of the name. *)
Example scenario_valid_files :
  isValidFile <$> [pickedA; pickedScan; pickedNotes; pickedExe]
  = [true; true; true; false].
Proof. vm_compute. reflexivity. Qed.

Example scenario_download_names :
  downloadName <$> ["invoice.pdf"; "archive.tar.gz"; "scan"; ".env"; "v1./x"]
  = ["invoice_parsed.json"; "archive.tar_parsed.json"; "scan_parsed.json";
     "_parsed.json"; "v1./x_parsed.json"].
Proof. vm_compute. reflexivity. Qed.

(** Pretty-printed JSON with a degree sign: the line break and the
    indentation's control characters go, the sign is spelled out. *)
Example scenario_sanitize :
  sanitize [123; 10; 32; 34; 116; 34; 58; 32; 34; 50; 48; 176; 34; 10; 125]%N
  = [123; 32; 34; 116; 34; 58; 32; 34; 50; 48;
     32; 100; 101; 103; 114; 101; 101; 115; 32; 34; 125]%N.
Proof. vm_compute. reflexivity. Qed.

Example scenario_check_health :
  backendStatus (checkHealth loadsAtThird initialPanel).1 = ready ∧
  (checkHealth loadsAtThird initialPanel).2
  = [PollFetch "/api/health"; PollWait 1000; PollFetch "/api/health"; PollWait 1000;
     PollFetch "/api/health"].
Proof. vm_compute. done. Qed.

Example scenario_labels :
  fileLabel <$> ["fifteen_chars.x"; "sixteen_chars.xy"]
  = ["fifteen_chars.x"; "sixteen_char..."].
Proof. vm_compute. reflexivity. Qed.
